(** * Streaming chat transcript: the stream hook and the chat reconciler

    A shallow embedding of the chat front end's streaming core:

    - [useChatStream.ts] (hook [useChatStream]): the read loop that buffers
      decoded chunks, splits them into lines, recognises the [[DONE]]
      marker, parses [data:] records and routes them to callbacks;
    - the [Chat] screen controller: the handlers that reconcile the
      transcript ([handleThinking], [handleToolStart],
      [handleConversationChunk], [handleResponse], [handleRawProducts],
      [handleRawCart], [handleStreamError], [handleStreamComplete],
      [removeThinkingMessages], [sendMessage]).

    Conventions of the embedding:

    - JavaScript strings are sequences of UTF-16 code units;
    - React state and refs are one record, threaded explicitly; a
      functional update [setChats(prev => ...)] takes effect where the
      handler issues it, and updates apply in the order they are issued;
      React runs the queued updaters when it renders, after the
      synchronous run that queued them (one resumption of a call), so an
      updater that calls [Date.now()] reads the clock then;
    - an exception thrown by a callback leaves the callback at once and is
      caught by the [try] block around the record, which logs it;
    - a callback sees the values its closure captured: the handlers handed
      to the hook by one call of [sendMessage] keep the [activeChatId] and
      the [chats] of the render that created them, while
      [currentStreamIdRef.current] is read when the handler runs;
    - the asynchronous [sendMessage] of the hook is a state machine: each
      call is suspended at [await fetch(...)] or at [await reader.read()],
      and one event resumes one call with the settlement of the promise it
      awaits, up to its next [await] or its return;
    - what the JavaScript runtime supplies ([JSON.parse], [Date.now],
      [parseFloat], numbers, and the payload objects that no handler
      inspects) is an interface the development is parametric in. *)

From Stdlib Require Import List NArith Bool Ascii String Arith Lia.
Import ListNotations.

Set Implicit Arguments.

(** ** JavaScript strings *)

Module JS.

(** A string is its sequence of UTF-16 code units. *)
Definition JSString := list N.

(** An ASCII literal of the source, as code units. *)
Definition js (s : string) : JSString :=
  map N_of_ascii (list_ascii_of_string s).

Fixpoint eqb (s t : JSString) : bool :=
  match s, t with
  | [], [] => true
  | c :: s', d :: t' => N.eqb c d && eqb s' t'
  | _, _ => false
  end.

(** [WhiteSpace] and [LineTerminator] code points of ECMAScript, the ones
    [String.prototype.trim] strips. *)
Definition isWhiteSpace (c : N) : bool :=
  (N.leb 9 c && N.leb c 13) || N.eqb c 32 || N.eqb c 160 ||
  N.eqb c 5760 || (N.leb 8192 c && N.leb c 8202) ||
  N.eqb c 8232 || N.eqb c 8233 || N.eqb c 8239 || N.eqb c 8287 ||
  N.eqb c 12288 || N.eqb c 65279.

Fixpoint trimStart (s : JSString) : JSString :=
  match s with
  | c :: s' => if isWhiteSpace c then trimStart s' else s
  | [] => []
  end.

Definition trimEnd (s : JSString) : JSString := rev (trimStart (rev s)).

(** [s.trim()] *)
Definition trim (s : JSString) : JSString := trimEnd (trimStart s).

(** [s.startsWith(p)] *)
Fixpoint startsWith (s p : JSString) : bool :=
  match p, s with
  | [], _ => true
  | d :: p', c :: s' => N.eqb c d && startsWith s' p'
  | _ :: _, [] => false
  end.

(** [s.includes(p)] *)
Fixpoint includes (s p : JSString) : bool :=
  startsWith s p ||
  match s with
  | [] => false
  | _ :: s' => includes s' p
  end.

(** [s.substring(n)] *)
Definition substring (n : nat) (s : JSString) : JSString := skipn n s.

(** [s.split('\n')]: never empty, the last element is the text after the
    last line feed. *)
Fixpoint split (s : JSString) : list JSString :=
  match s with
  | [] => [[]]
  | c :: s' =>
      if N.eqb c 10 then [] :: split s'
      else match split s' with
           | l :: ls => (c :: l) :: ls
           | [] => [[c]]
           end
  end.

(** A string is truthy when it is not empty. *)
Definition truthy (s : JSString) : bool :=
  match s with [] => false | _ :: _ => true end.

Fixpoint uint_codes (u : Decimal.uint) : JSString :=
  match u with
  | Decimal.Nil => []
  | Decimal.D0 u => 48%N :: uint_codes u
  | Decimal.D1 u => 49%N :: uint_codes u
  | Decimal.D2 u => 50%N :: uint_codes u
  | Decimal.D3 u => 51%N :: uint_codes u
  | Decimal.D4 u => 52%N :: uint_codes u
  | Decimal.D5 u => 53%N :: uint_codes u
  | Decimal.D6 u => 54%N :: uint_codes u
  | Decimal.D7 u => 55%N :: uint_codes u
  | Decimal.D8 u => 56%N :: uint_codes u
  | Decimal.D9 u => 57%N :: uint_codes u
  end.

(** The decimal rendering of a non-negative integer in a template literal,
    as in [`thinking${Date.now()}`]. *)
Definition decimal (n : N) : JSString := uint_codes (N.to_uint n).

Definition isDigit (c : N) : bool := N.leb 48 c && N.leb c 57.

(** The longest prefix of decimal digits, and what follows it. *)
Fixpoint spanDigits (s : JSString) : JSString * JSString :=
  match s with
  | c :: s' =>
      if isDigit c
      then let (d, r) := spanDigits s' in (c :: d, r)
      else ([], s)
  | [] => ([], [])
  end.

End JS.

Export JS.
Arguments js s%_string.

(** ** What the runtime and the payloads supply *)

(** JavaScript numbers and the payload objects that the reconciler carries
    through the transcript without looking inside them.  The conversions
    between wire payloads and display payloads ([transformRawProduct], the
    per-item object built in [handleRawCart], the per-item object built in
    [transformRawCartSummary]) are taken with them.  What the reconciler
    does depends on them in two ways only, which are given with them:
    whether building an item throws, and whether it reads the clock. *)
Class Payloads : Type := {
  Num : Type;
  zero : Num;
  (** truthiness of a number: false on [0], [-0] and [NaN] *)
  num_truthy : Num -> bool;
  parseFloat : JSString -> Num;
  RawProduct : Type;
  Product : Type;
  transformRawProduct : RawProduct -> Product;
  RawCartItem : Type;
  RawCartSummaryItem : Type;
  CartItem : Type;
  (** whether [ci?.item?.id ?? ci?.id] is nullish: the synthesized item
      then gets [String(Date.now())] for its id *)
  lacksId : RawCartItem -> bool;
  (** whether building the summary item of an entry of [cart_items]
      throws ([find] called on a [list] that is not an array) *)
  synthesisThrows : RawCartItem -> bool;
  (** the summary item synthesized from one entry of [cart_items]; the
      number is what [Date.now()] returns for an entry without id *)
  synthesizeItem : RawCartItem -> N -> RawCartSummaryItem;
  (** [reduce((acc, it) => acc + (Number(it.quantity) || 0), 0)] *)
  sumQuantity : list RawCartSummaryItem -> Num;
  (** [reduce((acc, it) => acc + (Number(it.subtotal) || 0), 0)] *)
  sumSubtotal : list RawCartSummaryItem -> Num;
  (** whether building the [CartItem] of a summary item throws ([split]
      called on a provider id that is not a string, a field read on
      [null]) *)
  toCartItemThrows : RawCartSummaryItem -> bool;
  (** the [CartItem] built from one summary item *)
  toCartItem : RawCartSummaryItem -> CartItem;
  QuoteData : Type;
  (** [{ providers: [] }] *)
  emptyQuoteData : QuoteData
}.

Section DataModel.

Context {P : Payloads}.

(** [x || 0] on a possibly absent number. *)
Definition or_zero (x : option Num) : Num :=
  match x with
  | Some n => if num_truthy n then n else zero
  | None => zero
  end.

(** *** Interfaces of the chat API *)

Inductive ContextType : Type :=
| success_message
| search_results
| cart_view
| checkout_stage
| error_message
| order_confirmation.

Definition ContextType_eqb (a b : ContextType) : bool :=
  match a, b with
  | success_message, success_message
  | search_results, search_results
  | cart_view, cart_view
  | checkout_stage, checkout_stage
  | error_message, error_message
  | order_confirmation, order_confirmation => true
  | _, _ => false
  end.

Record JourneyContext : Type := {
  stage : JSString;
  next_operations : option (list JSString)
}.

Record CartContext : Type := {
  items : option (list CartItem);
  total_items : option Num;
  total_value : option Num;
  is_empty : option bool;
  ready_for_checkout : option bool
}.

Record ConfirmContext : Type := {
  cc_order_id : JSString;
  cc_total_amount : Num;
  cc_order_status : JSString
}.

Record SimpleData : Type := {
  confirm_context : option ConfirmContext
}.

Record OrderData : Type := {
  order_id : JSString;
  status : JSString;
  total_amount : Num;
  od_currency : JSString;
  customer_name : JSString;
  delivery_address : JSString
}.

Record ErrorData : Type := {
  success : bool;
  error_type : JSString;
  recovery_action : option JSString;
  retry_possible : option bool;
  message : JSString
}.

(** The [data] object of a chat API response (the fields the controller
    reads). *)
Record ResponseData : Type := {
  rd_success : option bool;
  rd_products : option (list Product);
  rd_cart_context : option CartContext;
  rd_journey_context : option JourneyContext;
  rd_quote_data : option QuoteData;
  rd_simple_data : option SimpleData
}.

Record ChatApiResponse : Type := {
  response : JSString;
  data : option ResponseData;
  context_type : option ContextType
}.

Record RawCartSummary : Type := {
  rcs_items : option (list RawCartSummaryItem);
  rcs_total_items : option Num;
  rcs_total_value : option Num;
  rcs_is_empty : option bool
}.

(** *** Transcript entries *)

Inductive MessageType : Type :=
| user
| bot
| bot_thinking
| bot_tool_executing
| bot_conversation_chunk
| bot_product_list
| bot_cart_view
| bot_checkout_stage
| bot_error
| bot_order_confirmation
| bot_success
| bot_payment_initiated.

(** The kind-specific fields of a [ChatMessage]. *)
Inductive MessageBody : Type :=
| MUser (content : JSString)
| MBot (content : JSString)
| MThinking (content : JSString)
| MToolExecuting (tool status : JSString)
| MConversationChunk (content : JSString) (stage : option JSString)
| MProductList (products : list Product)
| MCartView (cartContext : CartContext)
| MCheckoutStage (quoteData : QuoteData) (journeyContext : JourneyContext)
| MError (error : ErrorData)
| MOrderConfirmation (orderData : OrderData)
| MSuccess (message : JSString) (nextOperations : list JSString)
| MPaymentInitiated (orderId : JSString) (amount : Num) (currency : JSString).

(** [ChatMessage]: every variant has an [id] and an optional [streamId]. *)
Record ChatMessage : Type := {
  msg_id : JSString;
  body : MessageBody;
  streamId : option JSString
}.

(** [m.type] *)
Definition msg_type (m : ChatMessage) : MessageType :=
  match body m with
  | MUser _ => user
  | MBot _ => bot
  | MThinking _ => bot_thinking
  | MToolExecuting _ _ => bot_tool_executing
  | MConversationChunk _ _ => bot_conversation_chunk
  | MProductList _ => bot_product_list
  | MCartView _ => bot_cart_view
  | MCheckoutStage _ _ => bot_checkout_stage
  | MError _ => bot_error
  | MOrderConfirmation _ => bot_order_confirmation
  | MSuccess _ _ => bot_success
  | MPaymentInitiated _ _ _ => bot_payment_initiated
  end.

Definition MessageType_eqb (a b : MessageType) : bool :=
  match a, b with
  | user, user | bot, bot | bot_thinking, bot_thinking
  | bot_tool_executing, bot_tool_executing
  | bot_conversation_chunk, bot_conversation_chunk
  | bot_product_list, bot_product_list | bot_cart_view, bot_cart_view
  | bot_checkout_stage, bot_checkout_stage | bot_error, bot_error
  | bot_order_confirmation, bot_order_confirmation
  | bot_success, bot_success
  | bot_payment_initiated, bot_payment_initiated => true
  | _, _ => false
  end.

Record ChatSession : Type := {
  cs_id : JSString;
  title : JSString;
  messages : list ChatMessage
}.

(** *** Stream events *)

Record ResponseEvent : Type := {
  re_content : JSString;
  re_session_id : option JSString;
  re_data : option ResponseData;
  re_context_type : option ContextType
}.

(** [StreamingResponse], the value [JSON.parse] yields for a record, with
    the fields the controller reads.  [SR_other] is a value whose [type] is
    none of the six tags the hook tests for (for instance [done]); the
    argument is that tag, when present. *)
Inductive StreamingResponse : Type :=
| SR_thinking (message : JSString) (session_id : option JSString)
| SR_conversation_chunk (message : JSString) (session_id : option JSString)
    (stage : option JSString)
| SR_tool_start (tool status : JSString) (session_id : option JSString)
| SR_response (r : ResponseEvent)
| SR_raw_products (session_id : option JSString)
    (products : option (list RawProduct))
| SR_raw_cart (session_id : option JSString) (cart_items : list RawCartItem)
    (cart_summary : option RawCartSummary)
| SR_other (type : option JSString).

End DataModel.

(** [JSON.parse] on the text of a record ([None] when it throws) and the
    clock: [Date_now n] is what the [n]-th call of [Date.now()] returns. *)
Class Runtime {P : Payloads} : Type := {
  JSON_parse : JSString -> option StreamingResponse;
  Date_now : nat -> N
}.

(** ** The chat screen controller *)

Section Reconciler.

Context {P : Payloads} {R : Runtime}.

Record CartState : Type := {
  itemCount : Num;
  total : Num
}.

(** The controller's React state and refs.  [clock] counts the calls of
    [Date.now()] made so far.  React batches the state updates of one
    synchronous run and runs the queued updaters when it renders, once the
    run is over; [renderClock] is the value the clock has when the next
    queued updater that reads it is run. *)
Record Model : Type := {
  chats : list ChatSession;
  activeChatId : JSString;
  isLoading : bool;
  sessionId : option JSString;
  cartState : CartState;
  currentStreamIdRef : option JSString;
  clock : nat;
  renderClock : nat
}.

(** State setters.  A functional update [setChats(prev => f(prev))] is
    applied to the state at the point where the handler issues it; the one
    updater that calls [Date.now()], in [handleResponse], takes its time
    from [renderClock]. *)
Definition setChats (f : list ChatSession -> list ChatSession) (st : Model)
  : Model :=
  {| chats := f (chats st); activeChatId := activeChatId st;
     isLoading := isLoading st; sessionId := sessionId st;
     cartState := cartState st;
     currentStreamIdRef := currentStreamIdRef st; clock := clock st;
     renderClock := renderClock st |}.

Definition setActiveChatId (a : JSString) (st : Model) : Model :=
  {| chats := chats st; activeChatId := a;
     isLoading := isLoading st; sessionId := sessionId st;
     cartState := cartState st;
     currentStreamIdRef := currentStreamIdRef st; clock := clock st;
     renderClock := renderClock st |}.

Definition setIsLoading (b : bool) (st : Model) : Model :=
  {| chats := chats st; activeChatId := activeChatId st;
     isLoading := b; sessionId := sessionId st;
     cartState := cartState st;
     currentStreamIdRef := currentStreamIdRef st; clock := clock st;
     renderClock := renderClock st |}.

Definition setSessionId (s : option JSString) (st : Model) : Model :=
  {| chats := chats st; activeChatId := activeChatId st;
     isLoading := isLoading st; sessionId := s;
     cartState := cartState st;
     currentStreamIdRef := currentStreamIdRef st; clock := clock st;
     renderClock := renderClock st |}.

Definition setCartState (c : CartState) (st : Model) : Model :=
  {| chats := chats st; activeChatId := activeChatId st;
     isLoading := isLoading st; sessionId := sessionId st;
     cartState := c;
     currentStreamIdRef := currentStreamIdRef st; clock := clock st;
     renderClock := renderClock st |}.

Definition setCurrentStreamId (s : option JSString) (st : Model) : Model :=
  {| chats := chats st; activeChatId := activeChatId st;
     isLoading := isLoading st; sessionId := sessionId st;
     cartState := cartState st;
     currentStreamIdRef := s; clock := clock st;
     renderClock := renderClock st |}.

(** [Date.now()] *)
Definition now (st : Model) : N * Model :=
  (Date_now (clock st),
   {| chats := chats st; activeChatId := activeChatId st;
      isLoading := isLoading st; sessionId := sessionId st;
      cartState := cartState st;
      currentStreamIdRef := currentStreamIdRef st; clock := S (clock st);
      renderClock := renderClock st |}).

(** What the clock will be when the run that starts is over. *)
Definition setRenderClock (n : nat) (st : Model) : Model :=
  {| chats := chats st; activeChatId := activeChatId st;
     isLoading := isLoading st; sessionId := sessionId st;
     cartState := cartState st;
     currentStreamIdRef := currentStreamIdRef st; clock := clock st;
     renderClock := n |}.

(** The render at the end of a run: the queued updaters have made their
    calls of [Date.now()]. *)
Definition render (st : Model) : Model :=
  {| chats := chats st; activeChatId := activeChatId st;
     isLoading := isLoading st; sessionId := sessionId st;
     cartState := cartState st;
     currentStreamIdRef := currentStreamIdRef st; clock := renderClock st;
     renderClock := renderClock st |}.

(** [if (session_id) setSessionId(session_id)] *)
Definition updateSessionId (session_id : option JSString) (st : Model)
  : Model :=
  match session_id with
  | Some s => if truthy s then setSessionId (Some s) st else st
  | None => st
  end.

(** [m.streamId === currentStreamIdRef.current]: an absent [streamId] is
    [undefined], an unset ref is [null], and the two are not strictly
    equal. *)
Definition sameStream (sid cur : option JSString) : bool :=
  match sid, cur with
  | Some a, Some b => JS.eqb a b
  | _, _ => false
  end.

(** [currentStreamIdRef.current || undefined] *)
Definition or_undefined (cur : option JSString) : option JSString :=
  match cur with
  | Some s => if truthy s then Some s else None
  | None => None
  end.

Definition hasType (t : MessageType) (m : ChatMessage) : bool :=
  MessageType_eqb (msg_type m) t.

Definition isThinkingOrTool (m : ChatMessage) : bool :=
  hasType bot_thinking m || hasType bot_tool_executing m.

Definition isTemporary (m : ChatMessage) : bool :=
  hasType bot_thinking m || hasType bot_tool_executing m ||
  hasType bot_conversation_chunk m.

(** [prev.map((c) => { if (c.id !== activeChatId) return c;
    return { ...c, messages: f(c.messages) }; })] *)
Definition updateActive (a : JSString)
  (f : list ChatMessage -> list ChatMessage) (cs : list ChatSession)
  : list ChatSession :=
  map (fun c =>
         if negb (JS.eqb (cs_id c) a) then c
         else {| cs_id := cs_id c; title := title c;
                 messages := f (messages c) |}) cs.

(** In every handler below the first argument [a] is the [activeChatId] the
    callback closes over. *)

Definition removeThinkingMessages (a : JSString) (st : Model) : Model :=
  setChats
    (updateActive a
       (filter (fun m =>
          let isThinkingOrTool := isThinkingOrTool m in
          let isCurrentStream := sameStream (streamId m) (currentStreamIdRef st) in
          negb (isThinkingOrTool && isCurrentStream))))
    st.

Definition handleThinking (a : JSString) (message : JSString)
  (session_id : option JSString) (st : Model) : Model :=
  let st := updateSessionId session_id st in
  let (t, st) := now st in
  let thinkingMsg :=
    {| msg_id := js "thinking" ++ decimal t;
       body := MThinking message;
       streamId := or_undefined (currentStreamIdRef st) |} in
  setChats
    (updateActive a (fun ms =>
       let messagesWithoutThinking :=
         filter (fun m =>
           negb (hasType bot_thinking m &&
                 sameStream (streamId m) (currentStreamIdRef st))) ms in
       messagesWithoutThinking ++ [thinkingMsg]))
    st.

Definition handleToolStart (a : JSString) (tool status : JSString)
  (session_id : option JSString) (st : Model) : Model :=
  let st := updateSessionId session_id st in
  let (t, st) := now st in
  let toolMsg :=
    {| msg_id := js "tool" ++ decimal t;
       body := MToolExecuting tool status;
       streamId := or_undefined (currentStreamIdRef st) |} in
  setChats
    (updateActive a (fun ms =>
       let messagesWithoutToolExec :=
         filter (fun m =>
           negb (hasType bot_tool_executing m &&
                 sameStream (streamId m) (currentStreamIdRef st))) ms in
       messagesWithoutToolExec ++ [toolMsg]))
    st.

Definition handleConversationChunk (a : JSString) (message : JSString)
  (session_id stage : option JSString) (st : Model) : Model :=
  let st := updateSessionId session_id st in
  let (t, st) := now st in
  let chunkMsg :=
    {| msg_id := js "chunk" ++ decimal t;
       body := MConversationChunk message stage;
       streamId := or_undefined (currentStreamIdRef st) |} in
  setChats
    (updateActive a (fun ms =>
       let withoutOldChunks :=
         filter (fun m =>
           negb (hasType bot_conversation_chunk m &&
                 sameStream (streamId m) (currentStreamIdRef st))) ms in
       withoutOldChunks ++ [chunkMsg]))
    st.

(** [createMessagesFromResponse]: the entries a final response expands to.
    One [Date.now()] stamps all of them. *)
Definition createMessagesFromResponse (responseData : ChatApiResponse)
  (timestamp : N) : list ChatMessage :=
  let mk (prefix : JSString) (b : MessageBody) :=
    {| msg_id := prefix ++ decimal timestamp; body := b; streamId := None |} in
  let ctx (t : ContextType) :=
    match context_type responseData with
    | Some t' => ContextType_eqb t' t
    | None => false
    end in
  (if truthy (response responseData)
   then [mk (js "b") (MBot (response responseData))] else []) ++
  match data responseData with
  | None => []
  | Some data =>
      (match rd_products data with
       | Some (p :: ps) =>
           if ctx search_results
           then [mk (js "p") (MProductList (p :: ps))] else []
       | _ => []
       end) ++
      (match rd_cart_context data with
       | Some cart_context =>
           if ctx cart_view
           then [mk (js "c") (MCartView cart_context)] else []
       | None => []
       end) ++
      (match rd_journey_context data with
       | Some journey_context =>
           if ctx checkout_stage
           then [mk (js "ch")
                   (MCheckoutStage
                      (match rd_quote_data data with
                       | Some q => q
                       | None => emptyQuoteData
                       end)
                      journey_context)]
           else []
       | None => []
       end) ++
      (match rd_simple_data data with
       | Some {| confirm_context := Some cc |} =>
           if ctx order_confirmation
           then [mk (js "oc")
                   (MOrderConfirmation
                      {| order_id := cc_order_id cc;
                         status := cc_order_status cc;
                         total_amount := cc_total_amount cc;
                         od_currency := js "INR";
                         customer_name := js "Customer";
                         delivery_address := js "Address on file" |})]
           else []
       | _ => []
       end) ++
      (if ctx error_message ||
          match rd_success data with Some false => true | _ => false end
       then [mk (js "e")
               (MError
                  {| success :=
                       match rd_success data with
                       | Some b => b
                       | None => false
                       end;
                     error_type := js "api_error";
                     recovery_action := None;
                     retry_possible := Some true;
                     message :=
                       if truthy (response responseData)
                       then response responseData
                       else js "An error occurred" |})]
       else []) ++
      (match rd_journey_context data with
       | Some {| next_operations := Some ops |} =>
           if ctx success_message
           then [mk (js "s")
                   (MSuccess
                      (if truthy (response responseData)
                       then response responseData
                       else js "Operation completed successfully")
                      ops)]
           else []
       | _ => []
       end)
  end.

(** The rupee sign, U+20B9. *)
Definition rupee : N := 8377%N.

(** The capture group of the amount pattern of [handleResponse] (a rupee
    sign, then the group: one or more digits, an optional dot, zero or more
    digits) when the match starts at the head of [s]. *)
Definition amountMatchAt (s : JSString) : option JSString :=
  match s with
  | c :: s1 =>
      if N.eqb c rupee then
        let (d1, r1) := spanDigits s1 in
        match d1 with
        | [] => None
        | _ :: _ =>
            match r1 with
            | 46%N :: s2 => Some (d1 ++ 46%N :: fst (spanDigits s2))
            | _ => Some d1
            end
        end
      else None
  | [] => None
  end.

(** [content.match] on the amount pattern: the capture group of the
    leftmost match. *)
Fixpoint amountMatch (s : JSString) : option JSString :=
  match amountMatchAt s with
  | Some g => Some g
  | None =>
      match s with
      | [] => None
      | _ :: s' => amountMatch s'
      end
  end.

(** The update of the payment branch of [handleResponse].  Its callback
    calls [Date.now()] for the id of the text entry, once per chat it
    rewrites, when React runs it: [clk] is the clock then. *)
Fixpoint paymentUpdate (a : JSString) (cur : option JSString)
  (content : JSString) (paymentMessage : ChatMessage)
  (cs : list ChatSession) (clk : nat) : list ChatSession * nat :=
  match cs with
  | [] => ([], clk)
  | c :: rest =>
      if negb (JS.eqb (cs_id c) a) then
        let (rest', clk') := paymentUpdate a cur content paymentMessage rest clk in
        (c :: rest', clk')
      else
        let messagesWithoutThinking :=
          filter (fun m =>
            let isThinkingOrTool := isThinkingOrTool m in
            let isCurrentStream := sameStream (streamId m) cur in
            negb (isThinkingOrTool && isCurrentStream)) (messages c) in
        let c' :=
          {| cs_id := cs_id c; title := title c;
             messages :=
               messagesWithoutThinking ++
               [ {| msg_id := js "response_" ++ decimal (Date_now clk);
                    body := MBot content; streamId := None |};
                 paymentMessage ] |} in
        let (rest', clk') :=
          paymentUpdate a cur content paymentMessage rest (S clk) in
        (c' :: rest', clk')
  end.

Definition handleResponse (a : JSString) (response : ResponseEvent)
  (st : Model) : Model :=
  let st := updateSessionId (re_session_id response) st in
  let content := re_content response in
  if includes content (js "initialized a new shopping session") ||
     includes content (js "Session Ready")
  then removeThinkingMessages a st
  else if includes content (js "Your order has been initialized") then
    let amount :=
      match amountMatch content with
      | Some g => parseFloat g
      | None => zero
      end in
    let (t1, st) := now st in
    let orderId := js "order_" ++ decimal t1 in
    let (t2, st) := now st in
    let paymentMessage :=
      {| msg_id := js "payment_" ++ decimal t2;
         body := MPaymentInitiated orderId amount (js "INR");
         streamId := None |} in
    let (cs, clk) :=
      paymentUpdate a (currentStreamIdRef st) content paymentMessage
        (chats st) (renderClock st) in
    {| chats := cs; activeChatId := activeChatId st;
       isLoading := isLoading st; sessionId := sessionId st;
       cartState := cartState st;
       currentStreamIdRef := currentStreamIdRef st; clock := clock st;
       renderClock := clk |}
  else
    let responseData :=
      {| response := content; data := re_data response;
         context_type := re_context_type response |} in
    let st :=
      match re_data response with
      | Some {| rd_cart_context := Some cart_context |} =>
          setCartState
            {| itemCount := or_zero (total_items cart_context);
               total := or_zero (total_value cart_context) |} st
      | _ => st
      end in
    let (t, st) := now st in
    let newMessages := createMessagesFromResponse responseData t in
    setChats
      (updateActive a (fun ms =>
         let messagesWithoutThinking :=
           filter (fun m =>
             let isTemporary := isTemporary m in
             let isCurrentStream :=
               sameStream (streamId m) (currentStreamIdRef st) in
             negb (isTemporary && isCurrentStream)) ms in
         messagesWithoutThinking ++ newMessages))
      st.

Definition handleRawProducts (a : JSString) (session_id : option JSString)
  (products : option (list RawProduct)) (st : Model) : Model :=
  let st := updateSessionId session_id st in
  match products with
  | None | Some [] => removeThinkingMessages a st
  | Some (p :: ps) =>
      let transformedProducts := map transformRawProduct (p :: ps) in
      let (t, st) := now st in
      let productMessage :=
        {| msg_id := js "raw_products" ++ decimal t;
           body := MProductList transformedProducts;
           streamId := or_undefined (currentStreamIdRef st) |} in
      setChats
        (updateActive a (fun ms =>
           let messagesWithoutDuplicates :=
             filter (fun m =>
               let isCurrentStreamTemporary :=
                 isTemporary m &&
                 sameStream (streamId m) (currentStreamIdRef st) in
               let isCurrentStreamProductList :=
                 hasType bot_product_list m &&
                 sameStream (streamId m) (currentStreamIdRef st) in
               negb isCurrentStreamTemporary &&
               negb isCurrentStreamProductList) ms in
           messagesWithoutDuplicates ++ [productMessage]))
        st
  end.

(** [Array.isArray(x) && x.length > 0] on a possibly absent array. *)
Definition hasItems {A : Type} (x : option (list A)) : bool :=
  match x with
  | Some (_ :: _) => true
  | _ => false
  end.

Definition summaryItems (s : option RawCartSummary)
  : option (list RawCartSummaryItem) :=
  match s with
  | Some s => rcs_items s
  | None => None
  end.

(** The [map] over [cart_items] in [handleRawCart].  Each entry without an
    id reads the clock for one; the [map] stops at the first entry whose
    item throws.  [None] is the exception. *)
Fixpoint synthesizeItems (cart_items : list RawCartItem) (clk : nat)
  : option (list RawCartSummaryItem) * nat :=
  match cart_items with
  | [] => (Some [], clk)
  | ci :: rest =>
      let t := Date_now clk in
      let clk := if lacksId ci then S clk else clk in
      if synthesisThrows ci then (None, clk)
      else
        let (synthesizedItems, clk) := synthesizeItems rest clk in
        (option_map (cons (synthesizeItem ci t)) synthesizedItems, clk)
  end.

(** The normalization at the head of [handleRawCart]: when the summary
    lists no items and [cart_items] does, the summary is rebuilt from
    [cart_items]; when that throws, the [catch] block leaves the summary
    as it was received.  [clk] is the clock, returned as it is
    afterwards. *)
Definition normalizeCartSummary (cart_items : list RawCartItem)
  (cart_summary : option RawCartSummary) (clk : nat)
  : option RawCartSummary * nat :=
  let hasSummaryItems := hasItems (summaryItems cart_summary) in
  if negb hasSummaryItems && hasItems (Some cart_items) then
    match synthesizeItems cart_items clk with
    | (Some synthesizedItems, clk) =>
        (Some
           {| rcs_items := Some synthesizedItems;
              rcs_total_items :=
                Some match cart_summary with
                     | Some {| rcs_total_items := Some n |} => n
                     | _ => sumQuantity synthesizedItems
                     end;
              rcs_total_value :=
                Some match cart_summary with
                     | Some {| rcs_total_value := Some n |} => n
                     | _ => sumSubtotal synthesizedItems
                     end;
              rcs_is_empty := Some false |},
         clk)
    | (None, clk) => (cart_summary, clk)
    end
  else (cart_summary, clk).

(** [transformRawCartSummary]; [None] when the [map] over the items
    throws. *)
Definition transformRawCartSummary (rawCartSummary : RawCartSummary)
  : option CartContext :=
  let rawItems :=
    match rcs_items rawCartSummary with
    | Some l => l
    | None => []
    end in
  if existsb toCartItemThrows rawItems then None
  else
    let cartItems := map toCartItem rawItems in
    Some
      {| items := Some cartItems;
         total_items := Some (or_zero (rcs_total_items rawCartSummary));
         total_value := Some (or_zero (rcs_total_value rawCartSummary));
         is_empty :=
           Some match rcs_is_empty rawCartSummary with
                | Some b => b
                | None => Nat.eqb (List.length cartItems) 0
                end;
         ready_for_checkout :=
           Some (negb match rcs_is_empty rawCartSummary with
                      | Some b => b
                      | None => false
                      end &&
                 Nat.ltb 0 (List.length cartItems)) |}.

(** The clock after calls of [Date.now()] that leave it at [clk]. *)
Definition atClock (clk : nat) (st : Model) : Model :=
  {| chats := chats st; activeChatId := activeChatId st;
     isLoading := isLoading st; sessionId := sessionId st;
     cartState := cartState st;
     currentStreamIdRef := currentStreamIdRef st; clock := clk;
     renderClock := renderClock st |}.

(** [handleRawCart].  When [transformRawCartSummary] throws, the handler
    is left with the session identifier set and nothing else done. *)
Definition handleRawCart (a : JSString) (session_id : option JSString)
  (cart_items : list RawCartItem) (cart_summary : option RawCartSummary)
  (st : Model) : Model :=
  let st := updateSessionId session_id st in
  let (normalizedCartSummary, clk) :=
    normalizeCartSummary cart_items cart_summary (clock st) in
  let st := atClock clk st in
  match normalizedCartSummary with
  | Some ({| rcs_items := Some (_ :: _) |} as normalized) =>
      match transformRawCartSummary normalized with
      | None => st
      | Some cartContext =>
          let st :=
            setCartState
              {| itemCount := or_zero (total_items cartContext);
                 total := or_zero (total_value cartContext) |} st in
          let (t, st) := now st in
          let cartMessage :=
            {| msg_id := js "raw_cart" ++ decimal t;
               body := MCartView cartContext;
               streamId := or_undefined (currentStreamIdRef st) |} in
          setChats
            (updateActive a (fun ms =>
               let messagesWithoutDuplicates :=
                 filter (fun m =>
                   let isCurrentStreamTemporary :=
                     isTemporary m &&
                     sameStream (streamId m) (currentStreamIdRef st) in
                   let isCurrentStreamCartView :=
                     hasType bot_cart_view m &&
                     sameStream (streamId m) (currentStreamIdRef st) in
                   negb isCurrentStreamTemporary &&
                   negb isCurrentStreamCartView) ms in
               messagesWithoutDuplicates ++ [cartMessage]))
            st
      end
  | _ => removeThinkingMessages a st
  end.

(** Whether [handleRawCart] throws: the exception of
    [transformRawCartSummary] leaves the handler. *)
Definition handleRawCartThrows (cart_items : list RawCartItem)
  (cart_summary : option RawCartSummary) (st : Model) : bool :=
  match fst (normalizeCartSummary cart_items cart_summary (clock st)) with
  | Some ({| rcs_items := Some (_ :: _) |} as normalized) =>
      match transformRawCartSummary normalized with
      | None => true
      | Some _ => false
      end
  | _ => false
  end.

(** The entry [handleStreamError] appends. *)
Definition networkErrorMessage (t : N) : ChatMessage :=
  {| msg_id := js "e" ++ decimal t;
     body :=
       MError
         {| success := false;
            error_type := js "network_error";
            recovery_action := Some (js "retry_operation");
            retry_possible := Some true;
            message := js "Sorry, I encountered an error. Please try again." |};
     streamId := None |}.

(** [handleStreamError]; [chats0] is the [chats] value the callback closes
    over. *)
Definition handleStreamError (a : JSString) (chats0 : list ChatSession)
  (st : Model) : Model :=
  let st := setIsLoading false st in
  let st := removeThinkingMessages a st in
  let currentChat := find (fun c => JS.eqb (cs_id c) a) chats0 in
  let shouldAppendMessage :=
    match currentChat with
    | Some c => Nat.ltb 0 (List.length (messages c))
    | None => false
    end in
  if shouldAppendMessage then
    let (t, st) := now st in
    let errorMsg := networkErrorMessage t in
    setChats (updateActive a (fun ms => ms ++ [errorMsg])) st
  else st.

Definition handleStreamComplete (a : JSString) (st : Model) : Model :=
  let st := setIsLoading false st in
  removeThinkingMessages a st.

End Reconciler.

(** ** The stream hook *)

(** What a run of the hook does that is visible from outside: the calls of
    [abort] and [fetch], of [JSON.parse] and [console.warn], and of the
    callbacks.  The number is the call of the hook's [sendMessage] that
    acts. *)
Inductive Action : Type :=
| Abort (r : nat)
| Fetch (r : nat) (message : JSString) (session_id : option JSString)
| Parse (r : nat) (jsonStr : JSString)
| Warn (r : nat) (jsonStr : JSString)
| OnThinking (r : nat)
| OnConversationChunk (r : nat)
| OnToolStart (r : nat)
| OnResponse (r : nat)
| OnRawProducts (r : nat)
| OnRawCart (r : nat)
| OnError (r : nat)
| OnComplete (r : nat).

(** Where a call of the hook's [sendMessage] is suspended: at
    [await fetch(...)], at [await reader.read()] with its line buffer, or
    not at all because it has returned. *)
Inductive Phase : Type :=
| AwaitFetch
| AwaitRead (buffer : JSString)
| Returned.

(** How the awaited promise settles.  [FetchResolved ok hasReader]: the
    response arrived with [response.ok = ok], and [response.body?.getReader()]
    is defined or not.  [ReadChunk text]: [{ done: false, value }], with
    [text] what [decoder.decode(value, { stream: true })] returns.
    [ReadDone]: [{ done: true }].  [Rejected isError name]: the promise
    rejects with a value that is an [Error] instance or not, of that
    [name]. *)
Inductive Settlement : Type :=
| FetchResolved (ok hasReader : bool)
| ReadChunk (text : JSString)
| ReadDone
| Rejected (isError : bool) (name : JSString).

Section Hook.

Context {P : Payloads} {R : Runtime}.

(** The [if] chain on [data.type]. *)
Definition dispatch (r : nat) (a : JSString) (data : StreamingResponse)
  (st : Model) : Model * list Action :=
  match data with
  | SR_thinking message session_id =>
      (handleThinking a message session_id st, [OnThinking r])
  | SR_conversation_chunk message session_id stage =>
      (handleConversationChunk a message session_id stage st,
       [OnConversationChunk r])
  | SR_tool_start tool status session_id =>
      (handleToolStart a tool status session_id st, [OnToolStart r])
  | SR_response response =>
      (handleResponse a response st, [OnResponse r])
  | SR_raw_products session_id products =>
      (handleRawProducts a session_id products st, [OnRawProducts r])
  | SR_raw_cart session_id cart_items cart_summary =>
      (handleRawCart a session_id cart_items cart_summary st, [OnRawCart r])
  | SR_other _ => (st, [])
  end.

(** Whether the callback of a record throws.  The [try] block around
    [JSON.parse] and the callbacks catches the exception, and its [catch]
    block logs it. *)
Definition callbackThrows (data : StreamingResponse) (st : Model) : bool :=
  match data with
  | SR_raw_cart _ cart_items cart_summary =>
      handleRawCartThrows cart_items cart_summary st
  | _ => false
  end.

(** [trimmedLine === '[DONE]' || trimmedLine === 'data: [DONE]'] *)
Definition isDoneMarker (trimmedLine : JSString) : bool :=
  JS.eqb trimmedLine (js "[DONE]") || JS.eqb trimmedLine (js "data: [DONE]").

(** The body of [for (const line of lines)] on one line.  The flag is true
    when the body leaves the function ([return] on the marker). *)
Definition process_line (r : nat) (a : JSString) (line : JSString)
  (st : Model) : Model * list Action * bool :=
  let trimmedLine := trim line in
  if negb (truthy trimmedLine) || startsWith trimmedLine (js ":") then
    (st, [], false)
  else if isDoneMarker trimmedLine then
    (handleStreamComplete a st, [OnComplete r], true)
  else if startsWith trimmedLine (js "data:") then
    let jsonStr := trim (substring 5 trimmedLine) in
    match JSON_parse jsonStr with
    | Some data =>
        let (st', acts) := dispatch r a data st in
        (st',
         Parse r jsonStr :: acts ++
         (if callbackThrows data st then [Warn r jsonStr] else []),
         false)
    | None => (st, [Parse r jsonStr; Warn r jsonStr], false)
    end
  else (st, [], false).

Fixpoint process_lines (r : nat) (a : JSString) (lines : list JSString)
  (st : Model) : Model * list Action * bool :=
  match lines with
  | [] => (st, [], false)
  | line :: rest =>
      let '(st1, acts1, returned) := process_line r a line st in
      if returned then (st1, acts1, true)
      else
        let '(st2, acts2, returned) := process_lines r a rest st1 in
        (st2, acts1 ++ acts2, returned)
  end.

(** One synchronous run of the loop body on the lines of a chunk, and the
    render that follows it, taken to come before the call is resumed with
    its next read.  The handlers make their own calls of [Date.now()]
    during the run, whatever the updaters they queue will read, so the
    clock at the end of the run is known from the run; the queued updater
    of [handleResponse] reads the clock from there on. *)
Definition process_chunk (r : nat) (a : JSString) (lines : list JSString)
  (st : Model) : Model * list Action * bool :=
  let rendered := clock (fst (fst (process_lines r a lines st))) in
  let '(st', acts, returned) :=
    process_lines r a lines (setRenderClock rendered st) in
  (render st', acts, returned).

(** One call of the hook's [sendMessage]: where it is suspended, whether the
    signal of its [AbortController] is aborted, and what its callbacks close
    over ([activeChatId], and [chats] in [handleStreamError]). *)
Record Request : Type := {
  phase : Phase;
  aborted : bool;
  rq_activeChatId : JSString;
  rq_chats : list ChatSession
}.

(** The controller's state, the hook's two refs, the calls made so far and
    the actions performed so far.  [abortControllerRef] names the call whose
    controller it holds. *)
Record World : Type := {
  ui : Model;
  abortControllerRef : option nat;
  isStreamingRef : bool;
  requests : list Request;
  log : list Action
}.

Fixpoint update {A : Type} (i : nat) (f : A -> A) (l : list A) : list A :=
  match l, i with
  | [], _ => []
  | x :: l', O => f x :: l'
  | x :: l', S i' => x :: update i' f l'
  end.

Definition setPhase (p : Phase) (q : Request) : Request :=
  {| phase := p; aborted := aborted q;
     rq_activeChatId := rq_activeChatId q; rq_chats := rq_chats q |}.

Definition setAborted (q : Request) : Request :=
  {| phase := phase q; aborted := true;
     rq_activeChatId := rq_activeChatId q; rq_chats := rq_chats q |}.

(** Call [r] leaves the function: the [finally] block runs. *)
Definition finish (r : nat) (st : Model) (acts : list Action) (w : World)
  : World :=
  {| ui := st;
     abortControllerRef := None;
     isStreamingRef := false;
     requests := update r (setPhase Returned) (requests w);
     log := log w ++ acts |}.

(** The [catch] block of call [r]. *)
Definition catch (r : nat) (q : Request) (isError : bool) (name : JSString)
  (w : World) : World :=
  if isError then
    if JS.eqb name (js "AbortError") then finish r (ui w) [] w
    else
      finish r (handleStreamError (rq_activeChatId q) (rq_chats q) (ui w))
        [OnError r] w
  else finish r (ui w) [] w.

(** The test of [while (isStreamingRef.current)] of call [r], followed by
    [await reader.read()] or by leaving the loop. *)
Definition loop (r : nat) (buffer : JSString) (st : Model)
  (acts : list Action) (w : World) : World :=
  if isStreamingRef w then
    {| ui := st;
       abortControllerRef := abortControllerRef w;
       isStreamingRef := isStreamingRef w;
       requests := update r (setPhase (AwaitRead buffer)) (requests w);
       log := log w ++ acts |}
  else finish r st acts w.

(** Call [r] resumes with the settlement of the promise it awaits.  Once
    the signal of its controller is aborted, [fetch] and [reader.read()]
    reject with an [AbortError].  A settlement that does not fit the
    awaited promise (a read result while the call awaits [fetch], or the
    reverse) does not occur; it leaves the world as it is, and so does any
    settlement for a call that has returned or was never made. *)
Definition settle (r : nat) (s : Settlement) (w : World) : World :=
  match nth_error (requests w) r with
  | None => w
  | Some q =>
      let s := if aborted q then Rejected true (js "AbortError") else s in
      let a := rq_activeChatId q in
      match phase q, s with
      | Returned, _ => w
      | _, Rejected isError name => catch r q isError name w
      | AwaitFetch, FetchResolved ok hasReader =>
          if negb ok then catch r q true (js "Error") w
          else if negb hasReader then catch r q true (js "Error") w
          else loop r [] (ui w) [] w
      | AwaitRead buffer, ReadDone =>
          finish r (handleStreamComplete a (ui w)) [OnComplete r] w
      | AwaitRead buffer, ReadChunk text =>
          let buffer := buffer ++ text in
          let lines := split buffer in
          let buffer := last lines [] in
          let lines := removelast lines in
          let '(st, acts, returned) := process_chunk r a lines (ui w) in
          if returned then finish r st acts w
          else loop r buffer st acts w
      | AwaitFetch, _ => w
      | AwaitRead _, _ => w
      end
  end.

(** The hook's [sendMessage] up to [await fetch(...)]: abort the controller
    in the ref, install a new one, raise [isStreamingRef], issue the
    request.  [a] and [chats0] are what the callbacks of this render close
    over. *)
Definition sendStreamMessage (message : JSString)
  (session_id : option JSString) (a : JSString) (chats0 : list ChatSession)
  (st : Model) (w : World) : World :=
  let r := List.length (requests w) in
  let (reqs, acts) :=
    match abortControllerRef w with
    | Some r0 => (update r0 setAborted (requests w), [Abort r0])
    | None => (requests w, [])
    end in
  {| ui := st;
     abortControllerRef := Some r;
     isStreamingRef := true;
     requests :=
       reqs ++ [ {| phase := AwaitFetch; aborted := false;
                    rq_activeChatId := a; rq_chats := chats0 |} ];
     log := log w ++ acts ++ [Fetch r message session_id] |}.

(** [`stream_${Date.now()}_${Math.random().toString(36).substr(2, 9)}`];
    [rnd] is the text the random number gives. *)
Definition newStreamId (t : N) (rnd : JSString) : JSString :=
  js "stream_" ++ decimal t ++ js "_" ++ rnd.

(** The controller's [sendMessage].  The callbacks it hands to the hook are
    those of the render it was created in: they see [activeChatId],
    [sessionId] and [chats] as they are when it is called. *)
Definition sendMessage (msg : JSString) (appendMessage : bool)
  (rnd : JSString) (w : World) : World :=
  let st0 := ui w in
  let a := activeChatId st0 in
  let (t, st) := now st0 in
  let st := setCurrentStreamId (Some (newStreamId t rnd)) st in
  let st :=
    if appendMessage then
      let (t', st) := now st in
      let newMsg :=
        {| msg_id := js "m" ++ decimal t'; body := MUser msg;
           streamId := None |} in
      setChats (updateActive a (fun ms => ms ++ [newMsg])) st
    else st in
  let st := setIsLoading true st in
  sendStreamMessage msg (sessionId st0) a (chats st0) st w.

Inductive Event : Type :=
| SendMessage (msg : JSString) (appendMessage : bool) (rnd : JSString)
| Settle (r : nat) (s : Settlement)
| SwitchChat (id : JSString).

Definition step (e : Event) (w : World) : World :=
  match e with
  | SendMessage msg appendMessage rnd => sendMessage msg appendMessage rnd w
  | Settle r s => settle r s w
  | SwitchChat id =>
      {| ui := setActiveChatId id (ui w);
         abortControllerRef := abortControllerRef w;
         isStreamingRef := isStreamingRef w;
         requests := requests w;
         log := log w |}
  end.

Definition run (es : list Event) (w : World) : World :=
  fold_left (fun w e => step e w) es w.

(** The state the component mounts with. *)
Definition initialModel : Model :=
  {| chats := [ {| cs_id := js "c1"; title := js "New Chat"; messages := [] |} ];
     activeChatId := js "c1";
     isLoading := false;
     sessionId := None;
     cartState := {| itemCount := zero; total := zero |};
     currentStreamIdRef := None;
     clock := 0;
     renderClock := 0 |}.

Definition initialWorld : World :=
  {| ui := initialModel; abortControllerRef := None; isStreamingRef := false;
     requests := []; log := [] |}.

End Hook.

(** * More of the controller, the hook and their callers *)

Section Callers.

Context {P : Payloads} {R : Runtime}.

(** ** The hook's [abort] *)

(** [abort] of the hook: the controller in the ref, if any, is aborted and
    [isStreamingRef] is lowered; the ref keeps the controller. *)
Definition abort (w : World) : World :=
  match abortControllerRef w with
  | Some r0 =>
      {| ui := ui w;
         abortControllerRef := abortControllerRef w;
         isStreamingRef := false;
         requests := update r0 setAborted (requests w);
         log := log w ++ [Abort r0] |}
  | None => w
  end.

(** ** Chats of the sidebar *)

(** [createChat]: a chat named after the clock is appended and becomes the
    active one. *)
Definition createChat (st : Model) : Model :=
  let (t, st) := now st in
  let id := js "c" ++ decimal t in
  let st :=
    setChats
      (fun prev =>
         prev ++ [ {| cs_id := id; title := js "New Chat"; messages := [] |} ])
      st in
  setActiveChatId id st.

(** [deleteChat]; [a] is the [activeChatId] the callback closes over.  The
    last chat is never deleted.  When the active chat is deleted the first
    of the remaining chats becomes active; [None] is the [TypeError] of
    [updated[0].id] when no chat remains. *)
Definition deleteChat (a id : JSString) (st : Model) : option Model :=
  if Nat.eqb (List.length (chats st)) 1 then Some st
  else
    let updated := filter (fun c => negb (JS.eqb (cs_id c) id)) (chats st) in
    if JS.eqb a id then
      match updated with
      | c0 :: _ =>
          Some (setChats (fun _ => updated) (setActiveChatId (cs_id c0) st))
      | [] => None
      end
    else Some (setChats (fun _ => updated) st).

(** [activeChat]: [chats.find((c) => c.id === activeChatId)], the chat the
    controller renders; [None] is [undefined], on which the render
    throws. *)
Definition activeChat (st : Model) : option ChatSession :=
  find (fun c => JS.eqb (cs_id c) (activeChatId st)) (chats st).

(** [switchChat] *)
Definition switchChat (id : JSString) (st : Model) : Model :=
  setActiveChatId id st.

(** [handleCartClick] *)
Definition handleCartClick (rnd : JSString) (w : World) : World :=
  sendMessage (js "show me my cart") true rnd w.

(** ** The session of the first render *)



(** ** The message input *)

(** [handleSend] of the message input on the text typed and the loading
    flag: the message handed to [onSend], if any, and the text left in the
    field. *)
Definition handleSend (value : JSString) (isLoading : bool)
  : option JSString * JSString :=
  if negb (truthy (trim value)) || isLoading then (None, value)
  else (Some (trim value), []).

(** The send button of the input as the controller wires it: [isLoading]
    is the controller's flag and [onSend] its [sendMessage].  The result
    is the text left in the field and the world. *)
Definition pressSend (value rnd : JSString) (w : World)
  : JSString * World :=
  match handleSend value (isLoading (ui w)) with
  | (Some msg, value') => (value', sendMessage msg true rnd w)
  | (None, value') => (value', w)
  end.

(** ** The name of a tool, as displayed *)

(** A word character of a regular expression: a letter, a digit or the
    underscore. *)
Definition isWordChar (c : N) : bool :=
  isDigit c || (N.leb 65 c && N.leb c 90) || N.eqb c 95 ||
  (N.leb 97 c && N.leb c 122).

(** [l.toUpperCase()] on a word character. *)
Definition toUpperCase (c : N) : N :=
  if N.leb 97 c && N.leb c 122 then (c - 32)%N else c.

(** [s.replace(/_/g, ' ')] *)
Definition replaceUnderscores (s : JSString) : JSString :=
  map (fun c => if N.eqb c 95 then 32%N else c) s.

(** Replacing each word character that follows a word boundary by its
    upper case; [prevWord] tells whether the character before is a word
    character. *)
Fixpoint capitalize (prevWord : bool) (s : JSString) : JSString :=
  match s with
  | [] => []
  | c :: s' =>
      (if isWordChar c && negb prevWord then toUpperCase c else c) ::
      capitalize (isWordChar c) s'
  end.

(** The tool name of a [tool executing] entry as [renderMessage] shows it:
    underscores become spaces and each word gets a capital. *)
Definition toolName (rawToolName : JSString) : JSString :=
  capitalize false (replaceUnderscores rawToolName).

End Callers.

(** ** Products as they are shown *)

(** [transformRawProduct] on the fields it reads, [images] being an array
    when it is there.  A text field that is absent and one that is empty
    are both falsy and are not told apart: [None] stands for either where
    the field is only used in a chain of [||]. *)
Module Products.

Section Transform.

Context {P : Payloads}.

(** The [url] of an image object: a string, or another value, truthy (a
    number, an object) or falsy (absent, [null], [0]). *)
Inductive ImageUrl : Type :=
| UrlString (s : JSString)
| UrlOther (truthy : bool).

(** An element of [images]: a string, an object, [null], or another value
    (a number, a boolean). *)
Inductive RawImage : Type :=
| ImageString (s : JSString)
| ImageObject (url : ImageUrl)
| ImageNull
| ImageOther.

Record Descriptor : Type := {
  ds_name : option JSString;
  ds_short_desc : option JSString;
  ds_long_desc : option JSString;
  ds_images : option (list RawImage)
}.

Record ItemDetails : Type := {
  it_descriptor : option Descriptor;
  it_price_value : option Num;
  it_category_id : option JSString
}.

(** [provider_details], and the [provider] some responses carry
    instead. *)
Record Provider : Type := {
  pv_id : option JSString;
  pv_descriptor_name : option JSString
}.

(** [category]: a string, or an object with a [name] and an [id]. *)
Inductive RawCategory : Type :=
| CategoryString (s : JSString)
| CategoryObject (name id : option JSString).

Record RawProduct : Type := {
  rp_id : JSString;
  rp_name : option JSString;
  rp_description : option JSString;
  rp_long_description : option JSString;
  rp_price_value : option Num;
  rp_images : option (list RawImage);
  rp_category : option RawCategory;
  rp_provider_id : option JSString;
  rp_provider_name : option JSString;
  rp_item_details : option ItemDetails;
  rp_provider_details : option Provider;
  rp_provider : option Provider;
  rp_bpp_details_name : option JSString
}.

Record Product : Type := {
  id : JSString;
  name : JSString;
  description : JSString;
  price : Num;
  category : JSString;
  provider_id : JSString;
  provider_name : JSString;
  delivery_available : bool;
  images : list JSString
}.

(** [x || y] on texts: [x] when it is there and not empty. *)
Definition or_else (x : option JSString) (y : JSString) : JSString :=
  match x with
  | Some s => if truthy s then s else y
  | None => y
  end.

(** [o?.f] *)
Definition opt {A B : Type} (o : option A) (f : A -> option B) : option B :=
  match o with
  | Some a => f a
  | None => None
  end.

(** What the callback of [map] returns on an image: a string, or a value
    that is not a string (the truthy [url] of an object); [None] is the
    [TypeError] of [img.url] on [null]. *)
Inductive Mapped : Type :=
| MString (s : JSString)
| MOther.

Definition mapImage (img : RawImage) : option Mapped :=
  match img with
  | ImageString s => Some (MString s)
  | ImageObject (UrlString s) => Some (MString (if truthy s then s else []))
  | ImageObject (UrlOther true) => Some MOther
  | ImageObject (UrlOther false) => Some (MString [])
  | ImageNull => None
  | ImageOther => Some (MString [])
  end.

Fixpoint mapImages (imgs : list RawImage) : option (list Mapped) :=
  match imgs with
  | [] => Some []
  | img :: rest =>
      match mapImage img with
      | None => None
      | Some m =>
          match mapImages rest with
          | None => None
          | Some ms => Some (m :: ms)
          end
      end
  end.

(** [.filter((url) => url && url.trim() !== '')]; [None] is the
    [TypeError] of [url.trim()] on a value that is not a string. *)
Fixpoint filterImages (ms : list Mapped) : option (list JSString) :=
  match ms with
  | [] => Some []
  | MOther :: _ => None
  | MString s :: rest =>
      match filterImages rest with
      | None => None
      | Some urls =>
          Some (if truthy s && negb (JS.eqb (trim s) []) then s :: urls
                else urls)
      end
  end.

(** The body of the [try] block; [None] when it throws. *)
Definition transformed (rawProduct : RawProduct) : option Product :=
  let item_details := rp_item_details rawProduct in
  let descriptor := opt item_details it_descriptor in
  let providerId :=
    or_else (rp_provider_id rawProduct)
      (or_else (opt (rp_provider_details rawProduct) pv_id)
         (or_else (opt (rp_provider rawProduct) pv_id) (js "unknown"))) in
  let providerName :=
    or_else (rp_provider_name rawProduct)
      (or_else (opt (rp_provider_details rawProduct) pv_descriptor_name)
         (or_else (opt (rp_provider rawProduct) pv_descriptor_name)
            (or_else (rp_bpp_details_name rawProduct)
               (js "Unknown Provider")))) in
  let productImages :=
    match rp_images rawProduct with
    | Some imgs => imgs
    | None =>
        match opt descriptor ds_images with
        | Some imgs => imgs
        | None => []
        end
    end in
  let categoryString :=
    match rp_category rawProduct with
    | Some (CategoryString (c :: s)) => c :: s
    | Some (CategoryObject name id) =>
        match name with
        | Some (c :: s) =>
            or_else name (or_else id (js "Uncategorized"))
        | _ => js "Uncategorized"
        end
    | Some (CategoryString []) | None =>
        match opt item_details it_category_id with
        | Some (c :: s) => c :: s
        | _ => js "Uncategorized"
        end
    end in
  match opt (mapImages productImages) filterImages with
  | None => None
  | Some urls =>
      Some
        {| id := rp_id rawProduct;
           name :=
             or_else (rp_name rawProduct)
               (or_else (opt descriptor ds_name) (js "Unnamed Product"));
           description :=
             or_else (rp_description rawProduct)
               (or_else (rp_long_description rawProduct)
                  (or_else (opt descriptor ds_short_desc)
                     (or_else (opt descriptor ds_long_desc) [])));
           price :=
             match rp_price_value rawProduct with
             | Some v =>
                 if num_truthy v then v
                 else or_zero (opt item_details it_price_value)
             | None => or_zero (opt item_details it_price_value)
             end;
           category := categoryString;
           provider_id := providerId;
           provider_name := providerName;
           delivery_available := true;
           images := urls |}
  end.

(** [transformRawProduct]: the product of the [try] block, or the product
    of the [catch] block when it throws. *)
Definition transformRawProduct (rawProduct : RawProduct) : Product :=
  match transformed rawProduct with
  | Some product => product
  | None =>
      {| id := or_else (Some (rp_id rawProduct)) (js "unknown");
         name := js "Error loading product";
         description := js "This product could not be loaded";
         price := zero;
         category := js "Unknown";
         provider_id := js "unknown";
         provider_name := js "Unknown Provider";
         delivery_available := false;
         images := [] |}
  end.

End Transform.

End Products.

(** * The vocabulary of the properties *)

Section Vocabulary.

Context {P : Payloads} {R : Runtime}.

(** The lines of a text that are complete, and the partial line after
    them: what the read loop processes and what it keeps in [buffer]. *)
Definition completeLines (s : JSString) : list JSString :=
  removelast (split s).

Definition partialLine (s : JSString) : JSString := last (split s) [].

(** Position by position the chats keep their identifier, and a chat whose
    identifier is not [a] is the same chat. *)
Definition sameExcept (a : JSString) (cs cs' : list ChatSession) : Prop :=
  Forall2 (fun c c' =>
             cs_id c' = cs_id c /\
             (JS.eqb (cs_id c) a = false -> c' = c)) cs cs'.

(** The filter of [handleRawProducts]. *)
Definition keepForProducts (cur : option JSString) (m : ChatMessage) : bool :=
  negb (isTemporary m && sameStream (streamId m) cur) &&
  negb (hasType bot_product_list m && sameStream (streamId m) cur).

(** The filter of [handleRawCart]. *)
Definition keepForCart (cur : option JSString) (m : ChatMessage) : bool :=
  negb (isTemporary m && sameStream (streamId m) cur) &&
  negb (hasType bot_cart_view m && sameStream (streamId m) cur).

(** What a [raw_cart] event comes to, with the clock afterwards: a cart
    to show, nothing to show, or the exception of
    [transformRawCartSummary]. *)
Inductive CartOutcome : Type :=
| CartShown (cartContext : CartContext) (clk : nat)
| CartSwept (clk : nat)
| CartThrown (clk : nat).

Definition cartOutcome (cart_items : list RawCartItem)
  (cart_summary : option RawCartSummary) (clk : nat) : CartOutcome :=
  let (normalized, clk) := normalizeCartSummary cart_items cart_summary clk in
  match normalized with
  | Some ({| rcs_items := Some (_ :: _) |} as normalized) =>
      match transformRawCartSummary normalized with
      | Some cartContext => CartShown cartContext clk
      | None => CartThrown clk
      end
  | _ => CartSwept clk
  end.

(** The filter of [removeThinkingMessages]. *)
Definition keepForSweep (cur : option JSString) (m : ChatMessage) : bool :=
  negb (isThinkingOrTool m && sameStream (streamId m) cur).

(** Whether the chat [handleStreamError] looks up in the [chats] it closes
    over has entries. *)
Definition hadEntries (a : JSString) (chats0 : list ChatSession) : bool :=
  match find (fun c => JS.eqb (cs_id c) a) chats0 with
  | Some c => Nat.ltb 0 (List.length (messages c))
  | None => false
  end.

(** Consecutive [thinking] events of one stream, each with its message and
    optional session id. *)
Definition thinkingEvents (a : JSString)
  (evs : list (JSString * option JSString)) (st : Model) : Model :=
  fold_left (fun st e => handleThinking a (fst e) (snd e) st) evs st.

(** The [thinking] entries that belong to stream [sid]. *)
Definition thinkingOf (sid : JSString) (ms : list ChatMessage)
  : list ChatMessage :=
  filter (fun m => hasType bot_thinking m &&
                   sameStream (streamId m) (Some sid)) ms.

(** An entry that the stream in [cur] does not own. *)
Definition foreign (cur : option JSString) (m : ChatMessage) : bool :=
  negb (sameStream (streamId m) cur).

(** From [ms] to [ms'] no entry that [cur] does not own is removed, changed
    or moved: every such entry of [ms] is in [ms'], and the entries of [ms']
    that [cur] does not own are those of [ms], in the same order, followed
    by what was appended. *)
Definition keepsOtherRequests (cur : option JSString)
  (ms ms' : list ChatMessage) : Prop :=
  (forall m, In m ms -> sameStream (streamId m) cur = false -> In m ms') /\
  exists tail, filter (foreign cur) ms' = filter (foreign cur) ms ++ tail.

(** A [thinking] or [tool executing] entry of the stream in [cur]. *)
Definition ownedThinkingOrTool (cur : option JSString) (m : ChatMessage)
  : bool :=
  isThinkingOrTool m && sameStream (streamId m) cur.

(** A transient entry ([thinking], [tool executing] or [conversation
    chunk]) of the stream in [cur]. *)
Definition ownedTransient (cur : option JSString) (m : ChatMessage) : bool :=
  isTemporary m && sameStream (streamId m) cur.

(** [kept] is [ms] after a sweep for [cur]: no [thinking] or
    [tool executing] entry of [cur] is left, the entries that are not
    transient entries of [cur] are all there, in their order, and nothing
    is there that was not in [ms]. *)
Definition sweptOf (cur : option JSString) (ms kept : list ChatMessage)
  : Prop :=
  filter (ownedThinkingOrTool cur) kept = [] /\
  filter (fun m => negb (ownedTransient cur m)) kept =
  filter (fun m => negb (ownedTransient cur m)) ms /\
  incl kept ms.

(** The call an action belongs to. *)
Definition requestOf (act : Action) : nat :=
  match act with
  | Abort r | Fetch r _ _ | Parse r _ | Warn r _
  | OnThinking r | OnConversationChunk r | OnToolStart r | OnResponse r
  | OnRawProducts r | OnRawCart r | OnError r | OnComplete r => r
  end.

(** The actions that are calls of a callback of the hook. *)
Definition isCallback (act : Action) : bool :=
  match act with
  | Abort _ | Fetch _ _ _ | Parse _ _ | Warn _ _ => false
  | _ => true
  end.

Definition isOnComplete (r : nat) (act : Action) : bool :=
  match act with
  | OnComplete r' => Nat.eqb r' r
  | _ => false
  end.

(** How many times [onComplete] was called by call [r]. *)
Definition countComplete (r : nat) (l : list Action) : nat :=
  List.length (filter (isOnComplete r) l).

Definition hasDoneMarker (lines : list JSString) : bool :=
  existsb (fun l => isDoneMarker (trim l)) lines.

(** The world after call [r] has been handed [chunks], one read at a
    time. *)
Definition readChunks (r : nat) (chunks : list JSString) (w : World)
  : World :=
  run (map (fun text => Settle r (ReadChunk text)) chunks) w.

Definition phaseOf (r : nat) (w : World) : option Phase :=
  option_map phase (nth_error (requests w) r).

(** The entry [sendMessage] appends for the user's text. *)
Definition userMessage (t : N) (msg : JSString) : ChatMessage :=
  {| msg_id := js "m" ++ decimal t; body := MUser msg; streamId := None |}.

(** The callbacks called by call [r]. *)
Definition callbackOf (r : nat) (act : Action) : bool :=
  isCallback act && Nat.eqb (requestOf act) r.

(** The signal of call [r] is aborted. *)
Definition cancelled (r : nat) (w : World) : Prop :=
  exists q, nth_error (requests w) r = Some q /\ aborted q = true.


(** The next character is a digit; the next character is a dot. *)
Definition followedByDigit (s : JSString) : bool :=
  match s with
  | c :: _ => isDigit c
  | [] => false
  end.

Definition followedByDot (s : JSString) : bool :=
  match s with
  | c :: _ => N.eqb c 46
  | [] => false
  end.

(** What the group of the amount pattern captures in [content], read off
    the pattern: [g] follows the leftmost rupee sign that is followed by a
    digit ([pre] holds no such sign), and is the longest text made of one
    or more digits [ip], then a dot if there is one, then the digits [fp]
    that follow the dot. *)
Definition amountCapture (content g : JSString) : Prop :=
  exists pre ip fp rest,
    content = pre ++ rupee :: g ++ rest /\
    (forall p1 d p2, pre = p1 ++ rupee :: d :: p2 -> isDigit d = false) /\
    ip <> [] /\
    forallb isDigit ip = true /\
    forallb isDigit fp = true /\
    followedByDigit rest = false /\
    (g = ip ++ 46%N :: fp \/
     (g = ip /\ fp = [] /\ followedByDot rest = false)).

(** No rupee sign of [content] is followed by a digit. *)
Definition noAmount (content : JSString) : Prop :=
  forall pre d post, content = pre ++ rupee :: d :: post -> isDigit d = false.

(** [line] is a [data:] record that parses as a [thinking] event with
    message [m] and session id [s]. *)
Definition thinkingFrame (line m : JSString) (s : option JSString) : Prop :=
  startsWith (trim line) (js "data:") = true /\
  isDoneMarker (trim line) = false /\
  JSON_parse (trim (substring 5 (trim line))) = Some (SR_thinking m s).

(** The payload of a [data:] record, as it is handed to the parser. *)
Definition payloadOf (line : JSString) : JSString :=
  trim (substring 5 (trim line)).

(** The final responses that [handleResponse] takes for the start of a
    payment: the text has the order phrase and none of the two session
    phrases. *)
Definition isPaymentResponse (data : StreamingResponse) : bool :=
  match data with
  | SR_response response =>
      let content := re_content response in
      negb (includes content (js "initialized a new shopping session") ||
            includes content (js "Session Ready")) &&
      includes content (js "Your order has been initialized")
  | _ => false
  end.

(** A line whose payload parses as such a response. *)
Definition paymentRecord (line : JSString) : bool :=
  match JSON_parse (payloadOf line) with
  | Some data => isPaymentResponse data
  | None => false
  end.

(** The state once the queued updaters have run: the clock they read is
    level with the clock. *)
Definition settled (st : Model) : Model := setRenderClock (clock st) st.


End Vocabulary.

(** * More vocabulary *)

Section MoreVocabulary.

Context {P : Payloads} {R : Runtime}.

(** A line the read loop passes over: blank or a comment once trimmed, or
    neither the marker nor a [data:] record (another field of the event
    stream, [event:] or [id:] for instance). *)
Definition inert (l : JSString) : bool :=
  let t := trim l in
  negb (truthy t) || startsWith t (js ":") ||
  (negb (isDoneMarker t) && negb (startsWith t (js "data:"))).

(** What was done between two worlds: the actions logged since. *)
Definition emitted (w w' : World) : list Action :=
  skipn (List.length (log w)) (log w').

(** The three status events of a stream. *)
Inductive StatusEvent : Type :=
| EvThinking (message : JSString) (session_id : option JSString)
| EvToolStart (tool status : JSString) (session_id : option JSString)
| EvChunk (message : JSString) (session_id stage : option JSString).

(** The kind of entry a status event shows as. *)
Definition statusKind (e : StatusEvent) : MessageType :=
  match e with
  | EvThinking _ _ => bot_thinking
  | EvToolStart _ _ _ => bot_tool_executing
  | EvChunk _ _ _ => bot_conversation_chunk
  end.

(** The entry of a status event, stamped [t], for stream [sid]. *)
Definition statusEntry (e : StatusEvent) (t : N) (sid : JSString)
  : ChatMessage :=
  match e with
  | EvThinking message _ =>
      {| msg_id := js "thinking" ++ decimal t; body := MThinking message;
         streamId := Some sid |}
  | EvToolStart tool status _ =>
      {| msg_id := js "tool" ++ decimal t;
         body := MToolExecuting tool status; streamId := Some sid |}
  | EvChunk message _ stage =>
      {| msg_id := js "chunk" ++ decimal t;
         body := MConversationChunk message stage; streamId := Some sid |}
  end.

(** The handler the hook calls for a status event. *)
Definition applyStatus (a : JSString) (e : StatusEvent) (st : Model)
  : Model :=
  match e with
  | EvThinking message session_id => handleThinking a message session_id st
  | EvToolStart tool status session_id =>
      handleToolStart a tool status session_id st
  | EvChunk message session_id stage =>
      handleConversationChunk a message session_id stage st
  end.

Definition statusEvents (a : JSString) (evs : list StatusEvent) (st : Model)
  : Model :=
  fold_left (fun st e => applyStatus a e st) evs st.

(** The last event of kind [k] in a sequence of status events. *)
Definition lastOfKind (k : MessageType) (evs : list StatusEvent)
  : option StatusEvent :=
  find (fun e => MessageType_eqb (statusKind e) k) (rev evs).

(** The entries of kind [k] that stream [sid] owns. *)
Definition ofKind (k : MessageType) (sid : JSString) (ms : list ChatMessage)
  : list ChatMessage :=
  filter (fun m => hasType k m && sameStream (streamId m) (Some sid)) ms.

(** An entry that no stream owns. *)
Definition unowned (m : ChatMessage) : bool :=
  match streamId m with
  | None => true
  | Some _ => false
  end.

(** The durable part of a transcript: the entries no stream owns (the
    user's messages, the entries of final responses, payment and error
    entries). *)
Definition durable (ms : list ChatMessage) : list ChatMessage :=
  filter unowned ms.

(** Chat [c'] is chat [c] with a durable part that only grew at its end. *)
Definition grows (c c' : ChatSession) : Prop :=
  cs_id c' = cs_id c /\ title c' = title c /\
  exists added, durable (messages c') = durable (messages c) ++ added.

(** The kinds of entry a final response is shown as. *)
Definition isFinalKind (k : MessageType) : bool :=
  match k with
  | bot | bot_product_list | bot_cart_view | bot_checkout_stage
  | bot_order_confirmation | bot_error | bot_success => true
  | _ => false
  end.

(** The two tests of [handleResponse] on the text of a final response. *)
Definition sessionPhrase (content : JSString) : bool :=
  includes content (js "initialized a new shopping session") ||
  includes content (js "Session Ready").

Definition paymentPhrase (content : JSString) : bool :=
  includes content (js "Your order has been initialized").

(** The record [handleResponse] hands to [createMessagesFromResponse]. *)
Definition responseData (response : ResponseEvent) : ChatApiResponse :=
  {| response := re_content response; data := re_data response;
     context_type := re_context_type response |}.

(** The kinds of the status lines. *)
Definition statusKinds : list MessageType :=
  [bot_thinking; bot_tool_executing; bot_conversation_chunk].

(** Where the items [rawItems] of the cart of a [raw_cart] event come
    from, and the clock [clk] once they are there, [clk0] being the clock
    before.  When the summary lists items, they are its items and the
    clock is not read.  Otherwise [cart_items] is not empty, no entry of
    it throws, each item is made from the entry at its place, and the
    clock was read once for each entry without an id. *)
Definition cartItemsFrom (cart_items : list RawCartItem)
  (cart_summary : option RawCartSummary) (clk0 : nat)
  (rawItems : list RawCartSummaryItem) (clk : nat) : Prop :=
  if hasItems (summaryItems cart_summary)
  then summaryItems cart_summary = Some rawItems /\ clk = clk0
  else cart_items <> [] /\
       existsb synthesisThrows cart_items = false /\
       Forall2 (fun ci it => exists k, it = synthesizeItem ci (Date_now k))
         cart_items rawItems /\
       clk = clk0 + List.length (filter lacksId cart_items).

(** What the cart shows for a total: the field of the summary when it is
    there (zero when it is falsy); without the field, the sum over the
    items when they were made from [cart_items], and zero when they are
    those of the summary. *)
Definition cartTotal (field : RawCartSummary -> option Num)
  (sum : list RawCartSummaryItem -> Num)
  (cart_summary : option RawCartSummary)
  (rawItems : list RawCartSummaryItem) : Num :=
  match cart_summary with
  | Some s =>
      match field s with
      | Some n => or_zero (Some n)
      | None =>
          if hasItems (rcs_items s) then zero
          else or_zero (Some (sum rawItems))
      end
  | None => or_zero (Some (sum rawItems))
  end.

(** The cart shown is flagged empty: its items are those of the summary,
    and the summary says so. *)
Definition flaggedEmpty (cart_summary : option RawCartSummary) : bool :=
  match cart_summary with
  | Some s =>
      hasItems (rcs_items s) &&
      match rcs_is_empty s with
      | Some b => b
      | None => false
      end
  | None => false
  end.

(** A [raw_cart] event has nothing to show: its summary lists no item, and
    [cart_items] is empty or has an entry from which no item can be
    made. *)
Definition nothingToShow (cart_items : list RawCartItem)
  (cart_summary : option RawCartSummary) : Prop :=
  hasItems (summaryItems cart_summary) = false /\
  (cart_items = [] \/ existsb synthesisThrows cart_items = true).

(** The loading flag as the log tells it: raised by each request sent,
    lowered by each call of [onComplete] or [onError], left alone by every
    other action. *)
Definition loadingAfter (init : bool) (acts : list Action) : bool :=
  fold_left
    (fun b act =>
       match act with
       | Fetch _ _ _ => true
       | OnComplete _ | OnError _ => false
       | _ => b
       end)
    acts init.

(** The session identifier a record announces, if it carries a non-empty
    one. *)
Definition announced (data : StreamingResponse) : option JSString :=
  let session_id :=
    match data with
    | SR_thinking _ s | SR_conversation_chunk _ s _ | SR_tool_start _ _ s
    | SR_raw_products s _ | SR_raw_cart s _ _ => s
    | SR_response response => re_session_id response
    | SR_other _ => None
    end in
  match session_id with
  | Some s => if truthy s then Some s else None
  | None => None
  end.

(** The session identifier after the text [jsonStr] went through
    [JSON.parse], [s] being the one before. *)
Definition announce (jsonStr : JSString) (s : option JSString)
  : option JSString :=
  match JSON_parse jsonStr with
  | Some data =>
      match announced data with
      | Some s' => Some s'
      | None => s
      end
  | None => s
  end.

(** Reading a log with the session identifier [s] in hand: each request is
    sent with the identifier held at that point, each record parsed may
    announce a new one, and [s'] is the identifier held at the end. *)
Fixpoint sessionsFollow (s : option JSString) (acts : list Action)
  (s' : option JSString) : Prop :=
  match acts with
  | [] => s' = s
  | Fetch _ _ session_id :: rest =>
      session_id = s /\ sessionsFollow s rest s'
  | Parse _ jsonStr :: rest => sessionsFollow (announce jsonStr s) rest s'
  | _ :: rest => sessionsFollow s rest s'
  end.

(** Events other than sending a message: settlements and the selection of
    a chat. *)
Definition notSend (e : Event) : bool :=
  match e with
  | SendMessage _ _ _ => false
  | _ => true
  end.

(** A call that can still run a callback: it has not returned and its
    signal is not aborted. *)
Definition mayRewrite (q : Request) : bool :=
  match phase q with
  | Returned => false
  | _ => negb (aborted q)
  end.

(** Every call that can still run a callback was sent from chat [a]. *)
Definition streamsFrom (a : JSString) (w : World) : bool :=
  forallb (fun q => negb (mayRewrite q) || JS.eqb (rq_activeChatId q) a)
    (requests w).

(** One of the letters [a] to [z]. *)
Definition isSmallLetter (c : N) : bool := N.leb 97 c && N.leb c 122.

(** The sidebar is in order: no two chats share an identifier and the
    active chat is one of them. *)
Definition sidebarOK (st : Model) : Prop :=
  NoDup (map cs_id (chats st)) /\ activeChat st <> None.

(** The actions that end the loading state. *)
Definition endsLoading (act : Action) : bool :=
  match act with
  | OnComplete _ | OnError _ => true
  | _ => false
  end.

(** The chat [createChat] makes on state [st]: empty, named after the
    clock. *)
Definition newChat (st : Model) : ChatSession :=
  {| cs_id := js "c" ++ decimal (Date_now (clock st));
     title := js "New Chat"; messages := [] |}.

(** The images [transformRawProduct] starts from: those of the product,
    or else those of its descriptor. *)
Definition rawImages (rawProduct : Products.RawProduct)
  : list Products.RawImage :=
  match Products.rp_images rawProduct with
  | Some imgs => imgs
  | None =>
      match Products.opt
              (Products.opt (Products.rp_item_details rawProduct)
                 Products.it_descriptor)
              Products.ds_images with
      | Some imgs => imgs
      | None => []
      end
  end.

(** An image on which the transformation throws: [null], or an object
    whose [url] is truthy and not a string. *)
Definition poisoned (img : Products.RawImage) : bool :=
  match img with
  | Products.ImageNull | Products.ImageObject (Products.UrlOther true) =>
      true
  | _ => false
  end.

(** The address an image gives, if any. *)
Definition imageUrl (img : Products.RawImage) : list JSString :=
  match img with
  | Products.ImageString s
  | Products.ImageObject (Products.UrlString s) => [s]
  | _ => []
  end.

Definition notBlank (s : JSString) : bool := negb (JS.eqb (trim s) []).

End MoreVocabulary.

(** * A sample runtime and sample runs *)

(** A JSON text written with an apostrophe for each double quote. *)
Definition jsq (s : string) : JSString :=
  map (fun c => if N.eqb c 39 then 34%N else c) (js s).
Arguments jsq s%_string.

(** Numbers as exact decimals, [mantissa / 10 ^ scale]. *)
Record Dec : Type := {
  mantissa : N;
  scale : nat
}.

Definition digitsValue (ds : JSString) : N :=
  fold_left (fun acc c => (acc * 10 + (c - 48))%N) ds 0%N.

Fixpoint dropZeros (rev_ds : JSString) : JSString :=
  match rev_ds with
  | 48%N :: ds => dropZeros ds
  | _ => rev_ds
  end.

(** [parseFloat] on a numeral made of digits, optionally followed by a dot
    and digits (the captures of the amount pattern are of this form);
    [None] stands for [NaN]. *)
Definition sampleParseFloat (s : JSString) : option Dec :=
  let (ip, rest) := spanDigits s in
  match ip with
  | [] => None
  | _ :: _ =>
      let fp :=
        match rest with
        | 46%N :: s2 => rev (dropZeros (rev (fst (spanDigits s2))))
        | _ => []
        end in
      Some {| mantissa := digitsValue (ip ++ fp); scale := List.length fp |}
  end.

(** The sample payloads.  A product is its id and name.  An entry of
    [cart_items] is its id if it has one, whether an item can be made from
    it, and whether that item can be shown; an item of a summary is its id
    and whether it can be shown.  Each item counts for one, at 100
    rupees. *)
#[export] Instance samplePayloads : Payloads :=
  {| Num := option Dec;
     zero := Some {| mantissa := 0; scale := 0 |};
     num_truthy := fun x =>
       match x with
       | Some d => negb (N.eqb (mantissa d) 0)
       | None => false
       end;
     parseFloat := sampleParseFloat;
     RawProduct := JSString * JSString;
     Product := JSString * JSString;
     transformRawProduct := fun p => p;
     RawCartItem := option N * bool * bool;
     RawCartSummaryItem := N * bool;
     CartItem := N;
     lacksId := fun ci =>
       match fst (fst ci) with
       | Some _ => false
       | None => true
       end;
     synthesisThrows := fun ci => negb (snd (fst ci));
     synthesizeItem := fun ci t =>
       (match fst (fst ci) with
        | Some id => id
        | None => t
        end, snd ci);
     sumQuantity := fun l =>
       Some {| mantissa := N.of_nat (List.length l); scale := 0 |};
     sumSubtotal := fun l =>
       Some {| mantissa := 100 * N.of_nat (List.length l); scale := 0 |};
     toCartItemThrows := fun it => negb (snd it);
     toCartItem := fun it => fst it;
     QuoteData := unit;
     emptyQuoteData := tt |}.

Definition paymentText : JSString :=
  js "Your order has been initialized. Total: " ++ [rupee] ++
  js "499.50 only".

Definition paymentResponse (content : JSString) : ResponseEvent :=
  {| re_content := content; re_session_id := None; re_data := None;
     re_context_type := None |}.

(** A cart event whose second entry has no id, one with an entry from
    which no item can be made, and one with an item that cannot be
    shown. *)
Definition cartOfTwo : list (@RawCartItem samplePayloads) :=
  [ (Some 7%N, true, true); (None, true, true) ].

Definition cartUnreadable : list (@RawCartItem samplePayloads) :=
  [ (Some 7%N, true, true); (None, false, true) ].

Definition cartUnshowable : list (@RawCartItem samplePayloads) :=
  [ (None, true, true); (Some 8%N, true, false) ].

(** The records used below and what [JSON.parse] makes of them. *)
Definition sampleRecords : list (JSString * StreamingResponse) :=
  [ (jsq "{'type':'thinking','message':'Searching'}",
     SR_thinking (js "Searching") None);
    (jsq "{'type':'thinking','message':'Ranking'}",
     SR_thinking (js "Ranking") None);
    (jsq "{'type':'tool_start','tool':'search_products','status':'running'}",
     SR_tool_start (js "search_products") (js "running") None);
    (jsq "{'type':'conversation_chunk','message':'Found 3 items'}",
     SR_conversation_chunk (js "Found 3 items") None None);
    (jsq "{'type':'raw_products','products':[{'id':'p1','name':'Rice'}]}",
     SR_raw_products None (Some [(js "p1", js "Rice")]));
    (jsq "{'type':'response','content':'" ++ paymentText ++ jsq "'}",
     SR_response (paymentResponse paymentText));
    (jsq "{'type':'raw_cart','cart_items':[{'id':7},{}]}",
     SR_raw_cart None cartOfTwo None);
    (jsq "{'type':'raw_cart','cart_items':[{},{'id':8,'item':null}]}",
     SR_raw_cart None cartUnshowable None);
    (jsq "{'type':'done'}", SR_other (Some (js "done"))) ].

(** [JSON.parse] on the texts used below: the records above, and texts that
    are not JSON ([not-json], [[DONE]]), on which it throws. *)
Definition sampleParse (s : JSString) : option StreamingResponse :=
  match find (fun e => JS.eqb (fst e) s) sampleRecords with
  | Some e => Some (snd e)
  | None => None
  end.

#[export] Instance sampleRuntime : Runtime :=
  {| JSON_parse := sampleParse;
     Date_now := fun n => (1700000000000 + N.of_nat n)%N |}.

(** A line of the stream: the text and its line feed. *)
Definition line (s : JSString) : JSString := s ++ [10%N].

Definition thinkingSearching : JSString :=
  jsq "data: {'type':'thinking','message':'Searching'}".

Definition thinkingRanking : JSString :=
  jsq "data: {'type':'thinking','message':'Ranking'}".

(** A first message is sent and its response starts to stream. *)
Definition worldStreaming : World :=
  run [ SendMessage (js "rice") true (js "k3x9");
        Settle 0 (FetchResolved true true) ] initialWorld.

(** ... and a [thinking] record has arrived. *)
Definition worldThinking : World :=
  step (Settle 0 (ReadChunk (line thinkingSearching))) worldStreaming.

(** The stream identifier of the first message. *)
Definition stream0 : JSString := js "stream_1700000000000_k3x9".

(** The call of the first message while it reads. *)
Definition call0 : Request :=
  {| phase := AwaitRead []; aborted := false;
     rq_activeChatId := js "c1";
     rq_chats := [ {| cs_id := js "c1"; title := js "New Chat";
                      messages := [] |} ] |}.

(** The transcript of the first chat, as kinds and owners. *)
Definition transcript (w : World) : list (MessageType * option JSString) :=
  match chats (ui w) with
  | c :: _ => map (fun m => (msg_type m, streamId m)) (messages c)
  | [] => []
  end.

Definition chunksWithMarker : list JSString :=
  [ jsq "data: {'type':'raw_products','prod";
    line (jsq "ucts':[{'id':'p1','name':'Rice'}]}") ++
    line (js "data: [DONE]") ++ line thinkingRanking ].

(** The first chat's entries, as kinds-with-fields. *)
Definition bodies (w : World) : list MessageBody :=
  match chats (ui w) with
  | c :: _ => map body (messages c)
  | [] => []
  end.

(** The first chat's entries, as identifiers. *)
Definition entryIds (w : World) : list JSString :=
  match chats (ui w) with
  | c :: _ => map msg_id (messages c)
  | [] => []
  end.

(** The second message is sent while the first call reads. *)
Definition worldResent : World :=
  step (SendMessage (js "dal") true (js "p7q2")) worldThinking.

(** The first call, once its controller is aborted. *)
Definition call0Aborted : Request := setAborted call0.

Definition toolStart : JSString :=
  jsq "data: {'type':'tool_start','tool':'search_products','status':'running'}".

Definition conversationChunk : JSString :=
  jsq "data: {'type':'conversation_chunk','message':'Found 3 items'}".

Definition paymentRecordLine : JSString :=
  jsq "data: {'type':'response','content':'" ++ paymentText ++ jsq "'}".

Definition cartOfTwoLine : JSString :=
  jsq "data: {'type':'raw_cart','cart_items':[{'id':7},{}]}".

Definition cartUnshowableLine : JSString :=
  jsq "data: {'type':'raw_cart','cart_items':[{},{'id':8,'item':null}]}".

(** ** More sample data *)

(** Status events of one request, two of them of the same kind. *)
Definition statusRun : list StatusEvent :=
  [ EvThinking (js "Searching") None;
    EvToolStart (js "search_products") (js "running") None;
    EvThinking (js "Ranking") (Some (js "s-42"));
    EvChunk (js "Found 3 items") None None ].

(** A final response with none of the session and payment phrases. *)
Definition plainResponse : ResponseEvent :=
  {| re_content := js "Here is what I found";
     re_session_id := Some (js "s-42");
     re_data := None;
     re_context_type := None |}.

(** The sidebar after one more chat was created. *)
Definition twoChats : Model := createChat initialModel.

(** A chat is created while the first request streams. *)
Definition worldNewChat : World :=
  {| ui := createChat (ui worldThinking);
     abortControllerRef := abortControllerRef worldThinking;
     isStreamingRef := isStreamingRef worldThinking;
     requests := requests worldThinking;
     log := log worldThinking |}.

(** The first request has ended; a chat is created and a message is sent
    from it, whose response starts to stream. *)
Definition worldSecondChat : World :=
  let w := step (Settle 0 ReadDone) worldThinking in
  run [ SendMessage (js "dal") true (js "p7q2");
        Settle 1 (FetchResolved true true) ]
    {| ui := createChat (ui w);
       abortControllerRef := abortControllerRef w;
       isStreamingRef := isStreamingRef w;
       requests := requests w;
       log := log w |}.

(** A record cut in two by the transport. *)
Definition rankingHead : JSString := jsq "data: {'type':'thin".

Definition rankingTail : JSString := line (jsq "king','message':'Ranking'}").

(** A raw product with a blank image, an image object and a number among
    its images, and no category. *)
Definition riceRaw (imgs : list Products.RawImage) : Products.RawProduct :=
  {| Products.rp_id := js "p1";
     Products.rp_name := Some (js "Rice");
     Products.rp_description := None;
     Products.rp_long_description := None;
     Products.rp_price_value := None;
     Products.rp_images := Some imgs;
     Products.rp_category :=
       Some (Products.CategoryObject None (Some (js "grains")));
     Products.rp_provider_id := None;
     Products.rp_provider_name := None;
     Products.rp_item_details := None;
     Products.rp_provider_details := None;
     Products.rp_provider := None;
     Products.rp_bpp_details_name := Some (js "Himira") |}.

Definition riceImages : list Products.RawImage :=
  [ Products.ImageString (js " ");
    Products.ImageObject (Products.UrlString (js "https://img/rice.png"));
    Products.ImageOther ].

(** * Properties *)

(** ** Strings and lines *)

Lemma eqb_eq (s t : JSString) : JS.eqb s t = true <-> s = t.
Proof.
  revert t; induction s as [|c s IH]; intros [|d t]; simpl; split;
    try congruence; try reflexivity.
  - intros H. apply andb_true_iff in H as [H1 H2].
    apply N.eqb_eq in H1. apply IH in H2. congruence.
  - intros H. injection H as -> ->.
    rewrite N.eqb_refl. simpl. apply IH. reflexivity.
Qed.

Lemma eqb_refl (s : JSString) : JS.eqb s s = true.
Proof. apply eqb_eq. reflexivity. Qed.

Lemma eqb_neq (s t : JSString) : JS.eqb s t = false <-> s <> t.
Proof.
  split.
  - intros H E. apply eqb_eq in E. congruence.
  - intros H. destruct (JS.eqb s t) eqn:E; [|reflexivity].
    apply eqb_eq in E. contradiction.
Qed.

Lemma split_not_nil (s : JSString) : split s <> [].
Proof.
  destruct s as [|c s]; simpl; [discriminate|].
  destruct (N.eqb c 10); [discriminate|].
  destruct (split s); discriminate.
Qed.

Lemma split_cons (c : N) (s : JSString) :
  split (c :: s) =
  if N.eqb c 10 then [] :: split s
  else (c :: hd [] (split s)) :: tl (split s).
Proof.
  simpl. destruct (N.eqb c 10); [reflexivity|].
  destruct (split s) eqn:E; [|reflexivity].
  exfalso. exact (split_not_nil _ E).
Qed.

Lemma completeLines_cons (c : N) (s : JSString) :
  completeLines (c :: s) =
  if N.eqb c 10 then [] :: completeLines s
  else match completeLines s with
       | [] => []
       | l :: ls => (c :: l) :: ls
       end.
Proof.
  unfold completeLines. rewrite split_cons.
  pose proof (split_not_nil s) as Hs.
  destruct (N.eqb c 10).
  - simpl. destruct (split s); [contradiction|reflexivity].
  - destruct (split s) as [|l [|l' ls]]; [contradiction| |]; reflexivity.
Qed.

Lemma partialLine_cons (c : N) (s : JSString) :
  partialLine (c :: s) =
  if N.eqb c 10 then partialLine s
  else match completeLines s with
       | [] => c :: partialLine s
       | _ :: _ => partialLine s
       end.
Proof.
  unfold partialLine, completeLines. rewrite split_cons.
  pose proof (split_not_nil s) as Hs.
  destruct (N.eqb c 10).
  - simpl. destruct (split s); [contradiction|reflexivity].
  - destruct (split s) as [|l [|l' ls]]; [contradiction| |]; reflexivity.
Qed.

(** Feeding a text in two pieces: the lines completed by the first piece,
    then those of the kept partial line followed by the second piece. *)
Lemma completeLines_app (s t : JSString) :
  completeLines (s ++ t) =
  completeLines s ++ completeLines (partialLine s ++ t).
Proof.
  induction s as [|c s IH]; [reflexivity|].
  change ((c :: s) ++ t) with (c :: (s ++ t)).
  rewrite !completeLines_cons, partialLine_cons, IH.
  destruct (N.eqb c 10) eqn:Ec; [reflexivity|].
  destruct (completeLines s) as [|l ls]; [|reflexivity].
  simpl app. rewrite completeLines_cons, Ec. reflexivity.
Qed.

Lemma partialLine_app (s t : JSString) :
  partialLine (s ++ t) = partialLine (partialLine s ++ t).
Proof.
  induction s as [|c s IH]; [reflexivity|].
  change ((c :: s) ++ t) with (c :: (s ++ t)).
  rewrite !partialLine_cons, completeLines_app, IH.
  destruct (N.eqb c 10) eqn:Ec; [reflexivity|].
  destruct (completeLines s) as [|l ls]; simpl app.
  - rewrite partialLine_cons, Ec. reflexivity.
  - reflexivity.
Qed.

(** A kept partial line holds no line feed: on its own it completes no
    line. *)
Lemma completeLines_partialLine (s : JSString) :
  completeLines (partialLine s) = [].
Proof.
  induction s as [|c s IH]; [reflexivity|].
  rewrite partialLine_cons.
  destruct (N.eqb c 10) eqn:Ec; [exact IH|].
  destruct (completeLines s) eqn:E; [|exact IH].
  rewrite completeLines_cons, Ec, IH. reflexivity.
Qed.

(** ** The handlers rewrite one chat *)

Section Frame.

Context {P : Payloads} {R : Runtime}.

Lemma sameExcept_refl (a : JSString) (cs : list ChatSession) :
  sameExcept a cs cs.
Proof. induction cs; constructor; auto. Qed.

Lemma sameExcept_trans (a : JSString) (cs1 cs2 cs3 : list ChatSession) :
  sameExcept a cs1 cs2 -> sameExcept a cs2 cs3 -> sameExcept a cs1 cs3.
Proof.
  intros H12; revert cs3.
  induction H12 as [|c1 c2 l1 l2 [Hid H] _ IH]; intros cs3 H23.
  - inversion H23. constructor.
  - inversion H23 as [|c2' c3 l2' l3 [Hid' H'] Hrest]; subst.
    constructor; [|apply IH; exact Hrest].
    split; [congruence|].
    intros E. rewrite H' by (rewrite Hid; exact E). auto.
Qed.

Lemma updateActive_sameExcept (a : JSString)
  (f : list ChatMessage -> list ChatMessage) (cs : list ChatSession) :
  sameExcept a cs (updateActive a f cs).
Proof.
  induction cs as [|c cs IH]; simpl; constructor; [|exact IH].
  destruct (JS.eqb (cs_id c) a); simpl; split; auto; discriminate.
Qed.

Lemma paymentUpdate_sameExcept (a : JSString) (cur : option JSString)
  (content : JSString) (pm : ChatMessage) (cs : list ChatSession)
  (clk : nat) :
  sameExcept a cs (fst (paymentUpdate a cur content pm cs clk)).
Proof.
  revert clk; induction cs as [|c cs IH]; intros clk; simpl;
    [constructor|].
  destruct (JS.eqb (cs_id c) a) eqn:E; simpl.
  - specialize (IH (S clk)).
    destruct (paymentUpdate a cur content pm cs (S clk)); simpl in *.
    constructor; [|exact IH]. split; [reflexivity|congruence].
  - specialize (IH clk).
    destruct (paymentUpdate a cur content pm cs clk); simpl in *.
    constructor; [|exact IH]. split; auto.
Qed.

Lemma updateSessionId_chats (s : option JSString) (st : Model) :
  chats (updateSessionId s st) = chats st.
Proof. destruct s as [[|c s]|]; reflexivity. Qed.

Lemma updateSessionId_stream (s : option JSString) (st : Model) :
  currentStreamIdRef (updateSessionId s st) = currentStreamIdRef st.
Proof. destruct s as [[|c s]|]; reflexivity. Qed.

Lemma updateSessionId_clock (s : option JSString) (st : Model) :
  clock (updateSessionId s st) = clock st.
Proof. destruct s as [[|c s]|]; reflexivity. Qed.

Lemma removeThinkingMessages_chats (a : JSString) (st : Model) :
  chats (removeThinkingMessages a st) =
  updateActive a
    (filter (fun m =>
       negb (isThinkingOrTool m &&
             sameStream (streamId m) (currentStreamIdRef st))))
    (chats st).
Proof. reflexivity. Qed.

Lemma handleThinking_chats (a message : JSString)
  (session_id : option JSString) (st : Model) :
  chats (handleThinking a message session_id st) =
  updateActive a
    (fun ms =>
       filter (fun m =>
         negb (hasType bot_thinking m &&
               sameStream (streamId m) (currentStreamIdRef st))) ms ++
       [ {| msg_id := js "thinking" ++ decimal (Date_now (clock st));
            body := MThinking message;
            streamId := or_undefined (currentStreamIdRef st) |} ])
    (chats st).
Proof.
  unfold handleThinking, now. simpl.
  rewrite updateSessionId_chats, updateSessionId_stream,
    updateSessionId_clock.
  reflexivity.
Qed.

Lemma handleToolStart_chats (a tool status : JSString)
  (session_id : option JSString) (st : Model) :
  chats (handleToolStart a tool status session_id st) =
  updateActive a
    (fun ms =>
       filter (fun m =>
         negb (hasType bot_tool_executing m &&
               sameStream (streamId m) (currentStreamIdRef st))) ms ++
       [ {| msg_id := js "tool" ++ decimal (Date_now (clock st));
            body := MToolExecuting tool status;
            streamId := or_undefined (currentStreamIdRef st) |} ])
    (chats st).
Proof.
  unfold handleToolStart, now. simpl.
  rewrite updateSessionId_chats, updateSessionId_stream,
    updateSessionId_clock.
  reflexivity.
Qed.

Lemma handleConversationChunk_chats (a message : JSString)
  (session_id stage : option JSString) (st : Model) :
  chats (handleConversationChunk a message session_id stage st) =
  updateActive a
    (fun ms =>
       filter (fun m =>
         negb (hasType bot_conversation_chunk m &&
               sameStream (streamId m) (currentStreamIdRef st))) ms ++
       [ {| msg_id := js "chunk" ++ decimal (Date_now (clock st));
            body := MConversationChunk message stage;
            streamId := or_undefined (currentStreamIdRef st) |} ])
    (chats st).
Proof.
  unfold handleConversationChunk, now. simpl.
  rewrite updateSessionId_chats, updateSessionId_stream,
    updateSessionId_clock.
  reflexivity.
Qed.

Lemma handleRawProducts_chats (a : JSString) (session_id : option JSString)
  (products : option (list RawProduct)) (st : Model) :
  chats (handleRawProducts a session_id products st) =
  updateActive a
    (fun ms =>
       match products with
       | Some (p :: ps) =>
           filter (keepForProducts (currentStreamIdRef st)) ms ++
           [ {| msg_id := js "raw_products" ++ decimal (Date_now (clock st));
                body := MProductList (map transformRawProduct (p :: ps));
                streamId := or_undefined (currentStreamIdRef st) |} ]
       | _ => filter (keepForSweep (currentStreamIdRef st)) ms
       end)
    (chats st).
Proof.
  unfold handleRawProducts, now.
  destruct products as [[|p ps]|]; simpl;
    rewrite ?removeThinkingMessages_chats, ?updateSessionId_chats,
      ?updateSessionId_stream, ?updateSessionId_clock;
    reflexivity.
Qed.

Lemma updateActive_same (a : JSString) (cs : list ChatSession) :
  updateActive a (fun ms => ms) cs = cs.
Proof.
  unfold updateActive. induction cs as [|c cs IH]; simpl; [reflexivity|].
  rewrite IH. destruct (JS.eqb (cs_id c) a); simpl; [|reflexivity].
  destruct c; reflexivity.
Qed.

Lemma handleRawCart_chats (a : JSString) (session_id : option JSString)
  (cart_items : list RawCartItem) (cart_summary : option RawCartSummary)
  (st : Model) :
  chats (handleRawCart a session_id cart_items cart_summary st) =
  updateActive a
    (fun ms =>
       match cartOutcome cart_items cart_summary (clock st) with
       | CartShown cartContext clk =>
           filter (keepForCart (currentStreamIdRef st)) ms ++
           [ {| msg_id := js "raw_cart" ++ decimal (Date_now clk);
                body := MCartView cartContext;
                streamId := or_undefined (currentStreamIdRef st) |} ]
       | CartSwept _ => filter (keepForSweep (currentStreamIdRef st)) ms
       | CartThrown _ => ms
       end)
    (chats st).
Proof.
  unfold handleRawCart, cartOutcome, now.
  rewrite updateSessionId_clock.
  destruct (normalizeCartSummary cart_items cart_summary (clock st))
    as [[[[[|i its]|] ti tv ie]|] clk];
    try (simpl;
         rewrite ?removeThinkingMessages_chats, ?updateSessionId_chats,
           ?updateSessionId_stream, ?updateSessionId_clock;
         reflexivity).
  destruct (transformRawCartSummary
              {| rcs_items := Some (i :: its); rcs_total_items := ti;
                 rcs_total_value := tv; rcs_is_empty := ie |}); simpl;
    rewrite ?updateSessionId_chats, ?updateSessionId_stream,
      ?updateActive_same;
    reflexivity.
Qed.

Lemma handleStreamComplete_chats (a : JSString) (st : Model) :
  chats (handleStreamComplete a st) =
  updateActive a (filter (keepForSweep (currentStreamIdRef st))) (chats st).
Proof. reflexivity. Qed.

Lemma handleStreamError_chats (a : JSString) (chats0 : list ChatSession)
  (st : Model) :
  chats (handleStreamError a chats0 st) =
  updateActive a
    (fun ms =>
       filter (keepForSweep (currentStreamIdRef st)) ms ++
       if hadEntries a chats0 then [networkErrorMessage (Date_now (clock st))]
       else [])
    (chats st).
Proof.
  unfold handleStreamError, hadEntries.
  destruct (find (fun c => JS.eqb (cs_id c) a) chats0) as [c|].
  - destruct (Nat.ltb 0 (List.length (messages c))); simpl.
    + unfold updateActive. rewrite map_map. apply map_ext.
      intros c0. destruct (JS.eqb (cs_id c0) a) eqn:E; simpl;
        rewrite E; reflexivity.
    + unfold updateActive. apply map_ext. intros c0.
      destruct (JS.eqb (cs_id c0) a); simpl; [|reflexivity].
      rewrite app_nil_r. reflexivity.
  - simpl. unfold updateActive. apply map_ext. intros c0.
    destruct (JS.eqb (cs_id c0) a); simpl; [|reflexivity].
    rewrite app_nil_r. reflexivity.
Qed.

Lemma handleResponse_sameExcept (a : JSString) (response : ResponseEvent)
  (st : Model) :
  sameExcept a (chats st) (chats (handleResponse a response st)).
Proof.
  unfold handleResponse.
  destruct (includes (re_content response)
              (js "initialized a new shopping session") ||
            includes (re_content response) (js "Session Ready")).
  - rewrite removeThinkingMessages_chats, updateSessionId_chats.
    apply updateActive_sameExcept.
  - destruct (includes (re_content response)
                (js "Your order has been initialized")).
    + unfold now; simpl.
      match goal with
      | |- context [paymentUpdate ?x ?c ?t ?m ?cs ?k] =>
          pose proof (paymentUpdate_sameExcept x c t m cs k) as H;
          destruct (paymentUpdate x c t m cs k)
      end.
      simpl in *. rewrite updateSessionId_chats in H. exact H.
    + match goal with
      | |- context [now ?s] =>
          assert (Hc : chats s = chats st)
      end.
      { destruct (re_data response) as [[? ? [?|] ? ? ?]|]; simpl;
          apply updateSessionId_chats. }
      unfold now; simpl. rewrite Hc. apply updateActive_sameExcept.
Qed.

Lemma dispatch_sameExcept (r : nat) (a : JSString)
  (data : StreamingResponse) (st : Model) :
  sameExcept a (chats st) (chats (fst (dispatch r a data st))).
Proof.
  destruct data; cbn [dispatch fst].
  - rewrite handleThinking_chats. apply updateActive_sameExcept.
  - rewrite handleConversationChunk_chats. apply updateActive_sameExcept.
  - rewrite handleToolStart_chats. apply updateActive_sameExcept.
  - apply handleResponse_sameExcept.
  - rewrite handleRawProducts_chats. apply updateActive_sameExcept.
  - rewrite handleRawCart_chats. apply updateActive_sameExcept.
  - apply sameExcept_refl.
Qed.

Lemma process_line_sameExcept (r : nat) (a line : JSString) (st : Model) :
  sameExcept a (chats st) (chats (fst (fst (process_line r a line st)))).
Proof.
  unfold process_line.
  destruct (negb (truthy (trim line)) || startsWith (trim line) (js ":"));
    [apply sameExcept_refl|].
  destruct (isDoneMarker (trim line)).
  { cbn [fst]. rewrite handleStreamComplete_chats.
    apply updateActive_sameExcept. }
  destruct (startsWith (trim line) (js "data:")); [|apply sameExcept_refl].
  destruct (JSON_parse (trim (substring 5 (trim line)))) as [data|];
    [|apply sameExcept_refl].
  pose proof (dispatch_sameExcept r a data st) as H.
  destruct (dispatch r a data st). exact H.
Qed.

Lemma process_lines_sameExcept (r : nat) (a : JSString)
  (lines : list JSString) (st : Model) :
  sameExcept a (chats st) (chats (fst (fst (process_lines r a lines st)))).
Proof.
  revert st; induction lines as [|line rest IH]; intros st; simpl;
    [apply sameExcept_refl|].
  pose proof (process_line_sameExcept r a line st) as H1.
  destruct (process_line r a line st) as [[st1 acts1] [|]]; simpl in *;
    [exact H1|].
  specialize (IH st1).
  destruct (process_lines r a rest st1) as [[st2 acts2] ret]; simpl in *.
  eapply sameExcept_trans; eassumption.
Qed.

Lemma process_chunk_eq (r : nat) (a : JSString) (lines : list JSString)
  (st : Model) :
  process_chunk r a lines st =
  let pl :=
    process_lines r a lines
      (setRenderClock (clock (fst (fst (process_lines r a lines st)))) st) in
  (render (fst (fst pl)), snd (fst pl), snd pl).
Proof.
  unfold process_chunk.
  destruct (process_lines r a lines
              (setRenderClock
                 (clock (fst (fst (process_lines r a lines st)))) st))
    as [[st' acts] ret].
  reflexivity.
Qed.

Lemma process_chunk_sameExcept (r : nat) (a : JSString)
  (lines : list JSString) (st : Model) :
  sameExcept a (chats st) (chats (fst (fst (process_chunk r a lines st)))).
Proof.
  rewrite process_chunk_eq. cbv zeta. cbn [fst snd].
  apply (process_lines_sameExcept r a lines
           (setRenderClock (clock (fst (fst (process_lines r a lines st))))
              st)).
Qed.

(** Resuming a call rewrites only the chat whose identifier its callbacks
    close over. *)
Lemma settle_sameExcept (r : nat) (s : Settlement) (w : World)
  (q : Request) :
  nth_error (requests w) r = Some q ->
  sameExcept (rq_activeChatId q) (chats (ui w)) (chats (ui (settle r s w))).
Proof.
  intros Hq. unfold settle. rewrite Hq.
  assert (Hcatch : forall e n,
             sameExcept (rq_activeChatId q) (chats (ui w))
               (chats (ui (catch r q e n w)))).
  { intros e n. unfold catch.
    destruct e; [|apply sameExcept_refl].
    destruct (JS.eqb n (js "AbortError")); [apply sameExcept_refl|].
    unfold finish; cbn [ui]. rewrite handleStreamError_chats.
    apply updateActive_sameExcept. }
  assert (Hloop : forall b st acts,
             sameExcept (rq_activeChatId q) (chats (ui w)) (chats st) ->
             sameExcept (rq_activeChatId q) (chats (ui w))
               (chats (ui (loop r b st acts w)))).
  { intros b st acts H. unfold loop. destruct (isStreamingRef w); exact H. }
  destruct (phase q) as [|buffer|] eqn:Hp; [| |apply sameExcept_refl];
    destruct (aborted q); try apply Hcatch;
    destruct s as [ok hasReader|text| |e n];
    try apply Hcatch; try apply sameExcept_refl.
  - destruct ok; cbn [negb]; [|apply Hcatch].
    destruct hasReader; cbn [negb]; [|apply Hcatch].
    apply Hloop, sameExcept_refl.
  - pose proof (process_chunk_sameExcept r (rq_activeChatId q)
                  (removelast (split (buffer ++ text))) (ui w)) as H.
    destruct (process_chunk r (rq_activeChatId q)
                (removelast (split (buffer ++ text))) (ui w))
      as [[st acts] [|]]; simpl in H.
    + exact H.
    + apply Hloop. exact H.
  - unfold finish; cbn [ui]. rewrite handleStreamComplete_chats.
    apply updateActive_sameExcept.
Qed.

End Frame.

(** ** Replacement and preservation inside the active chat *)

Section Transcript.

Context {P : Payloads} {R : Runtime}.

Lemma filter_filter_keep {A : Type} (p q : A -> bool) (l : list A) :
  (forall x, p x = true -> q x = true) ->
  filter p (filter q l) = filter p l.
Proof.
  intros H. induction l as [|x l IH]; simpl; [reflexivity|].
  destruct (q x) eqn:Eq; simpl.
  - destruct (p x); rewrite IH; reflexivity.
  - destruct (p x) eqn:Ep; [|exact IH].
    apply H in Ep. congruence.
Qed.

Lemma filter_filter_none {A : Type} (p q : A -> bool) (l : list A) :
  (forall x, q x = true -> p x = false) ->
  filter p (filter q l) = [].
Proof.
  intros H. induction l as [|x l IH]; simpl; [reflexivity|].
  destruct (q x) eqn:Eq; simpl; [|exact IH].
  rewrite (H x Eq). exact IH.
Qed.

Lemma updateActive_ids (a : JSString)
  (f : list ChatMessage -> list ChatMessage) (cs : list ChatSession) :
  map cs_id (updateActive a f cs) = map cs_id cs.
Proof.
  unfold updateActive. rewrite map_map. apply map_ext.
  intros c. destruct (JS.eqb (cs_id c) a); reflexivity.
Qed.

Lemma updateActive_In (a : JSString)
  (f : list ChatMessage -> list ChatMessage) (cs : list ChatSession)
  (c' : ChatSession) :
  In c' (updateActive a f cs) -> cs_id c' = a ->
  exists c, In c cs /\ cs_id c = a /\ messages c' = f (messages c).
Proof.
  unfold updateActive. intros Hin Hid.
  apply in_map_iff in Hin as [c [Hc Hin]].
  exists c. destruct (JS.eqb (cs_id c) a) eqn:E; simpl in Hc; subst c'.
  - apply eqb_eq in E. auto.
  - apply eqb_neq in E. contradiction.
Qed.

(** What [updateActive] does, chat by chat. *)
Lemma updateActive_Forall2 (a : JSString)
  (f : list ChatMessage -> list ChatMessage) (cs : list ChatSession) :
  Forall2 (fun c c' =>
             if JS.eqb (cs_id c) a
             then cs_id c' = cs_id c /\ title c' = title c /\
                  messages c' = f (messages c)
             else c' = c)
    cs (updateActive a f cs).
Proof.
  induction cs as [|c cs IH]; simpl; constructor; [|exact IH].
  destruct (JS.eqb (cs_id c) a); simpl; auto.
Qed.

Lemma Forall2_impl {A B : Type} (Q Q' : A -> B -> Prop) (l : list A)
  (l' : list B) :
  (forall x y, Q x y -> Q' x y) -> Forall2 Q l l' -> Forall2 Q' l l'.
Proof. intros H F. induction F; constructor; auto. Qed.

Lemma handleThinking_stream (a message : JSString)
  (session_id : option JSString) (st : Model) :
  currentStreamIdRef (handleThinking a message session_id st) =
  currentStreamIdRef st.
Proof.
  unfold handleThinking, now; simpl. apply updateSessionId_stream.
Qed.

Lemma handleThinking_clock (a message : JSString)
  (session_id : option JSString) (st : Model) :
  clock (handleThinking a message session_id st) = S (clock st).
Proof.
  unfold handleThinking, now; simpl. f_equal. apply updateSessionId_clock.
Qed.

Lemma thinkingEvents_invariants (a : JSString)
  (evs : list (JSString * option JSString)) (st : Model) :
  currentStreamIdRef (thinkingEvents a evs st) = currentStreamIdRef st /\
  clock (thinkingEvents a evs st) = clock st + List.length evs /\
  map cs_id (chats (thinkingEvents a evs st)) = map cs_id (chats st).
Proof.
  revert st; induction evs as [|[m s] evs IH]; intros st; simpl.
  - rewrite Nat.add_0_r. auto.
  - destruct (IH (handleThinking a m s st)) as [H1 [H2 H3]].
    unfold thinkingEvents in *. rewrite H1, H2, H3.
    rewrite handleThinking_stream, handleThinking_clock,
      handleThinking_chats, updateActive_ids.
    repeat split; lia.
Qed.

(** After one or more consecutive [thinking] events of the stream [sid],
    the chat [a] holds one [thinking] entry of that stream, made from the
    last event. *)
Lemma thinkingEvents_last (a sid : JSString)
  (evs : list (JSString * option JSString)) (message : JSString)
  (session_id : option JSString) (st : Model) (c' : ChatSession) :
  currentStreamIdRef st = Some sid ->
  truthy sid = true ->
  In c' (chats (thinkingEvents a (evs ++ [(message, session_id)]) st)) ->
  cs_id c' = a ->
  thinkingOf sid (messages c') =
  [ {| msg_id :=
         js "thinking" ++ decimal (Date_now (clock st + List.length evs));
       body := MThinking message;
       streamId := Some sid |} ].
Proof.
  intros Hcur Hsid Hin Hid. unfold thinkingEvents in *.
  rewrite fold_left_app in Hin. cbn [fold_left fst snd] in Hin.
  destruct (thinkingEvents_invariants a evs st) as [H1 [H2 _]].
  unfold thinkingEvents in H1, H2.
  rewrite handleThinking_chats, H1, H2, Hcur in Hin.
  apply updateActive_In in Hin as [c [_ [_ Hm]]]; [|exact Hid].
  rewrite Hm. unfold thinkingOf. rewrite filter_app.
  rewrite filter_filter_none.
  - simpl. rewrite Hsid. simpl. rewrite eqb_refl. reflexivity.
  - intros x Hx. apply negb_true_iff in Hx. exact Hx.
Qed.

(** C4.  While [currentStreamIdRef] holds the identifier [sid] of the open
    request, after one or more consecutive [thinking] events the active
    chat holds exactly one [thinking] entry of that stream, the one made
    from the last event, and the chats are the same chats; each event
    filters out the [thinking] entries of the current stream and appends
    its own. *)
Theorem thinking_replaced_within_request (a sid : JSString)
  (evs : list (JSString * option JSString)) (message : JSString)
  (session_id : option JSString) (st : Model) :
  currentStreamIdRef st = Some sid ->
  truthy sid = true ->
  let st' := thinkingEvents a (evs ++ [(message, session_id)]) st in
  map cs_id (chats st') = map cs_id (chats st) /\
  (forall c', In c' (chats st') -> cs_id c' = a ->
     thinkingOf sid (messages c') =
     [ {| msg_id :=
            js "thinking" ++ decimal (Date_now (clock st + List.length evs));
          body := MThinking message;
          streamId := Some sid |} ]) /\
  (forall st0 m s,
     chats (handleThinking a m s st0) =
     updateActive a
       (fun ms =>
          filter (fun x =>
            negb (hasType bot_thinking x &&
                  sameStream (streamId x) (currentStreamIdRef st0))) ms ++
          [ {| msg_id := js "thinking" ++ decimal (Date_now (clock st0));
               body := MThinking m;
               streamId := or_undefined (currentStreamIdRef st0) |} ])
       (chats st0)).
Proof.
  intros Hcur Hsid st'.
  split; [apply thinkingEvents_invariants|].
  split; [|intros; apply handleThinking_chats].
  intros c' Hin Hid. subst st'. unfold thinkingEvents in *.
  rewrite fold_left_app in Hin. cbn [fold_left fst snd] in Hin.
  destruct (thinkingEvents_invariants a evs st) as [H1 [H2 _]].
  unfold thinkingEvents in H1, H2.
  rewrite handleThinking_chats, H1, H2, Hcur in Hin.
  apply updateActive_In in Hin as [c [_ [_ Hm]]]; [|exact Hid].
  rewrite Hm. unfold thinkingOf. rewrite filter_app.
  rewrite filter_filter_none.
  - simpl. rewrite Hsid. simpl. rewrite eqb_refl. reflexivity.
  - intros x Hx. apply negb_true_iff in Hx. exact Hx.
Qed.

Lemma keepsOtherRequests_refl (cur : option JSString)
  (ms : list ChatMessage) : keepsOtherRequests cur ms ms.
Proof.
  split; [auto|]. exists []. rewrite app_nil_r. reflexivity.
Qed.

Lemma keepsOtherRequests_filter (cur : option JSString)
  (keep : ChatMessage -> bool) (ms tail : list ChatMessage) :
  (forall m, sameStream (streamId m) cur = false -> keep m = true) ->
  keepsOtherRequests cur ms (filter keep ms ++ tail).
Proof.
  intros Hkeep. split.
  - intros m Hin Hs. apply in_or_app. left.
    apply filter_In. auto.
  - exists (filter (foreign cur) tail).
    rewrite filter_app, filter_filter_keep; [reflexivity|].
    intros x Hx. apply Hkeep. apply negb_true_iff. exact Hx.
Qed.

Lemma keepForProducts_foreign (cur : option JSString) (m : ChatMessage) :
  sameStream (streamId m) cur = false -> keepForProducts cur m = true.
Proof.
  intros H. unfold keepForProducts. rewrite H, !andb_false_r. reflexivity.
Qed.

Lemma keepForCart_foreign (cur : option JSString) (m : ChatMessage) :
  sameStream (streamId m) cur = false -> keepForCart cur m = true.
Proof.
  intros H. unfold keepForCart. rewrite H, !andb_false_r. reflexivity.
Qed.

Lemma keepForSweep_foreign (cur : option JSString) (m : ChatMessage) :
  sameStream (streamId m) cur = false -> keepForSweep cur m = true.
Proof.
  intros H. unfold keepForSweep. rewrite H, !andb_false_r. reflexivity.
Qed.

Lemma updateActive_keepsOtherRequests (a : JSString)
  (cur : option JSString) (f : list ChatMessage -> list ChatMessage)
  (cs : list ChatSession) :
  (forall ms, keepsOtherRequests cur ms (f ms)) ->
  Forall2 (fun c c' =>
             cs_id c' = cs_id c /\
             keepsOtherRequests cur (messages c) (messages c'))
    cs (updateActive a f cs).
Proof.
  intros Hf. eapply Forall2_impl; [|apply updateActive_Forall2].
  intros c c'. simpl. destruct (JS.eqb (cs_id c) a).
  - intros [H1 [_ H3]]. rewrite H3. auto.
  - intros ->. split; [reflexivity|apply keepsOtherRequests_refl].
Qed.

Lemma handleRawProducts_keeps (a : JSString) (st : Model)
  (session_id : option JSString) (products : option (list RawProduct)) :
  Forall2 (fun c c' =>
             cs_id c' = cs_id c /\
             keepsOtherRequests (currentStreamIdRef st)
               (messages c) (messages c'))
    (chats st) (chats (handleRawProducts a session_id products st)).
Proof.
  rewrite handleRawProducts_chats.
  apply updateActive_keepsOtherRequests. intros ms.
  destruct products as [[|p ps]|].
  - rewrite <- (app_nil_r (filter _ ms)).
    apply keepsOtherRequests_filter, keepForSweep_foreign.
  - apply keepsOtherRequests_filter, keepForProducts_foreign.
  - rewrite <- (app_nil_r (filter _ ms)).
    apply keepsOtherRequests_filter, keepForSweep_foreign.
Qed.

Lemma handleRawCart_keeps (a : JSString) (st : Model)
  (session_id : option JSString) (cart_items : list RawCartItem)
  (cart_summary : option RawCartSummary) :
  Forall2 (fun c c' =>
             cs_id c' = cs_id c /\
             keepsOtherRequests (currentStreamIdRef st)
               (messages c) (messages c'))
    (chats st)
    (chats (handleRawCart a session_id cart_items cart_summary st)).
Proof.
  rewrite handleRawCart_chats.
  apply updateActive_keepsOtherRequests. intros ms.
  destruct (cartOutcome cart_items cart_summary (clock st)).
  - apply keepsOtherRequests_filter, keepForCart_foreign.
  - rewrite <- (app_nil_r (filter _ ms)).
    apply keepsOtherRequests_filter, keepForSweep_foreign.
  - apply keepsOtherRequests_refl.
Qed.


(** The scenario of history preservation: once [currentStreamIdRef] holds another identifier
    than [sid1], a product list (or cart view) owned by [sid1] survives the
    arrival of a new product list and of a new cart view. *)
Lemma earlier_product_list_survives (a sid1 sid2 : JSString) (st : Model)
  (c : ChatSession) (m : ChatMessage) :
  currentStreamIdRef st = Some sid2 ->
  sid1 <> sid2 ->
  In c (chats st) -> In m (messages c) -> streamId m = Some sid1 ->
  (forall session_id products,
      exists c', In c' (chats (handleRawProducts a session_id products st)) /\
                 cs_id c' = cs_id c /\ In m (messages c')) /\
  (forall session_id cart_items cart_summary,
      exists c',
        In c' (chats (handleRawCart a session_id cart_items cart_summary st)) /\
        cs_id c' = cs_id c /\ In m (messages c')).
Proof.
  intros Hcur Hne Hc Hm Hs.
  assert (Hforeign : sameStream (streamId m) (currentStreamIdRef st) = false).
  { rewrite Hs, Hcur. simpl. apply eqb_neq. exact Hne. }
  assert (Hgen : forall cs',
             Forall2 (fun c c' =>
                        cs_id c' = cs_id c /\
                        keepsOtherRequests (currentStreamIdRef st)
                          (messages c) (messages c'))
               (chats st) cs' ->
             exists c', In c' cs' /\ cs_id c' = cs_id c /\ In m (messages c')).
  { intros cs' F. induction F as [|x y l l' [Hid [Hk _]] F IH].
    - destruct Hc.
    - destruct Hc as [->|Hc].
      + exists y. split; [left; reflexivity|]. split; [exact Hid|].
        apply Hk; assumption.
      + destruct (IH Hc) as [c' [H1 H2]]. exists c'. split; [right|]; auto. }
  split; intros; apply Hgen.
  - apply handleRawProducts_keeps.
  - apply handleRawCart_keeps.
Qed.

(** ** The sweep *)

Lemma sweep_sweptOf (cur : option JSString) (ms : list ChatMessage) :
  sweptOf cur ms (filter (keepForSweep cur) ms).
Proof.
  split; [|split].
  - apply filter_filter_none. intros x Hx.
    apply negb_true_iff in Hx. exact Hx.
  - apply filter_filter_keep. intros x Hx.
    unfold keepForSweep, ownedTransient, isTemporary, isThinkingOrTool in *.
    destruct (sameStream (streamId x) cur);
      [|rewrite andb_false_r; reflexivity].
    rewrite andb_true_r in *. apply negb_true_iff in Hx.
    apply negb_true_iff. apply orb_false_iff in Hx as [Hx _]. exact Hx.
  - intros x Hx. apply filter_In in Hx. tauto.
Qed.

(** What [onComplete] does to the chats. *)
Lemma handleStreamComplete_sweeps (a : JSString) (st : Model) :
  Forall2 (fun c c' =>
             if JS.eqb (cs_id c) a
             then cs_id c' = cs_id c /\
                  sweptOf (currentStreamIdRef st) (messages c) (messages c')
             else c' = c)
    (chats st) (chats (handleStreamComplete a st)).
Proof.
  rewrite handleStreamComplete_chats.
  eapply Forall2_impl; [|apply updateActive_Forall2].
  intros c c'. simpl. destruct (JS.eqb (cs_id c) a); [|auto].
  intros [H1 [_ H3]]. rewrite H3. split; [exact H1|apply sweep_sweptOf].
Qed.

(** What [onError] does to the chats. *)
Lemma handleStreamError_sweeps (a : JSString) (chats0 : list ChatSession)
  (st : Model) :
  Forall2 (fun c c' =>
             if JS.eqb (cs_id c) a
             then cs_id c' = cs_id c /\
                  exists kept,
                    messages c' =
                    kept ++
                    (if hadEntries a chats0
                     then [networkErrorMessage (Date_now (clock st))]
                     else []) /\
                    sweptOf (currentStreamIdRef st) (messages c) kept
             else c' = c)
    (chats st) (chats (handleStreamError a chats0 st)).
Proof.
  rewrite handleStreamError_chats.
  eapply Forall2_impl; [|apply updateActive_Forall2].
  intros c c'. simpl. destruct (JS.eqb (cs_id c) a); [|auto].
  intros [H1 [_ H3]]. rewrite H3. split; [exact H1|].
  eexists. split; [reflexivity|apply sweep_sweptOf].
Qed.

Lemma nth_error_update {A : Type} (f : A -> A) (l : list A) (i j : nat) :
  nth_error (update i f l) j =
  if Nat.eqb i j then option_map f (nth_error l j) else nth_error l j.
Proof.
  revert i j; induction l as [|x l IH]; intros i j.
  - destruct i, j; simpl; try reflexivity.
    destruct (Nat.eqb i j); reflexivity.
  - destruct i, j; simpl; try reflexivity. apply IH.
Qed.

Lemma update_length {A : Type} (f : A -> A) (l : list A) (i : nat) :
  List.length (update i f l) = List.length l.
Proof.
  revert i; induction l as [|x l IH]; intros [|i]; simpl; auto.
Qed.

(** A call whose signal is aborted resumes into its [catch] and [finally]
    blocks and nothing else: no callback, no change of the controller's
    state. *)
Lemma settle_aborted (r : nat) (s : Settlement) (w : World) (q : Request) :
  nth_error (requests w) r = Some q ->
  aborted q = true ->
  settle r s w =
  match phase q with
  | Returned => w
  | _ => finish r (ui w) [] w
  end.
Proof.
  intros Hq Hab. unfold settle. rewrite Hq, Hab.
  destruct (phase q); reflexivity.
Qed.

Lemma settle_aborted_ui (r : nat) (s : Settlement) (w : World)
  (q : Request) :
  nth_error (requests w) r = Some q ->
  aborted q = true ->
  ui (settle r s w) = ui w /\ log (settle r s w) = log w.
Proof.
  intros Hq Hab. rewrite (settle_aborted r s w Hq Hab).
  destruct (phase q); simpl; rewrite ?app_nil_r; auto.
Qed.

(** C3, as the code has it.  When a call ends normally or with an error,
    [onComplete] and [onError] sweep the active chat: no [thinking] or
    [tool executing] entry of the stream in [currentStreamIdRef] is left,
    every entry that is not a transient entry of that stream is kept in
    place, and [onError] may append its one error entry.  When the call
    was cancelled (the signal of call [r] is aborted), resuming it changes
    nothing in the controller's state and calls nothing. *)
Theorem sweep_on_completion (w : World) (r : nat) (q : Request)
  (s : Settlement) :
  nth_error (requests w) r = Some q ->
  aborted q = true ->
  (forall a st,
      Forall2 (fun c c' =>
                 if JS.eqb (cs_id c) a
                 then cs_id c' = cs_id c /\
                      sweptOf (currentStreamIdRef st)
                        (messages c) (messages c')
                 else c' = c)
        (chats st) (chats (handleStreamComplete a st))) /\
  (forall a chats0 st,
      Forall2 (fun c c' =>
                 if JS.eqb (cs_id c) a
                 then cs_id c' = cs_id c /\
                      exists kept,
                        messages c' =
                        kept ++
                        (if hadEntries a chats0
                         then [networkErrorMessage (Date_now (clock st))]
                         else []) /\
                        sweptOf (currentStreamIdRef st) (messages c) kept
                 else c' = c)
        (chats st) (chats (handleStreamError a chats0 st))) /\
  ui (settle r s w) = ui w /\
  log (settle r s w) = log w.
Proof.
  intros Hq Hab.
  split; [intros; apply handleStreamComplete_sweeps|].
  split; [intros; apply handleStreamError_sweeps|].
  apply settle_aborted_ui with q; assumption.
Qed.

(** ** The payment entry of a final response *)

Lemma spanDigits_spec (s : JSString) :
  s = fst (spanDigits s) ++ snd (spanDigits s) /\
  forallb isDigit (fst (spanDigits s)) = true /\
  followedByDigit (snd (spanDigits s)) = false.
Proof.
  induction s as [|c s [IH1 [IH2 IH3]]]; simpl; [auto|].
  destruct (isDigit c) eqn:E; simpl; [|auto].
  destruct (spanDigits s) as [d r0]; simpl in *.
  rewrite E. split; [congruence|auto].
Qed.

Lemma spanDigits_app (d r0 : JSString) :
  forallb isDigit d = true -> followedByDigit r0 = false ->
  spanDigits (d ++ r0) = (d, r0).
Proof.
  intros Hd Hr. induction d as [|c d IH]; cbn [app spanDigits forallb] in *.
  - destruct r0 as [|c r0]; [reflexivity|].
    cbn [followedByDigit spanDigits] in *. rewrite Hr. reflexivity.
  - apply andb_true_iff in Hd as [Hc Hd]. rewrite Hc, (IH Hd). reflexivity.
Qed.

(** The match of the pattern at the head of a text, with the test on the
    dot written out. *)
Lemma amountMatchAt_eq (s : JSString) :
  amountMatchAt s =
  match s with
  | c :: s1 =>
      if N.eqb c rupee then
        match fst (spanDigits s1) with
        | [] => None
        | _ :: _ =>
            if followedByDot (snd (spanDigits s1))
            then Some (fst (spanDigits s1) ++
                       46%N :: fst (spanDigits (tl (snd (spanDigits s1)))))
            else Some (fst (spanDigits s1))
        end
      else None
  | [] => None
  end.
Proof.
  destruct s as [|c s1]; [reflexivity|]. unfold amountMatchAt.
  destruct (N.eqb c rupee); [|reflexivity].
  destruct (spanDigits s1) as [d1 r1]. cbn [fst snd].
  destruct d1 as [|d d1]; [reflexivity|].
  destruct r1 as [|c1 s2]; [reflexivity|].
  destruct c1 as [|p]; [reflexivity|].
  do 6 (destruct p as [p|p|]; try reflexivity).
Qed.

Lemma amountMatchAt_capture (s g : JSString) :
  amountMatchAt s = Some g ->
  exists ip fp rest,
    s = rupee :: g ++ rest /\
    ip <> [] /\
    forallb isDigit ip = true /\
    forallb isDigit fp = true /\
    followedByDigit rest = false /\
    (g = ip ++ 46%N :: fp \/
     (g = ip /\ fp = [] /\ followedByDot rest = false)).
Proof.
  rewrite amountMatchAt_eq. destruct s as [|c s1]; [discriminate|].
  destruct (N.eqb c rupee) eqn:Ec; [|discriminate].
  apply N.eqb_eq in Ec. subst c.
  destruct (spanDigits_spec s1) as [Hs [Hd Hr]].
  destruct (spanDigits s1) as [d1 r1]. cbn [fst snd] in *.
  destruct d1 as [|d d1]; [discriminate|].
  destruct (followedByDot r1) eqn:Edot.
  - intros H; injection H as <-.
    destruct r1 as [|c1 s2]; [discriminate|]. cbn in Edot.
    apply N.eqb_eq in Edot. subst c1. cbn [tl].
    destruct (spanDigits_spec s2) as [Hs2 [Hd2 Hr2]].
    exists (d :: d1), (fst (spanDigits s2)), (snd (spanDigits s2)).
    split.
    { rewrite Hs. rewrite Hs2 at 1. simpl. rewrite <- ?app_assoc.
      reflexivity. }
    split; [discriminate|]. auto.
  - intros H; injection H as <-.
    exists (d :: d1), [], r1.
    split; [rewrite Hs; reflexivity|].
    split; [discriminate|]. auto 10.
Qed.

Lemma amountMatchAt_none (s : JSString) :
  amountMatchAt s = None ->
  forall d post, s = rupee :: d :: post -> isDigit d = false.
Proof.
  rewrite amountMatchAt_eq. intros H d post ->.
  rewrite N.eqb_refl in H. cbn [spanDigits] in H.
  destruct (isDigit d); [|reflexivity].
  destruct (spanDigits post) as [d1 r1]. cbn [fst snd] in H.
  destruct (followedByDot r1); discriminate.
Qed.

(** The capture of the code is the capture of the pattern. *)
Lemma amountMatch_some (s g : JSString) :
  amountMatch s = Some g -> amountCapture s g.
Proof.
  induction s as [|c s IH].
  - simpl. discriminate.
  - cbn [amountMatch]. destruct (amountMatchAt (c :: s)) as [g0|] eqn:E.
    + intros H; injection H as ->. clear IH.
      destruct (amountMatchAt_capture _ E)
        as [ip [fp [rest [Hs [H1 [H2 [H3 [H4 H5]]]]]]]].
      exists [], ip, fp, rest. rewrite Hs. split; [reflexivity|].
      split; [intros p1 d p2 Hp; destruct p1; discriminate|]. auto.
    + intros H.
      destruct (IH H) as [pre [ip [fp [rest [Hs [Hl Hrest]]]]]].
      exists (c :: pre), ip, fp, rest. split; [simpl; congruence|].
      split; [|exact Hrest].
      intros p1 d p2 Hp. destruct p1 as [|x p1].
      * simpl in Hp. injection Hp as -> Hp.
        apply (@amountMatchAt_none _ E d (p2 ++ rupee :: g ++ rest)).
        rewrite Hs, Hp. reflexivity.
      * simpl in Hp. injection Hp as _ Hp. exact (Hl p1 d p2 Hp).
Qed.

(** No capture: no rupee sign of the text is followed by a digit. *)
Lemma amountMatch_none (s : JSString) :
  amountMatch s = None -> noAmount s.
Proof.
  unfold noAmount.
  induction s as [|c s IH]; intros H pre d post Hs.
  - destruct pre; discriminate.
  - cbn [amountMatch] in H.
    destruct (amountMatchAt (c :: s)) as [g0|] eqn:E; [discriminate|].
    destruct pre as [|x pre].
    + simpl in Hs. apply (@amountMatchAt_none _ E d post). exact Hs.
    + simpl in Hs. injection Hs as -> ->.
      eapply IH; [exact H|reflexivity].
Qed.

(** The capture of the pattern is the capture of the code: there is one
    capture at most. *)
Lemma amountMatch_complete (s g : JSString) :
  amountCapture s g -> amountMatch s = Some g.
Proof.
  intros [pre [ip [fp [rest [Hs [Hl [Hip [Hd [Hf [Hr Hg]]]]]]]]]].
  subst s. induction pre as [|c pre IH].
  - cbn [app amountMatch]. rewrite amountMatchAt_eq, N.eqb_refl.
    destruct Hg as [->|[-> [-> Hdot]]].
    + rewrite <- app_assoc. cbn [app].
      rewrite (@spanDigits_app ip (46%N :: fp ++ rest) Hd eq_refl).
      cbn [fst snd followedByDot tl]. rewrite N.eqb_refl.
      rewrite (spanDigits_app fp rest Hf Hr). cbn [fst].
      destruct ip as [|d ip]; [congruence|reflexivity].
    + rewrite (spanDigits_app ip rest Hd Hr). cbn [fst snd].
      rewrite Hdot. destruct ip as [|d ip]; [congruence|reflexivity].
  - cbn [app amountMatch].
    assert (E : amountMatchAt (c :: pre ++ rupee :: g ++ rest) = None).
    { rewrite amountMatchAt_eq.
      destruct (N.eqb c rupee) eqn:Ec; [|reflexivity].
      apply N.eqb_eq in Ec. subst c.
      destruct pre as [|d pre]; [reflexivity|].
      cbn [app spanDigits].
      rewrite (Hl [] d pre eq_refl). reflexivity. }
    rewrite E. apply IH.
    intros p1 d p2 Hp. apply (Hl (c :: p1) d p2). rewrite Hp. reflexivity.
Qed.

Lemma paymentUpdate_Forall2 (a : JSString) (cur : option JSString)
  (content : JSString) (pm : ChatMessage) (cs : list ChatSession)
  (clk : nat) :
  Forall2 (fun c c' =>
             if JS.eqb (cs_id c) a
             then cs_id c' = cs_id c /\
                  exists t,
                    messages c' =
                    filter (keepForSweep cur) (messages c) ++
                    [ {| msg_id := js "response_" ++ decimal t;
                         body := MBot content; streamId := None |};
                      pm ]
             else c' = c)
    cs (fst (paymentUpdate a cur content pm cs clk)).
Proof.
  revert clk; induction cs as [|c cs IH]; intros clk; simpl;
    [constructor|].
  destruct (JS.eqb (cs_id c) a) eqn:E; simpl.
  - specialize (IH (S clk)).
    destruct (paymentUpdate a cur content pm cs (S clk)); simpl in *.
    constructor; [|exact IH]. rewrite E. split; [reflexivity|].
    eexists. reflexivity.
  - specialize (IH clk).
    destruct (paymentUpdate a cur content pm cs clk); simpl in *.
    constructor; [|exact IH]. rewrite E. reflexivity.
Qed.

Lemma amountCapture_not_noAmount (s g : JSString) :
  amountCapture s g -> noAmount s -> False.
Proof.
  intros [pre [ip [fp [rest [Hs [_ [Hip [Hd [_ [_ Hg]]]]]]]]]] Hn.
  destruct ip as [|d ip]; [congruence|].
  cbn [forallb] in Hd. apply andb_true_iff in Hd as [Hd _].
  assert (E : exists post, s = pre ++ rupee :: d :: post).
  { destruct Hg as [->|[-> _]]; subst s; eexists; simpl; reflexivity. }
  destruct E as [post E]. rewrite (Hn pre d post E) in Hd. discriminate.
Qed.

(** C9, as the code has it.  A final response whose text contains the
    payment phrase and neither of the two session phrases sweeps the active
    chat ([thinking] and [tool executing] entries of the current stream go,
    entries that are not transient entries of it stay) and appends exactly
    two entries: the text, then a payment entry in rupees.  The amount of
    that entry is [parseFloat] of what follows the leftmost rupee sign
    that is followed by a digit, as far as the pattern goes (digits, a dot
    if there is one, the digits after it); it is zero when no rupee sign
    is followed by a digit; and one of the two is the case. *)
Theorem payment_entry_from_response (a : JSString)
  (response : ResponseEvent) (st : Model) :
  includes (re_content response) (js "Your order has been initialized") =
  true ->
  includes (re_content response) (js "initialized a new shopping session") =
  false ->
  includes (re_content response) (js "Session Ready") = false ->
  let content := re_content response in
  exists amount,
    (forall g, amountCapture content g -> amount = parseFloat g) /\
    (noAmount content -> amount = zero) /\
    ((exists g, amountCapture content g) \/ noAmount content) /\
    let paymentMessage :=
      {| msg_id := js "payment_" ++ decimal (Date_now (S (clock st)));
         body :=
           MPaymentInitiated (js "order_" ++ decimal (Date_now (clock st)))
             amount (js "INR");
         streamId := None |} in
    Forall2 (fun c c' =>
               if JS.eqb (cs_id c) a
               then cs_id c' = cs_id c /\
                    exists kept t,
                      messages c' =
                      kept ++
                      [ {| msg_id := js "response_" ++ decimal t;
                           body := MBot content; streamId := None |};
                        paymentMessage ] /\
                      sweptOf (currentStreamIdRef st) (messages c) kept
               else c' = c)
      (chats st) (chats (handleResponse a response st)).
Proof.
  intros Hpay Hs1 Hs2 content. fold content in Hpay, Hs1, Hs2.
  exists (match amountMatch content with
          | Some g => parseFloat g
          | None => zero
          end).
  split; [|split; [|split]].
  - intros g Hc. rewrite (amountMatch_complete Hc). reflexivity.
  - intros Hn. destruct (amountMatch content) as [g|] eqn:E; [|reflexivity].
    destruct (amountCapture_not_noAmount (amountMatch_some _ E) Hn).
  - destruct (amountMatch content) as [g|] eqn:E.
    + left. exists g. apply amountMatch_some. exact E.
    + right. apply amountMatch_none. exact E.
  - cbv zeta.
    unfold handleResponse. fold content. rewrite Hs1, Hs2, Hpay.
    cbn [orb]. unfold now.
    cbn [fst snd clock currentStreamIdRef chats renderClock].
    rewrite updateSessionId_clock, updateSessionId_stream,
      updateSessionId_chats.
    match goal with
    | |- context [paymentUpdate ?x ?c ?t ?m ?cs ?k] =>
        pose proof (paymentUpdate_Forall2 x c t m cs k) as H;
        destruct (paymentUpdate x c t m cs k) as [cs' clk]
    end.
    cbn [fst chats] in *.
    eapply Forall2_impl; [|exact H].
    intros c c'. simpl. destruct (JS.eqb (cs_id c) a); [|auto].
    intros [H1 [t Ht]]. split; [exact H1|].
    exists (filter (keepForSweep (currentStreamIdRef st)) (messages c)), t.
    split; [exact Ht|apply sweep_sweptOf].
Qed.

End Transcript.

(** ** Lines, records and the end of a stream *)

Section Stream.

Context {P : Payloads} {R : Runtime}.

Lemma countComplete_app (r : nat) (l l' : list Action) :
  countComplete r (l ++ l') = countComplete r l + countComplete r l'.
Proof. unfold countComplete. rewrite filter_app, length_app. reflexivity. Qed.

Lemma doneMarker_not_skipped (t : JSString) :
  isDoneMarker t = true ->
  negb (truthy t) || startsWith t (js ":") = false.
Proof.
  unfold isDoneMarker. intros H. apply orb_true_iff in H as [H|H];
    apply eqb_eq in H; subst t; reflexivity.
Qed.

Lemma data_not_skipped (t : JSString) :
  startsWith t (js "data:") = true ->
  negb (truthy t) || startsWith t (js ":") = false.
Proof.
  destruct t as [|c t]; [discriminate|].
  intros H. change (js "data:") with (100%N :: js "ata:") in H.
  cbn [startsWith] in H. apply andb_true_iff in H as [H _].
  apply N.eqb_eq in H. subst c. reflexivity.
Qed.

Lemma process_lines_app (r : nat) (a : JSString) (pre post : list JSString)
  (st : Model) :
  process_lines r a (pre ++ post) st =
  let '(st1, acts1, returned) := process_lines r a pre st in
  if returned then (st1, acts1, true)
  else
    let '(st2, acts2, returned) := process_lines r a post st1 in
    (st2, acts1 ++ acts2, returned).
Proof.
  revert st; induction pre as [|line pre IH]; intros st; simpl.
  - destruct (process_lines r a post st) as [[st2 acts2] ret]. reflexivity.
  - destruct (process_line r a line st) as [[st1 acts1] [|]]; [reflexivity|].
    rewrite IH.
    destruct (process_lines r a pre st1) as [[st2 acts2] [|]];
      [reflexivity|].
    destruct (process_lines r a post st2) as [[st3 acts3] ret].
    rewrite app_assoc. reflexivity.
Qed.

(** A record that fails to parse: the parser was called, a warning was
    logged, nothing else happened. *)
Lemma process_line_malformed (r : nat) (a line : JSString) (st : Model) :
  startsWith (trim line) (js "data:") = true ->
  isDoneMarker (trim line) = false ->
  JSON_parse (trim (substring 5 (trim line))) = None ->
  process_line r a line st =
  (st,
   [Parse r (trim (substring 5 (trim line)));
    Warn r (trim (substring 5 (trim line)))],
   false).
Proof.
  intros Hdata Hdone Hparse. unfold process_line.
  rewrite (data_not_skipped _ Hdata), Hdone, Hdata, Hparse. reflexivity.
Qed.

(** A [thinking] record calls the parser and [onThinking], and nothing
    else. *)
Lemma process_line_thinking (r : nat) (a line m : JSString)
  (s : option JSString) (st : Model) :
  thinkingFrame line m s ->
  process_line r a line st =
  (handleThinking a m s st, [Parse r (payloadOf line); OnThinking r], false).
Proof.
  intros [Hdata [Hdone Hparse]]. unfold process_line, payloadOf.
  rewrite (data_not_skipped _ Hdata), Hdone, Hdata, Hparse. reflexivity.
Qed.

(** C6.  A [data:] record whose payload [JSON.parse] rejects is skipped:
    the line calls the parser, logs a warning, changes no state and calls
    no callback ([onError] included), and the loop goes on with the line
    after it, which is processed from the same state.  The lines around it
    are processed as if it were not there.  Between two [thinking] records
    of the open request, the callbacks called are the two calls of
    [onThinking] and the active chat ends with one [thinking] entry of the
    request, the one of the second record. *)
Theorem malformed_frame_is_skipped (r : nat) (a line : JSString)
  (pre post : list JSString) (st : Model) :
  startsWith (trim line) (js "data:") = true ->
  isDoneMarker (trim line) = false ->
  JSON_parse (trim (substring 5 (trim line))) = None ->
  process_line r a line st =
  (st,
   [Parse r (trim (substring 5 (trim line)));
    Warn r (trim (substring 5 (trim line)))],
   false) /\
  process_lines r a (line :: post) st =
  (fst (fst (process_lines r a post st)),
   [Parse r (trim (substring 5 (trim line)));
    Warn r (trim (substring 5 (trim line)))] ++
   snd (fst (process_lines r a post st)),
   snd (process_lines r a post st)) /\
  (let with_it := process_lines r a (pre ++ line :: post) st in
   let without := process_lines r a (pre ++ post) st in
   fst (fst with_it) = fst (fst without) /\
   snd with_it = snd without /\
   filter isCallback (snd (fst with_it)) =
   filter isCallback (snd (fst without))) /\
  (forall (line1 line2 m1 m2 sid : JSString) (s1 s2 : option JSString),
     thinkingFrame line1 m1 s1 ->
     thinkingFrame line2 m2 s2 ->
     currentStreamIdRef st = Some sid ->
     truthy sid = true ->
     let result := process_lines r a [line1; line; line2] st in
     snd result = false /\
     snd (fst result) =
     [Parse r (payloadOf line1); OnThinking r;
      Parse r (payloadOf line); Warn r (payloadOf line);
      Parse r (payloadOf line2); OnThinking r] /\
     map cs_id (chats (fst (fst result))) = map cs_id (chats st) /\
     (forall c', In c' (chats (fst (fst result))) -> cs_id c' = a ->
        thinkingOf sid (messages c') =
        [ {| msg_id := js "thinking" ++ decimal (Date_now (S (clock st)));
             body := MThinking m2;
             streamId := Some sid |} ]) /\
     sameExcept a (chats st) (chats (fst (fst result)))).
Proof.
  intros Hdata Hdone Hparse.
  split; [apply process_line_malformed; assumption|].
  split.
  { cbn [process_lines].
    rewrite (process_line_malformed r a line st Hdata Hdone Hparse).
    destruct (process_lines r a post st) as [[st2 acts2] ret]. reflexivity. }
  split.
  { cbv zeta. rewrite !process_lines_app.
    destruct (process_lines r a pre st) as [[st1 acts1] [|]]; [auto|].
    cbn [process_lines].
    rewrite (process_line_malformed r a line st1 Hdata Hdone Hparse).
    destruct (process_lines r a post st1) as [[st2 acts2] ret].
    cbn [fst snd]. repeat split.
    rewrite !filter_app. reflexivity. }
  intros line1 line2 m1 m2 sid s1 s2 F1 F2 Hcur Hsid result.
  assert (E : result =
              (thinkingEvents a ([(m1, s1)] ++ [(m2, s2)]) st,
               [Parse r (payloadOf line1); OnThinking r;
                Parse r (payloadOf line); Warn r (payloadOf line);
                Parse r (payloadOf line2); OnThinking r],
               false)).
  { subst result. cbn [process_lines].
    rewrite (process_line_thinking r a st F1).
    rewrite (process_line_malformed r a line _ Hdata Hdone Hparse).
    rewrite (process_line_thinking r a _ F2). reflexivity. }
  split; [rewrite E; reflexivity|]. split; [rewrite E; reflexivity|].
  split; [rewrite E; apply thinkingEvents_invariants|].
  split; [|apply process_lines_sameExcept].
  rewrite E. cbn [fst snd]. intros c' Hin Hid.
  rewrite (@thinkingEvents_last _ _ a sid [(m1, s1)] m2 s2 st c' Hcur Hsid Hin Hid).
  cbn [List.length]. rewrite Nat.add_1_r. reflexivity.
Qed.

(** A record of a kind the hook does not know, a [done] event for
    instance, is parsed and dropped: no callback, no end of the stream. *)
Lemma unknown_kind_is_ignored (r : nat) (a line : JSString) (st : Model)
  (type : option JSString) :
  startsWith (trim line) (js "data:") = true ->
  isDoneMarker (trim line) = false ->
  JSON_parse (trim (substring 5 (trim line))) = Some (SR_other type) ->
  process_line r a line st =
  (st, [Parse r (trim (substring 5 (trim line)))], false).
Proof.
  intros Hdata Hdone Hparse. unfold process_line.
  rewrite (data_not_skipped _ Hdata), Hdone, Hdata, Hparse. reflexivity.
Qed.

(** The line [data:[DONE]], with no space, is a record like any other:
    its payload goes to the parser and the line does not end the stream,
    whatever the parser answers. *)
Lemma done_without_space_reaches_parser (r : nat) (a : JSString)
  (st : Model) :
  process_line r a (js "data:[DONE]") st =
  match JSON_parse (js "[DONE]") with
  | Some data =>
      let (st', acts) := dispatch r a data st in
      (st',
       Parse r (js "[DONE]") :: acts ++
       (if callbackThrows data st then [Warn r (js "[DONE]")] else []),
       false)
  | None => (st, [Parse r (js "[DONE]"); Warn r (js "[DONE]")], false)
  end.
Proof. reflexivity. Qed.

Lemma process_lines_marker (r : nat) (a line : JSString)
  (rest : list JSString) (st : Model) :
  isDoneMarker (trim line) = true ->
  process_lines r a (line :: rest) st =
  (handleStreamComplete a st, [OnComplete r], true).
Proof.
  intros H. cbn [process_lines]. unfold process_line.
  rewrite (doneMarker_not_skipped _ H), H. reflexivity.
Qed.

Lemma dispatch_actions (r : nat) (a : JSString) (data : StreamingResponse)
  (st : Model) :
  Forall (fun act => requestOf act = r /\ isOnComplete r act = false)
    (snd (dispatch r a data st)).
Proof. destruct data; simpl; repeat constructor. Qed.

(** One line returns exactly when it is the marker, and calls [onComplete]
    exactly then; all it does is done in the name of call [r]. *)
Lemma process_line_facts (r : nat) (a line : JSString) (st : Model) :
  snd (process_line r a line st) = isDoneMarker (trim line) /\
  countComplete r (snd (fst (process_line r a line st))) =
  (if isDoneMarker (trim line) then 1 else 0) /\
  Forall (fun act => requestOf act = r) (snd (fst (process_line r a line st))).
Proof.
  unfold process_line.
  destruct (isDoneMarker (trim line)) eqn:Hm.
  { rewrite (doneMarker_not_skipped _ Hm). simpl.
    unfold countComplete. simpl. rewrite Nat.eqb_refl. auto. }
  destruct (negb (truthy (trim line)) || startsWith (trim line) (js ":"));
    [simpl; auto|].
  destruct (startsWith (trim line) (js "data:")); [|simpl; auto].
  destruct (JSON_parse (trim (substring 5 (trim line)))) as [data|].
  - pose proof (dispatch_actions r a data st) as H.
    destruct (dispatch r a data st) as [st' acts]. cbn [fst snd] in *.
    assert (H' : Forall
                   (fun act => requestOf act = r /\ isOnComplete r act = false)
                   (acts ++
                    (if callbackThrows data st
                     then [Warn r (trim (substring 5 (trim line)))]
                     else []))).
    { apply Forall_app. split; [exact H|].
      destruct (callbackThrows data st); repeat constructor. }
    split; [reflexivity|]. split.
    + unfold countComplete. cbn [filter isOnComplete].
      induction H' as [|act l [_ Hc] _ IH]; [reflexivity|].
      cbn [filter]. rewrite Hc. exact IH.
    + constructor; [reflexivity|].
      eapply Forall_impl; [|exact H']. intros act [Hr _]. exact Hr.
  - simpl. repeat constructor.
Qed.

Lemma process_lines_facts (r : nat) (a : JSString) (lines : list JSString)
  (st : Model) :
  snd (process_lines r a lines st) = hasDoneMarker lines /\
  countComplete r (snd (fst (process_lines r a lines st))) =
  (if hasDoneMarker lines then 1 else 0) /\
  Forall (fun act => requestOf act = r)
    (snd (fst (process_lines r a lines st))).
Proof.
  revert st; induction lines as [|line rest IH]; intros st.
  - simpl. auto.
  - cbn [process_lines hasDoneMarker existsb].
    destruct (process_line_facts r a line st) as [H1 [H2 H3]].
    destruct (process_line r a line st) as [[st1 acts1] ret1].
    cbn [fst snd] in *. rewrite <- H1 in *.
    destruct ret1; cbn [orb fst snd]; [auto|].
    destruct (IH st1) as [H4 [H5 H6]].
    destruct (process_lines r a rest st1) as [[st2 acts2] ret2].
    cbn [fst snd] in *. fold (hasDoneMarker rest).
    split; [exact H4|]. split.
    + rewrite countComplete_app, H2, H5. reflexivity.
    + apply Forall_app. auto.
Qed.

Lemma process_chunk_facts (r : nat) (a : JSString) (lines : list JSString)
  (st : Model) :
  snd (process_chunk r a lines st) = hasDoneMarker lines /\
  countComplete r (snd (fst (process_chunk r a lines st))) =
  (if hasDoneMarker lines then 1 else 0) /\
  Forall (fun act => requestOf act = r)
    (snd (fst (process_chunk r a lines st))).
Proof.
  rewrite process_chunk_eq. cbv zeta. cbn [fst snd].
  apply process_lines_facts.
Qed.

Lemma phaseOf_finish (r : nat) (st : Model) (acts : list Action) (w : World)
  (q : Request) :
  nth_error (requests w) r = Some q ->
  phaseOf r (finish r st acts w) = Some Returned.
Proof.
  intros Hq. unfold phaseOf, finish. cbn [requests].
  rewrite nth_error_update, Nat.eqb_refl, Hq. reflexivity.
Qed.

Lemma process_lines_until_marker (r : nat) (a line : JSString)
  (pre rest : list JSString) (st : Model) :
  isDoneMarker (trim line) = true ->
  hasDoneMarker pre = false ->
  process_lines r a (pre ++ line :: rest) st =
  (handleStreamComplete a (fst (fst (process_lines r a pre st))),
   snd (fst (process_lines r a pre st)) ++ [OnComplete r],
   true).
Proof.
  intros Hm Hpre. rewrite process_lines_app.
  destruct (process_lines_facts r a pre st) as [Hret _].
  rewrite Hpre in Hret.
  destruct (process_lines r a pre st) as [[st1 acts1] ret].
  cbn [fst snd] in *. subst ret.
  rewrite (process_lines_marker r a line rest st1 Hm). reflexivity.
Qed.

(** A chunk with a marker line is processed as the lines before the
    marker are, followed by [onComplete]. *)
Lemma process_chunk_until_marker (r : nat) (a line : JSString)
  (pre rest : list JSString) (st : Model) :
  isDoneMarker (trim line) = true ->
  hasDoneMarker pre = false ->
  process_chunk r a (pre ++ line :: rest) st =
  (handleStreamComplete a (fst (fst (process_chunk r a pre st))),
   snd (fst (process_chunk r a pre st)) ++ [OnComplete r],
   true).
Proof.
  intros Hm Hpre. rewrite !process_chunk_eq. cbv zeta.
  rewrite !(process_lines_until_marker r a line pre rest _ Hm Hpre).
  cbn [fst snd]. reflexivity.
Qed.

(** C8, as the code has it.  A line that, once trimmed, is [[DONE]] or
    [data: [DONE]] ends the stream at once, wherever it stands among the
    lines of a read with no such line before it: the lines before it are
    processed, then [onComplete] is called, the parser is not called for
    the line, the lines after it are not looked at, and the call leaves
    the read loop for good. *)
Theorem done_marker_ends_stream (r : nat) (a line : JSString)
  (pre rest : list JSString) (st : Model) (w : World) (q : Request)
  (buffer text : JSString) :
  isDoneMarker (trim line) = true ->
  hasDoneMarker pre = false ->
  nth_error (requests w) r = Some q ->
  phase q = AwaitRead buffer ->
  aborted q = false ->
  completeLines (buffer ++ text) = pre ++ line :: rest ->
  process_line r a line st =
  (handleStreamComplete a st, [OnComplete r], true) /\
  process_lines r a (pre ++ line :: rest) st =
  (handleStreamComplete a (fst (fst (process_lines r a pre st))),
   snd (fst (process_lines r a pre st)) ++ [OnComplete r],
   true) /\
  settle r (ReadChunk text) w =
  finish r
    (handleStreamComplete (rq_activeChatId q)
       (fst (fst (process_chunk r (rq_activeChatId q) pre (ui w)))))
    (snd (fst (process_chunk r (rq_activeChatId q) pre (ui w))) ++
     [OnComplete r])
    w /\
  phaseOf r (settle r (ReadChunk text) w) = Some Returned /\
  countComplete r (log (settle r (ReadChunk text) w)) =
  S (countComplete r (log w)).
Proof.
  intros Hm Hpre Hq Hp Hab Hl.
  assert (Hs : settle r (ReadChunk text) w =
               finish r
                 (handleStreamComplete (rq_activeChatId q)
                    (fst (fst (process_chunk r (rq_activeChatId q) pre
                                 (ui w)))))
                 (snd (fst (process_chunk r (rq_activeChatId q) pre (ui w)))
                  ++ [OnComplete r])
                 w).
  { unfold settle. rewrite Hq, Hab, Hp.
    fold (completeLines (buffer ++ text)). rewrite Hl.
    rewrite (process_chunk_until_marker r (rq_activeChatId q) line pre rest
               (ui w) Hm Hpre).
    reflexivity. }
  split.
  { pose proof (process_lines_marker r a line [] st Hm) as H.
    cbn [process_lines] in H.
    destruct (process_line r a line st) as [[st1 acts1] [|]].
    - exact H.
    - destruct st1; discriminate H. }
  split; [apply process_lines_until_marker; assumption|].
  split; [exact Hs|].
  rewrite Hs. split; [eapply phaseOf_finish; exact Hq|].
  unfold finish. cbn [log].
  rewrite !countComplete_app.
  destruct (process_chunk_facts r (rq_activeChatId q) pre (ui w))
    as [_ [Hc _]].
  rewrite Hc, Hpre. unfold countComplete. cbn [filter isOnComplete].
  rewrite Nat.eqb_refl. cbn [List.length]. lia.
Qed.

(** A call that has returned does nothing more, whatever is delivered to
    it. *)
Lemma settle_returned (r : nat) (s : Settlement) (w : World) :
  phaseOf r w = Some Returned -> settle r s w = w.
Proof.
  unfold phaseOf, settle. destruct (nth_error (requests w) r) as [q|];
    [|discriminate].
  simpl. intros H; injection H as ->. reflexivity.
Qed.

Lemma readChunks_returned (r : nat) (chunks : list JSString) (w : World) :
  phaseOf r w = Some Returned -> readChunks r chunks w = w.
Proof.
  intros H. unfold readChunks, run.
  induction chunks as [|c cs IH]; simpl; [reflexivity|].
  rewrite settle_returned by exact H. exact IH.
Qed.

(** One read of a call that is in its loop, when the chunk completes no
    marker line: the lines are processed and the call waits for the next
    read, with the partial line in its buffer. *)
Lemma settle_chunk (r : nat) (w : World) (q : Request)
  (buffer text : JSString) :
  nth_error (requests w) r = Some q ->
  phase q = AwaitRead buffer ->
  aborted q = false ->
  settle r (ReadChunk text) w =
  let '(st, acts, returned) :=
    process_chunk r (rq_activeChatId q) (completeLines (buffer ++ text))
      (ui w) in
  if returned then finish r st acts w
  else loop r (partialLine (buffer ++ text)) st acts w.
Proof.
  intros Hq Hp Hab. unfold settle. rewrite Hq, Hab, Hp. reflexivity.
Qed.

Lemma readChunks_cons (r : nat) (text : JSString) (chunks : list JSString)
  (w : World) :
  readChunks r (text :: chunks) w =
  readChunks r chunks (settle r (ReadChunk text) w).
Proof. reflexivity. Qed.

Lemma sentinel_completes_once_gen (r : nat) (chunks : list JSString) :
  forall (w : World) (q : Request) (buffer : JSString),
    nth_error (requests w) r = Some q ->
    phase q = AwaitRead buffer ->
    aborted q = false ->
    isStreamingRef w = true ->
    completeLines buffer = [] ->
    hasDoneMarker (completeLines (buffer ++ List.concat chunks)) = true ->
    countComplete r (log (readChunks r chunks w)) =
    S (countComplete r (log w)) /\
    phaseOf r (readChunks r chunks w) = Some Returned.
Proof.
  induction chunks as [|text chunks IH]; intros w q buffer Hq Hp Hab Hs Hb Hm.
  - simpl in Hm. rewrite app_nil_r, Hb in Hm. discriminate.
  - rewrite readChunks_cons.
    rewrite (settle_chunk r w text Hq Hp Hab).
    destruct (process_chunk_facts r (rq_activeChatId q)
                (completeLines (buffer ++ text)) (ui w)) as [H1 [H2 _]].
    destruct (process_chunk r (rq_activeChatId q)
                (completeLines (buffer ++ text)) (ui w))
      as [[st acts] ret].
    cbn [fst snd] in H1, H2. rewrite <- H1 in H2.
    destruct ret.
    + rewrite readChunks_returned by (eapply phaseOf_finish; exact Hq).
      split; [|eapply phaseOf_finish; exact Hq].
      unfold finish; cbn [log]. rewrite countComplete_app, H2. lia.
    + unfold loop. rewrite Hs.
      match goal with
      | |- context [readChunks r chunks ?w1] => set (w1' := w1)
      end.
      assert (Hq1 : nth_error (requests w1') r =
                    Some (setPhase (AwaitRead (partialLine (buffer ++ text))) q)).
      { unfold w1'; cbn [requests].
        rewrite nth_error_update, Nat.eqb_refl, Hq. reflexivity. }
      destruct (IH w1' _ (partialLine (buffer ++ text)) Hq1) as [H3 H4];
        try reflexivity; try assumption.
      * apply completeLines_partialLine.
      * cbn [List.concat] in Hm. rewrite app_assoc, completeLines_app in Hm.
        unfold hasDoneMarker in Hm, H1 |- *. rewrite existsb_app in Hm.
        rewrite <- H1 in Hm. exact Hm.
      * split; [|exact H4]. rewrite H3. unfold w1'; cbn [log].
        rewrite countComplete_app, H2. lia.
Qed.

(** C1, as the code has it.  Call [r] is in its read loop, not cancelled,
    with [isStreamingRef] raised, and the text it is handed, in any
    chunking, completes a marker line.  Then [onComplete] is called by [r]
    exactly once more, [r] has returned, and from then on nothing delivered
    to [r] changes anything: no callback and no mutation of the
    transcript. *)
Theorem sentinel_completes_once (r : nat) (chunks : list JSString)
  (w : World) (q : Request) (buffer : JSString) :
  nth_error (requests w) r = Some q ->
  phase q = AwaitRead buffer ->
  aborted q = false ->
  isStreamingRef w = true ->
  completeLines buffer = [] ->
  hasDoneMarker (completeLines (buffer ++ List.concat chunks)) = true ->
  let w' := readChunks r chunks w in
  countComplete r (log w') = S (countComplete r (log w)) /\
  phaseOf r w' = Some Returned /\
  (forall s, settle r s w' = w') /\
  (forall more, readChunks r more w' = w').
Proof.
  intros Hq Hp Hab Hs Hb Hm w'.
  assert (H : countComplete r (log w') = S (countComplete r (log w)) /\
              phaseOf r w' = Some Returned)
    by (eapply sentinel_completes_once_gen; eassumption).
  destruct H as [H1 H2].
  split; [exact H1|]. split; [exact H2|]. split.
  - intros s. apply settle_returned. exact H2.
  - intros more. apply readChunks_returned. exact H2.
Qed.

(** ** Sending while a stream is open *)

Lemma sendMessage_facts (msg : JSString) (appendMessage : bool)
  (rnd : JSString) (w : World) :
  let w1 := sendMessage msg appendMessage rnd w in
  chats (ui w1) =
  (if appendMessage
   then updateActive (activeChatId (ui w))
          (fun ms => ms ++ [userMessage (Date_now (S (clock (ui w)))) msg])
          (chats (ui w))
   else chats (ui w)) /\
  currentStreamIdRef (ui w1) =
  Some (newStreamId (Date_now (clock (ui w))) rnd) /\
  clock (ui w1) = (if appendMessage then 2 else 1) + clock (ui w) /\
  requests w1 =
  match abortControllerRef w with
  | Some r0 => update r0 setAborted (requests w)
  | None => requests w
  end ++
  [ {| phase := AwaitFetch; aborted := false;
       rq_activeChatId := activeChatId (ui w);
       rq_chats := chats (ui w) |} ] /\
  log w1 =
  log w ++
  match abortControllerRef w with
  | Some r0 => [Abort r0]
  | None => []
  end ++ [Fetch (List.length (requests w)) msg (sessionId (ui w))] /\
  abortControllerRef w1 = Some (List.length (requests w)) /\
  isStreamingRef w1 = true.
Proof.
  unfold sendMessage, sendStreamMessage, now.
  destruct appendMessage; destruct (abortControllerRef w); simpl;
    repeat split; reflexivity.
Qed.

Lemma settle_requests (r : nat) (s : Settlement) (w : World) :
  requests (settle r s w) = requests w \/
  exists p, requests (settle r s w) = update r (setPhase p) (requests w).
Proof.
  unfold settle. destruct (nth_error (requests w) r) as [q|]; [|auto].
  assert (Hcatch : forall e n,
             exists p, requests (catch r q e n w) =
                       update r (setPhase p) (requests w)).
  { intros e n. unfold catch. exists Returned.
    destruct e; [destruct (JS.eqb n (js "AbortError"))|]; reflexivity. }
  assert (Hloop : forall b st acts,
             exists p, requests (loop r b st acts w) =
                       update r (setPhase p) (requests w)).
  { intros b st acts. unfold loop.
    destruct (isStreamingRef w); eexists; reflexivity. }
  destruct (phase q); [| |auto];
    destruct (if aborted q then Rejected true (js "AbortError") else s)
      as [ok hasReader|text| |e n]; auto.
  - destruct ok; cbn [negb]; [|auto]. destruct hasReader; cbn [negb]; auto.
  - destruct (process_chunk r (rq_activeChatId q)
                (removelast (split (buffer ++ text))) (ui w))
      as [[st acts] [|]]; [|auto].
    right. exists Returned. reflexivity.
  - right. exists Returned. reflexivity.
Qed.

Lemma settle_log (r : nat) (s : Settlement) (w : World) :
  exists acts,
    log (settle r s w) = log w ++ acts /\
    Forall (fun act => requestOf act = r) acts.
Proof.
  unfold settle. destruct (nth_error (requests w) r) as [q|];
    [|exists []; rewrite app_nil_r; auto].
  assert (Hcatch : forall e n,
             exists acts,
               log (catch r q e n w) = log w ++ acts /\
               Forall (fun act => requestOf act = r) acts).
  { intros e n. unfold catch.
    destruct e; [destruct (JS.eqb n (js "AbortError"))|];
      eexists; (split; [reflexivity|]); repeat constructor. }
  assert (Hloop : forall b st acts,
             Forall (fun act => requestOf act = r) acts ->
             exists acts',
               log (loop r b st acts w) = log w ++ acts' /\
               Forall (fun act => requestOf act = r) acts').
  { intros b st acts H. unfold loop.
    destruct (isStreamingRef w); exists acts; auto. }
  destruct (phase q); [| |exists []; rewrite app_nil_r; auto];
    destruct (if aborted q then Rejected true (js "AbortError") else s)
      as [ok hasReader|text| |e n]; auto;
    try (exists []; rewrite app_nil_r; auto; fail).
  - destruct ok; cbn [negb]; [|auto]. destruct hasReader; cbn [negb]; auto.
  - destruct (process_chunk_facts r (rq_activeChatId q)
                (removelast (split (buffer ++ text))) (ui w)) as [_ [_ H]].
    destruct (process_chunk r (rq_activeChatId q)
                (removelast (split (buffer ++ text))) (ui w))
      as [[st acts] [|]]; cbn [fst snd] in H; [|auto].
    exists acts. auto.
  - eexists. split; [reflexivity|]. repeat constructor.
Qed.

Lemma step_cancelled (r : nat) (e : Event) (w : World) :
  cancelled r w -> cancelled r (step e w).
Proof.
  intros [q [Hq Hab]]. destruct e as [msg ap rnd|r' s|id]; cbn [step].
  - destruct (sendMessage_facts msg ap rnd w) as [_ [_ [_ [Hr _]]]].
    unfold cancelled. rewrite Hr.
    assert (Hlt : r < List.length (requests w))
      by (apply nth_error_Some; congruence).
    destruct (abortControllerRef w) as [r0|].
    + rewrite nth_error_app1 by (rewrite update_length; exact Hlt).
      rewrite nth_error_update, Hq.
      destruct (Nat.eqb r0 r); eexists; (split; [reflexivity|]); auto.
    + rewrite nth_error_app1 by exact Hlt. eauto.
  - unfold cancelled.
    destruct (settle_requests r' s w) as [->|[p ->]]; [eauto|].
    rewrite nth_error_update, Hq.
    destruct (Nat.eqb r' r); eexists; (split; [reflexivity|]); auto.
  - exists q. auto.
Qed.

Lemma step_cancelled_silent (r : nat) (e : Event) (w : World) :
  cancelled r w ->
  filter (callbackOf r) (log (step e w)) = filter (callbackOf r) (log w).
Proof.
  intros [q [Hq Hab]]. destruct e as [msg ap rnd|r' s|id]; cbn [step].
  - destruct (sendMessage_facts msg ap rnd w) as [_ [_ [_ [_ [Hl _]]]]].
    rewrite Hl, !filter_app.
    destruct (abortControllerRef w); simpl; rewrite app_nil_r; reflexivity.
  - destruct (Nat.eqb r' r) eqn:E.
    + apply Nat.eqb_eq in E. subst r'.
      destruct (settle_aborted_ui r s w Hq Hab) as [_ ->]. reflexivity.
    + destruct (settle_log r' s w) as [acts [-> Hacts]].
      rewrite filter_app.
      replace (filter (callbackOf r) acts) with (@nil Action);
        [rewrite app_nil_r; reflexivity|].
      induction Hacts as [|act l Hact _ IH]; [reflexivity|].
      simpl. unfold callbackOf at 1. rewrite Hact, E, andb_false_r.
      exact IH.
  - reflexivity.
Qed.

Lemma run_cancelled_silent (r : nat) (es : list Event) (w : World) :
  cancelled r w ->
  filter (callbackOf r) (log (run es w)) = filter (callbackOf r) (log w).
Proof.
  revert w; induction es as [|e es IH]; intros w H; [reflexivity|].
  unfold run in *. cbn [fold_left].
  rewrite IH by (apply step_cancelled; exact H).
  apply step_cancelled_silent. exact H.
Qed.

(** C2, as the code has it.  Call [r1] holds the controller in
    [abortControllerRef] when the next message is sent.  Then [r1] is
    aborted before the new request is issued; whatever happens afterwards,
    [r1] calls no callback again ([onComplete] and [onError] included);
    and the cancellation removes nothing from the transcript: sending
    only appends the user's entry, and resuming [r1] leaves the
    controller's state as it is. *)
Theorem resend_cancels_previous (w : World) (r1 : nat) (q1 : Request)
  (msg : JSString) (appendMessage : bool) (rnd : JSString) :
  abortControllerRef w = Some r1 ->
  nth_error (requests w) r1 = Some q1 ->
  let w1 := sendMessage msg appendMessage rnd w in
  log w1 =
  log w ++ [Abort r1; Fetch (List.length (requests w)) msg (sessionId (ui w))] /\
  (forall es : list Event,
      filter (callbackOf r1) (log (run es w1)) =
      filter (callbackOf r1) (log w)) /\
  chats (ui w1) =
  (if appendMessage
   then updateActive (activeChatId (ui w))
          (fun ms => ms ++ [userMessage (Date_now (S (clock (ui w)))) msg])
          (chats (ui w))
   else chats (ui w)) /\
  (forall s : Settlement, ui (settle r1 s w1) = ui w1).
Proof.
  intros Href Hq w1.
  destruct (sendMessage_facts msg appendMessage rnd w)
    as [Hc [_ [_ [Hr [Hl _]]]]].
  fold w1 in Hc, Hr, Hl. rewrite Href in Hr, Hl.
  assert (Hcan : cancelled r1 w1).
  { exists (setAborted q1). split; [|reflexivity]. rewrite Hr.
    rewrite nth_error_app1
      by (rewrite update_length; apply nth_error_Some; congruence).
    rewrite nth_error_update, Nat.eqb_refl, Hq. reflexivity. }
  split; [exact Hl|]. split; [|split; [exact Hc|]].
  - intros es. rewrite (run_cancelled_silent es Hcan).
    rewrite Hl, filter_app, app_nil_r. reflexivity.
  - intros s. destruct Hcan as [q [Hq' Hab]].
    apply (settle_aborted_ui r1 s w1 Hq' Hab).
Qed.

(** ** Transport failure *)




End Stream.

(** * Further properties *)

(** ** Trimming *)

Lemma trimStart_idem (s : JSString) : trimStart (trimStart s) = trimStart s.
Proof.
  induction s as [|c s IH]; simpl; [reflexivity|].
  destruct (isWhiteSpace c) eqn:E; [exact IH|].
  simpl. rewrite E. reflexivity.
Qed.

Lemma trimStart_ws_app (ws s : JSString) :
  forallb isWhiteSpace ws = true -> trimStart (ws ++ s) = trimStart s.
Proof.
  induction ws as [|c ws IH]; simpl; [reflexivity|].
  intros H. apply andb_true_iff in H as [-> H]. auto.
Qed.

(** What [trimStart] strips is white space. *)
Lemma trimStart_split (s : JSString) :
  exists ws, forallb isWhiteSpace ws = true /\ s = ws ++ trimStart s.
Proof.
  induction s as [|c s [ws [H1 H2]]]; simpl.
  - exists []. auto.
  - destruct (isWhiteSpace c) eqn:E.
    + exists (c :: ws). simpl. rewrite E, H1. split; [reflexivity|].
      f_equal. exact H2.
    + exists []. auto.
Qed.

Lemma trimStart_head (s : JSString) :
  match trimStart s with
  | c :: _ => isWhiteSpace c = false
  | [] => True
  end.
Proof.
  induction s as [|c s IH]; simpl; [exact I|].
  destruct (isWhiteSpace c) eqn:E; [exact IH|exact E].
Qed.

Lemma trimStart_fixed (s : JSString) :
  match s with
  | c :: _ => isWhiteSpace c = false
  | [] => True
  end ->
  trimStart s = s.
Proof. destruct s as [|c s]; simpl; [auto|]. intros ->. reflexivity. Qed.

Lemma trimEnd_idem (s : JSString) : trimEnd (trimEnd s) = trimEnd s.
Proof.
  unfold trimEnd. rewrite rev_involutive, trimStart_idem. reflexivity.
Qed.

Lemma trimEnd_app_ws (s ws : JSString) :
  forallb isWhiteSpace ws = true -> trimEnd (s ++ ws) = trimEnd s.
Proof.
  intros H. unfold trimEnd. rewrite rev_app_distr, trimStart_ws_app;
    [reflexivity|].
  rewrite forallb_forall in *. intros x Hx. apply H, in_rev. exact Hx.
Qed.

(** Trimming the end leaves the head where it was. *)
Lemma trimEnd_head (s : JSString) :
  match s with
  | c :: _ => isWhiteSpace c = false
  | [] => True
  end ->
  match trimEnd s with
  | c :: _ => isWhiteSpace c = false
  | [] => True
  end.
Proof.
  intros H. unfold trimEnd.
  destruct (trimStart_split (rev s)) as [ws [Hws Hs]].
  assert (Hs' : s = rev (trimStart (rev s)) ++ rev ws).
  { rewrite <- rev_app_distr, <- Hs, rev_involutive. reflexivity. }
  destruct (rev (trimStart (rev s))) as [|c t] eqn:E; [exact I|].
  rewrite Hs' in H. exact H.
Qed.

Lemma trim_idem (s : JSString) : trim (trim s) = trim s.
Proof.
  unfold trim.
  rewrite (trimStart_fixed (trimEnd (trimStart s)))
    by (apply trimEnd_head, trimStart_head).
  apply trimEnd_idem.
Qed.

Lemma trimStart_app_nonempty (s t : JSString) :
  trimStart s <> [] -> trimStart (s ++ t) = trimStart s ++ t.
Proof.
  induction s as [|c s IH]; simpl; [congruence|].
  destruct (isWhiteSpace c); auto.
Qed.

Lemma trimStart_all_ws (s : JSString) :
  trimStart s = [] -> forallb isWhiteSpace s = true.
Proof.
  induction s as [|c s IH]; simpl; [reflexivity|].
  destruct (isWhiteSpace c); [exact IH|discriminate].
Qed.

(** White space around a text does not count. *)
Lemma trim_ws_around (ws1 s ws2 : JSString) :
  forallb isWhiteSpace ws1 = true ->
  forallb isWhiteSpace ws2 = true ->
  trim (ws1 ++ s ++ ws2) = trim s.
Proof.
  intros H1 H2. unfold trim. rewrite trimStart_ws_app by exact H1.
  destruct (trimStart s) as [|c t] eqn:E.
  - apply trimStart_all_ws in E.
    rewrite trimStart_ws_app by exact E.
    destruct (trimStart_split ws2) as [ws [Hws Hs]].
    assert (H : trimStart ws2 = [])
      by (rewrite <- (app_nil_r ws2), trimStart_ws_app by exact H2;
          reflexivity).
    rewrite H. reflexivity.
  - rewrite trimStart_app_nonempty by congruence. rewrite E.
    apply trimEnd_app_ws. exact H2.
Qed.

(** ** Lines of the stream *)

Section Decoder.

Context {P : Payloads} {R : Runtime}.

Lemma process_line_trim (r : nat) (a l : JSString) (st : Model) :
  process_line r a (trim l) st = process_line r a l st.
Proof. unfold process_line. rewrite trim_idem. reflexivity. Qed.

(** X4.  White space around a line, the carriage return of a CRLF line ending
    included, changes nothing to what the line does. *)
Theorem line_whitespace_is_irrelevant (r : nat) (a ws1 l ws2 : JSString)
  (st : Model) :
  forallb isWhiteSpace ws1 = true ->
  forallb isWhiteSpace ws2 = true ->
  process_line r a (ws1 ++ l ++ ws2) st = process_line r a l st.
Proof.
  intros H1 H2. unfold process_line.
  rewrite (trim_ws_around ws1 l ws2 H1 H2). reflexivity.
Qed.

Lemma process_line_inert (r : nat) (a l : JSString) (st : Model) :
  inert l = true -> process_line r a l st = (st, [], false).
Proof.
  unfold inert, process_line. intros H.
  destruct (negb (truthy (trim l)) || startsWith (trim l) (js ":"));
    [reflexivity|].
  simpl in H. apply andb_true_iff in H as [H1 H2].
  apply negb_true_iff in H1, H2. rewrite H1, H2. reflexivity.
Qed.

(** X3.  Blank lines, comment lines and lines of other fields have no effect:
    the lines of a chunk do what the lines left after removing them do. *)
Theorem inert_lines_are_ignored (r : nat) (a : JSString)
  (lines : list JSString) (st : Model) :
  process_lines r a lines st =
  process_lines r a (filter (fun l => negb (inert l)) lines) st.
Proof.
  revert st; induction lines as [|l lines IH]; intros st; [reflexivity|].
  cbn [filter]. destruct (inert l) eqn:E; cbn [negb].
  - cbn [process_lines]. rewrite (process_line_inert r a l st E).
    rewrite IH.
    destruct (process_lines r a (filter (fun l => negb (inert l)) lines) st)
      as [[st2 acts2] ret]. reflexivity.
  - cbn [process_lines].
    destruct (process_line r a l st) as [[st1 acts1] [|]]; [reflexivity|].
    rewrite IH. reflexivity.
Qed.

End Decoder.

(** ** Chunks of the transport *)

Section Chunks.

Context {P : Payloads} {R : Runtime}.

Lemma update_update_setPhase (r : nat) (p1 p2 : Phase) (l : list Request) :
  update r (setPhase p2) (update r (setPhase p1) l) =
  update r (setPhase p2) l.
Proof.
  revert r; induction l as [|q l IH]; intros [|r]; simpl; try reflexivity.
  rewrite IH. reflexivity.
Qed.

Lemma nth_error_update_same {A : Type} (f : A -> A) (l : list A) (i : nat)
  (x : A) :
  nth_error l i = Some x -> nth_error (update i f l) i = Some (f x).
Proof.
  intros H. rewrite nth_error_update, Nat.eqb_refl, H. reflexivity.
Qed.

(** Apart from the payment branch of [handleResponse], no callback queues
    an updater that reads the clock: what a record does is the same
    whatever the clock will be at the render. *)
Lemma dispatch_setRenderClock (r : nat) (a : JSString)
  (data : StreamingResponse) (k : nat) (st : Model) :
  isPaymentResponse data = false ->
  dispatch r a data (setRenderClock k st) =
  (setRenderClock k (fst (dispatch r a data st)), snd (dispatch r a data st)) /\
  callbackThrows data (setRenderClock k st) = callbackThrows data st.
Proof.
  intros Hp. split; [|destruct data; reflexivity].
  destruct data as [m s|m s g|t u s|resp|s ps|s ci cs|ty]; cbn [dispatch fst snd];
    try reflexivity.
  - unfold handleThinking, updateSessionId.
    destruct s as [s|]; [destruct (truthy s)|]; reflexivity.
  - unfold handleConversationChunk, updateSessionId.
    destruct s as [s|]; [destruct (truthy s)|]; reflexivity.
  - unfold handleToolStart, updateSessionId.
    destruct s as [s|]; [destruct (truthy s)|]; reflexivity.
  - cbn [isPaymentResponse] in Hp. unfold handleResponse, updateSessionId.
    destruct (includes (re_content resp)
                (js "initialized a new shopping session") ||
              includes (re_content resp) (js "Session Ready")).
    { destruct (re_session_id resp) as [s|]; [destruct (truthy s)|];
        reflexivity. }
    cbn [negb andb] in Hp. rewrite Hp.
    destruct (re_session_id resp) as [s|]; [destruct (truthy s)|];
      destruct (re_data resp) as [[? ? [?|] ? ? ?]|]; reflexivity.
  - unfold handleRawProducts, updateSessionId.
    destruct s as [s|]; [destruct (truthy s)|];
      destruct ps as [[|p ps]|]; reflexivity.
  - unfold handleRawCart, updateSessionId.
    destruct s as [s|]; [destruct (truthy s)|];
      cbn [clock setRenderClock setSessionId];
      destruct (normalizeCartSummary ci cs (clock st)) as [[n|] clk];
      try reflexivity;
      destruct n as [[[|it its]|] ? ? ?]; try reflexivity;
      match goal with
      | |- context [transformRawCartSummary ?x] =>
          destruct (transformRawCartSummary x)
      end; reflexivity.
Qed.

Lemma process_line_setRenderClock (r : nat) (a line : JSString) (k : nat)
  (st : Model) :
  paymentRecord line = false ->
  process_line r a line (setRenderClock k st) =
  (setRenderClock k (fst (fst (process_line r a line st))),
   snd (fst (process_line r a line st)),
   snd (process_line r a line st)).
Proof.
  unfold paymentRecord, payloadOf, process_line. intros Hp.
  destruct (negb (truthy (trim line)) || startsWith (trim line) (js ":"));
    [reflexivity|].
  destruct (isDoneMarker (trim line)); [reflexivity|].
  destruct (startsWith (trim line) (js "data:")); [|reflexivity].
  destruct (JSON_parse (trim (substring 5 (trim line)))) as [data|];
    [|reflexivity].
  destruct (dispatch_setRenderClock r a data k st Hp) as [E1 E2].
  rewrite E1, E2.
  destruct (dispatch r a data st) as [st' acts]. reflexivity.
Qed.

Lemma process_lines_setRenderClock (r : nat) (a : JSString)
  (lines : list JSString) (k : nat) (st : Model) :
  existsb paymentRecord lines = false ->
  process_lines r a lines (setRenderClock k st) =
  (setRenderClock k (fst (fst (process_lines r a lines st))),
   snd (fst (process_lines r a lines st)),
   snd (process_lines r a lines st)).
Proof.
  revert st; induction lines as [|l lines IH]; intros st Hp;
    [reflexivity|].
  cbn [existsb] in Hp. apply orb_false_iff in Hp as [Hl Hp].
  cbn [process_lines].
  rewrite (process_line_setRenderClock r a l k st Hl).
  destruct (process_line r a l st) as [[st1 acts1] [|]]; cbn [fst snd];
    [reflexivity|].
  rewrite (IH st1 Hp).
  destruct (process_lines r a lines st1) as [[st2 acts2] ret]. reflexivity.
Qed.

(** Without a payment response among its lines, a chunk does what its
    lines do one after the other. *)
Lemma process_chunk_no_payment (r : nat) (a : JSString)
  (lines : list JSString) (st : Model) :
  existsb paymentRecord lines = false ->
  process_chunk r a lines st =
  (settled (fst (fst (process_lines r a lines st))),
   snd (fst (process_lines r a lines st)),
   snd (process_lines r a lines st)).
Proof.
  intros Hp. rewrite process_chunk_eq. cbv zeta.
  rewrite (process_lines_setRenderClock r a lines _ st Hp).
  reflexivity.
Qed.

Lemma process_lines_settled (r : nat) (a : JSString)
  (lines : list JSString) (st : Model) :
  existsb paymentRecord lines = false ->
  settled (fst (fst (process_lines r a lines (settled st)))) =
  settled (fst (fst (process_lines r a lines st))) /\
  snd (fst (process_lines r a lines (settled st))) =
  snd (fst (process_lines r a lines st)) /\
  snd (process_lines r a lines (settled st)) =
  snd (process_lines r a lines st).
Proof.
  intros Hp. unfold settled.
  rewrite (process_lines_setRenderClock r a lines (clock st) st Hp).
  cbn [fst snd]. repeat split; reflexivity.
Qed.

(** Two reads in a row do what one read of the two texts joined does,
    when no line they complete is a payment response. *)
Lemma settle_two_chunks (r : nat) (w : World) (q : Request)
  (buffer t1 t2 : JSString) :
  nth_error (requests w) r = Some q ->
  phase q = AwaitRead buffer ->
  aborted q = false ->
  isStreamingRef w = true ->
  existsb paymentRecord (completeLines (buffer ++ t1 ++ t2)) = false ->
  settle r (ReadChunk t2) (settle r (ReadChunk t1) w) =
  settle r (ReadChunk (t1 ++ t2)) w.
Proof.
  intros Hq Hp Hab Hs Hpay.
  assert (E1 : completeLines (buffer ++ t1 ++ t2) =
               completeLines (buffer ++ t1) ++
               completeLines (partialLine (buffer ++ t1) ++ t2))
    by (rewrite app_assoc; apply completeLines_app).
  assert (E2 : partialLine (buffer ++ t1 ++ t2) =
               partialLine (partialLine (buffer ++ t1) ++ t2))
    by (rewrite app_assoc; apply partialLine_app).
  rewrite (settle_chunk r w (t1 ++ t2) Hq Hp Hab).
  rewrite (process_chunk_no_payment r (rq_activeChatId q) _ (ui w) Hpay).
  rewrite E1 in Hpay. rewrite existsb_app in Hpay.
  apply orb_false_iff in Hpay as [Hpay1 Hpay2].
  rewrite E1, E2, process_lines_app.
  rewrite (settle_chunk r w t1 Hq Hp Hab).
  rewrite (process_chunk_no_payment r (rq_activeChatId q) _ (ui w) Hpay1).
  destruct (process_lines r (rq_activeChatId q)
              (completeLines (buffer ++ t1)) (ui w)) as [[st1 acts1] [|]];
    cbn [fst snd].
  - apply settle_returned. eapply phaseOf_finish. exact Hq.
  - unfold loop at 1. rewrite Hs.
    match goal with
    | |- settle r _ ?w1 = _ => set (w1' := w1)
    end.
    assert (Hq1 : nth_error (requests w1') r =
                  Some (setPhase (AwaitRead (partialLine (buffer ++ t1))) q))
      by (apply nth_error_update_same; exact Hq).
    rewrite (settle_chunk r w1' t2 Hq1 eq_refl Hab).
    cbn [rq_activeChatId setPhase]. unfold w1' at 1; cbn [ui].
    rewrite (process_chunk_no_payment r (rq_activeChatId q) _ (settled st1)
               Hpay2).
    destruct (process_lines_settled r (rq_activeChatId q)
                (completeLines (partialLine (buffer ++ t1) ++ t2)) st1 Hpay2)
      as [F1 [F2 F3]].
    rewrite F1, F2, F3.
    destruct (process_lines r (rq_activeChatId q)
                (completeLines (partialLine (buffer ++ t1) ++ t2)) st1)
      as [[st2 acts2] [|]]; cbn [fst snd].
    + unfold finish, w1'; cbn [ui requests log].
      rewrite update_update_setPhase, app_assoc. reflexivity.
    + unfold loop, w1'; cbn [ui requests log isStreamingRef abortControllerRef].
      rewrite Hs, update_update_setPhase, app_assoc. reflexivity.
Qed.

Lemma existsb_app_false {A : Type} (f : A -> bool) (l1 l2 : list A) :
  existsb f (l1 ++ l2) = false -> existsb f l1 = false.
Proof.
  rewrite existsb_app. intros H. apply orb_false_iff in H. tauto.
Qed.

Lemma readChunks_concat (r : nat) (w : World) (q : Request)
  (buffer text : JSString) (more : list JSString) :
  nth_error (requests w) r = Some q ->
  phase q = AwaitRead buffer ->
  aborted q = false ->
  isStreamingRef w = true ->
  existsb paymentRecord (completeLines (buffer ++ text ++ List.concat more)) =
  false ->
  readChunks r (text :: more) w =
  readChunks r [text ++ List.concat more] w.
Proof.
  intros Hq Hp Hab Hs. revert text.
  induction more as [|t2 more IH]; intros text Hpay.
  - simpl. rewrite app_nil_r. reflexivity.
  - rewrite readChunks_cons, readChunks_cons.
    cbn [List.concat] in Hpay.
    assert (Hpay2 : existsb paymentRecord
                      (completeLines (buffer ++ text ++ t2)) = false).
    { apply (existsb_app_false paymentRecord _
               (completeLines
                  (partialLine (buffer ++ text ++ t2) ++ List.concat more))).
      rewrite <- completeLines_app, <- !app_assoc. exact Hpay. }
    rewrite (@settle_two_chunks r w q buffer text t2 Hq Hp Hab Hs Hpay2).
    rewrite <- readChunks_cons, IH.
    + cbn [List.concat]. rewrite app_assoc. reflexivity.
    + rewrite <- app_assoc. exact Hpay.
Qed.

(** X1.  How the transport cuts the text into chunks does not matter, as
    long as no line is a final response that starts a payment (the text
    entry of such a response takes its identifier at the render that
    follows the read).  For a call that is in its read loop, not
    cancelled, with [isStreamingRef] raised, reading chunks one after the
    other leaves the same world (transcript, buffer, callbacks called, in
    the same order) as reading their concatenation in one chunk. *)
Theorem chunking_is_irrelevant (r : nat) (w : World) (q : Request)
  (buffer text : JSString) (more : list JSString) :
  nth_error (requests w) r = Some q ->
  phase q = AwaitRead buffer ->
  aborted q = false ->
  isStreamingRef w = true ->
  existsb paymentRecord (completeLines (buffer ++ text ++ List.concat more)) =
  false ->
  readChunks r (text :: more) w =
  readChunks r [text ++ List.concat more] w.
Proof.
  intros Hq Hp Hab Hs Hpay. eapply readChunks_concat; eassumption.
Qed.

(** X2.  What a whole stream does when it ends without a marker and
    without a final response that starts a payment.  The effect is that of
    its complete lines, in order, followed by one call of [onComplete];
    the text after the last line feed is never processed. *)
Theorem stream_end_completes_once (r : nat) (w : World) (q : Request)
  (buffer text : JSString) (more : list JSString) :
  nth_error (requests w) r = Some q ->
  phase q = AwaitRead buffer ->
  aborted q = false ->
  isStreamingRef w = true ->
  hasDoneMarker (completeLines (buffer ++ text ++ List.concat more)) = false ->
  existsb paymentRecord (completeLines (buffer ++ text ++ List.concat more)) =
  false ->
  let a := rq_activeChatId q in
  let result :=
    process_lines r a (completeLines (buffer ++ text ++ List.concat more))
      (ui w) in
  settle r ReadDone (readChunks r (text :: more) w) =
  finish r (handleStreamComplete a (settled (fst (fst result))))
    (snd (fst result) ++ [OnComplete r]) w /\
  countComplete r (snd (fst result) ++ [OnComplete r]) = 1.
Proof.
  intros Hq Hp Hab Hs Hm Hpay. cbv zeta.
  rewrite (@readChunks_concat r w q buffer text more Hq Hp Hab Hs Hpay).
  unfold readChunks, run. cbn [map fold_left step].
  rewrite (settle_chunk r w (text ++ List.concat more) Hq Hp Hab).
  rewrite (process_chunk_no_payment r (rq_activeChatId q) _ (ui w) Hpay).
  destruct (process_lines_facts r (rq_activeChatId q)
              (completeLines (buffer ++ text ++ List.concat more)) (ui w))
    as [H1 [H2 _]].
  rewrite Hm in H1, H2.
  destruct (process_lines r (rq_activeChatId q)
              (completeLines (buffer ++ text ++ List.concat more)) (ui w))
    as [[st acts] ret].
  cbn [fst snd] in *. subst ret.
  split.
  - unfold loop. rewrite Hs.
    unfold settle. cbn [requests].
    rewrite (nth_error_update_same _ _ _ Hq). cbn [setPhase aborted phase].
    rewrite Hab. cbn [rq_activeChatId ui].
    unfold finish. cbn [ui requests log].
    rewrite update_update_setPhase, <- (app_assoc (log w)). reflexivity.
  - rewrite countComplete_app, H2. unfold countComplete. simpl.
    rewrite Nat.eqb_refl. reflexivity.
Qed.

End Chunks.

(** ** The status lines of a stream *)

Section StatusLines.

Context {P : Payloads} {R : Runtime}.

Lemma MessageType_eqb_eq (k k' : MessageType) :
  MessageType_eqb k k' = true <-> k = k'.
Proof. destruct k, k'; simpl; split; congruence. Qed.

(** Replacing within a request, seen from any kind [k]: the entries of
    kind [k] of the stream are the new entry when it is of kind [k], and
    are untouched otherwise. *)
Lemma ofKind_replace (k ke : MessageType) (sid : JSString)
  (ms : list ChatMessage) (new : ChatMessage) :
  msg_type new = ke ->
  streamId new = Some sid ->
  ofKind k sid
    (filter (fun m => negb (hasType ke m &&
                            sameStream (streamId m) (Some sid))) ms ++
     [new]) =
  if MessageType_eqb ke k then [new] else ofKind k sid ms.
Proof.
  intros Ht Hs. unfold ofKind. rewrite filter_app.
  assert (Hn : hasType k new && sameStream (streamId new) (Some sid) =
               MessageType_eqb ke k).
  { unfold hasType. rewrite Ht, Hs. cbn [sameStream].
    rewrite eqb_refl. apply andb_true_r. }
  cbn [filter]. rewrite Hn.
  destruct (MessageType_eqb ke k) eqn:E.
  - apply MessageType_eqb_eq in E. subst k.
    rewrite filter_filter_none; [reflexivity|].
    intros x Hx. apply negb_true_iff in Hx. exact Hx.
  - rewrite app_nil_r. apply filter_filter_keep.
    intros x Hx. apply andb_true_iff in Hx as [Hk _].
    unfold hasType in *. apply MessageType_eqb_eq in Hk.
    rewrite Hk.
    destruct (MessageType_eqb k ke) eqn:E'; [|reflexivity].
    apply MessageType_eqb_eq in E'. rewrite E' in E.
    rewrite (proj2 (MessageType_eqb_eq ke ke) eq_refl) in E. discriminate.
Qed.

Lemma applyStatus_facts (a : JSString) (e : StatusEvent) (st : Model)
  (sid : JSString) :
  currentStreamIdRef st = Some sid ->
  truthy sid = true ->
  currentStreamIdRef (applyStatus a e st) = Some sid /\
  chats (applyStatus a e st) =
  updateActive a
    (fun ms =>
       filter (fun m => negb (hasType (statusKind e) m &&
                              sameStream (streamId m) (Some sid))) ms ++
       [statusEntry e (Date_now (clock st)) sid])
    (chats st).
Proof.
  intros Hcur Hsid.
  destruct e as [m s|tool status s|m s stage]; cbn [applyStatus].
  - split.
    + rewrite handleThinking_stream. exact Hcur.
    + rewrite handleThinking_chats, Hcur. cbn [or_undefined].
      rewrite Hsid. reflexivity.
  - split.
    + unfold handleToolStart, now; simpl.
      rewrite updateSessionId_stream. exact Hcur.
    + rewrite handleToolStart_chats, Hcur. cbn [or_undefined].
      rewrite Hsid. reflexivity.
  - split.
    + unfold handleConversationChunk, now; simpl.
      rewrite updateSessionId_stream. exact Hcur.
    + rewrite handleConversationChunk_chats, Hcur. cbn [or_undefined].
      rewrite Hsid. reflexivity.
Qed.

Lemma Forall2_updateActive (a : JSString)
  (f : list ChatMessage -> list ChatMessage)
  (Q Q' : ChatSession -> ChatSession -> Prop) (cs cs1 : list ChatSession) :
  Forall2 Q cs cs1 ->
  (forall c c1, Q c c1 ->
     Q' c (if negb (JS.eqb (cs_id c1) a) then c1
           else {| cs_id := cs_id c1; title := title c1;
                   messages := f (messages c1) |})) ->
  Forall2 Q' cs (updateActive a f cs1).
Proof.
  intros F H. induction F as [|c c1 l l1 Hq F IH]; simpl; constructor; auto.
Qed.

Lemma lastOfKind_snoc (k : MessageType) (evs : list StatusEvent)
  (e : StatusEvent) :
  lastOfKind k (evs ++ [e]) =
  if MessageType_eqb (statusKind e) k then Some e else lastOfKind k evs.
Proof. unfold lastOfKind. rewrite rev_app_distr. reflexivity. Qed.

(** X5.  One status line per kind.  While [currentStreamIdRef] holds the
    identifier of the open request, after any sequence of [thinking],
    [tool_start] and [conversation_chunk] events the active chat holds,
    for each of the three kinds, exactly one entry of the stream, made from
    the last event of that kind; a kind that had no event keeps the
    entries it had.  An event of one kind never removes the line of
    another. *)
Theorem one_status_line_per_kind (a sid : JSString)
  (evs : list StatusEvent) (st : Model) :
  currentStreamIdRef st = Some sid ->
  truthy sid = true ->
  Forall2 (fun c c' =>
             if JS.eqb (cs_id c) a
             then cs_id c' = cs_id c /\
                  forall k,
                    match lastOfKind k evs with
                    | Some e =>
                        exists t,
                          ofKind k sid (messages c') = [statusEntry e t sid]
                    | None =>
                        ofKind k sid (messages c') =
                        ofKind k sid (messages c)
                    end
             else c' = c)
    (chats st) (chats (statusEvents a evs st)).
Proof.
  intros Hcur Hsid.
  assert (H : currentStreamIdRef (statusEvents a evs st) = Some sid /\
              Forall2 (fun c c' =>
                if JS.eqb (cs_id c) a
                then cs_id c' = cs_id c /\
                     forall k,
                       match lastOfKind k evs with
                       | Some e =>
                           exists t,
                             ofKind k sid (messages c') =
                             [statusEntry e t sid]
                       | None =>
                           ofKind k sid (messages c') =
                           ofKind k sid (messages c)
                       end
                else c' = c)
                (chats st) (chats (statusEvents a evs st)));
    [|exact (proj2 H)].
  induction evs as [|e evs [IHc IH]] using rev_ind.
  - split; [exact Hcur|]. simpl.
    induction (chats st) as [|c l IHl]; constructor; [|exact IHl].
    destruct (JS.eqb (cs_id c) a); auto.
  - unfold statusEvents in *. rewrite fold_left_app. cbn [fold_left].
    destruct (applyStatus_facts a e _ IHc Hsid) as [H1 H2].
    split; [exact H1|]. rewrite H2.
    eapply Forall2_updateActive; [exact IH|].
    intros c c1. cbv beta.
    destruct (JS.eqb (cs_id c) a) eqn:E.
    + intros [Hid Hk]. rewrite Hid, E. cbn [negb cs_id messages].
      split; [reflexivity|].
      intros k. rewrite lastOfKind_snoc.
      rewrite (@ofKind_replace k (statusKind e) sid (messages c1)
                 (statusEntry e (Date_now (clock
                     (fold_left (fun st e => applyStatus a e st) evs st)))
                   sid));
        [|destruct e; reflexivity|destruct e; reflexivity].
      destruct (MessageType_eqb (statusKind e) k).
      * eexists. reflexivity.
      * apply Hk.
    + intros ->. rewrite E. reflexivity.
Qed.

End StatusLines.

(** ** The durable history only grows *)

Section History.

Context {P : Payloads} {R : Runtime}.

Lemma unowned_not_current (cur : option JSString) (m : ChatMessage) :
  unowned m = true -> sameStream (streamId m) cur = false.
Proof. unfold unowned. destruct (streamId m); [discriminate|reflexivity]. Qed.

Lemma durable_filter_app (q : ChatMessage -> bool)
  (ms new : list ChatMessage) :
  (forall m, unowned m = true -> q m = true) ->
  durable (filter q ms ++ new) = durable ms ++ durable new.
Proof.
  intros H. unfold durable. rewrite filter_app. f_equal.
  apply filter_filter_keep. exact H.
Qed.

Lemma durable_filter (q : ChatMessage -> bool) (ms : list ChatMessage) :
  (forall m, unowned m = true -> q m = true) ->
  durable (filter q ms) = durable ms ++ [].
Proof.
  intros H. rewrite app_nil_r. apply filter_filter_keep. exact H.
Qed.

Lemma grows_refl (cs : list ChatSession) : Forall2 grows cs cs.
Proof.
  induction cs as [|c cs IH]; constructor; [|exact IH].
  split; [reflexivity|]. split; [reflexivity|].
  exists []. symmetry. apply app_nil_r.
Qed.

Lemma grows_trans (cs1 cs2 cs3 : list ChatSession) :
  Forall2 grows cs1 cs2 -> Forall2 grows cs2 cs3 -> Forall2 grows cs1 cs3.
Proof.
  intros F. revert cs3.
  induction F as [|c1 c2 l1 l2 H12 F IH]; intros cs3 F'.
  - inversion F'. constructor.
  - inversion F' as [|c2' c3 l2' l3 H23 F'' E1 E2]; subst.
    constructor; [|apply IH; exact F''].
    destruct H12 as [Hi [Ht [ad1 Hd1]]].
    destruct H23 as [Hi' [Ht' [ad2 Hd2]]].
    split; [congruence|]. split; [congruence|].
    exists (ad1 ++ ad2). rewrite Hd2, Hd1. symmetry. apply app_assoc.
Qed.

Lemma grows_update (a : JSString)
  (f : list ChatMessage -> list ChatMessage) (cs : list ChatSession) :
  (forall ms, exists added, durable (f ms) = durable ms ++ added) ->
  Forall2 grows cs (updateActive a f cs).
Proof.
  intros H. induction cs as [|c cs IH]; simpl; constructor; [|exact IH].
  destruct (JS.eqb (cs_id c) a); simpl.
  - split; [reflexivity|]. split; [reflexivity|]. apply H.
  - split; [reflexivity|]. split; [reflexivity|].
    exists []. symmetry. apply app_nil_r.
Qed.

Lemma keepForSweep_unowned (cur : option JSString) (m : ChatMessage) :
  unowned m = true -> keepForSweep cur m = true.
Proof.
  intros H. unfold keepForSweep.
  rewrite (unowned_not_current cur m H), andb_false_r. reflexivity.
Qed.

Lemma keepForProducts_unowned (cur : option JSString) (m : ChatMessage) :
  unowned m = true -> keepForProducts cur m = true.
Proof.
  intros H. unfold keepForProducts.
  rewrite (unowned_not_current cur m H), !andb_false_r. reflexivity.
Qed.

Lemma keepForCart_unowned (cur : option JSString) (m : ChatMessage) :
  unowned m = true -> keepForCart cur m = true.
Proof.
  intros H. unfold keepForCart.
  rewrite (unowned_not_current cur m H), !andb_false_r. reflexivity.
Qed.

Lemma grows_replace (a : JSString) (k : MessageType)
  (cur : option JSString) (new : list ChatMessage)
  (cs : list ChatSession) :
  Forall2 grows cs
    (updateActive a
       (fun ms =>
          filter (fun m => negb (hasType k m &&
                                 sameStream (streamId m) cur)) ms ++ new)
       cs).
Proof.
  apply grows_update. intros ms. eexists. apply durable_filter_app.
  intros m Hm. rewrite (unowned_not_current cur m Hm), andb_false_r.
  reflexivity.
Qed.

Lemma paymentUpdate_grows (a : JSString) (cur : option JSString)
  (content : JSString) (pm : ChatMessage) (cs : list ChatSession)
  (clk : nat) :
  Forall2 grows cs (fst (paymentUpdate a cur content pm cs clk)).
Proof.
  revert clk; induction cs as [|c cs IH]; intros clk; simpl;
    [constructor|].
  destruct (JS.eqb (cs_id c) a) eqn:E; simpl.
  - specialize (IH (S clk)).
    destruct (paymentUpdate a cur content pm cs (S clk)); simpl in *.
    constructor; [|exact IH].
    split; [reflexivity|]. split; [reflexivity|]. cbn [messages].
    eexists. apply durable_filter_app. apply keepForSweep_unowned.
  - specialize (IH clk).
    destruct (paymentUpdate a cur content pm cs clk); simpl in *.
    constructor; [|exact IH].
    split; [reflexivity|]. split; [reflexivity|].
    exists []. symmetry. apply app_nil_r.
Qed.

Lemma handleResponse_grows (a : JSString) (response : ResponseEvent)
  (st : Model) :
  Forall2 grows (chats st) (chats (handleResponse a response st)).
Proof.
  unfold handleResponse.
  destruct (includes (re_content response)
              (js "initialized a new shopping session") ||
            includes (re_content response) (js "Session Ready")).
  - rewrite removeThinkingMessages_chats, updateSessionId_chats.
    apply grows_update. intros ms. eexists. apply durable_filter.
    apply keepForSweep_unowned.
  - destruct (includes (re_content response)
                (js "Your order has been initialized")).
    + unfold now; simpl.
      match goal with
      | |- context [paymentUpdate ?x ?c ?t ?m ?cs ?k] =>
          pose proof (paymentUpdate_grows x c t m cs k) as H;
          destruct (paymentUpdate x c t m cs k)
      end.
      simpl in *. rewrite updateSessionId_chats in H. exact H.
    + match goal with
      | |- context [now ?s] =>
          assert (Hc : chats s = chats st)
      end.
      { destruct (re_data response) as [[? ? [?|] ? ? ?]|]; simpl;
          apply updateSessionId_chats. }
      unfold now; simpl. rewrite Hc.
      apply grows_update. intros ms. eexists. apply durable_filter_app.
      intros m Hm. rewrite (unowned_not_current _ m Hm), andb_false_r.
      reflexivity.
Qed.

Lemma sweep_grows (a : JSString) (cur : option JSString)
  (new : list ChatMessage) (cs : list ChatSession) :
  Forall2 grows cs
    (updateActive a (fun ms => filter (keepForSweep cur) ms ++ new) cs).
Proof.
  apply grows_update. intros ms. eexists. apply durable_filter_app.
  apply keepForSweep_unowned.
Qed.

Lemma handleStreamComplete_grows (a : JSString) (st : Model) :
  Forall2 grows (chats st) (chats (handleStreamComplete a st)).
Proof.
  rewrite handleStreamComplete_chats.
  apply grows_update. intros ms. eexists. apply durable_filter.
  apply keepForSweep_unowned.
Qed.

Lemma dispatch_grows (r : nat) (a : JSString) (data : StreamingResponse)
  (st : Model) :
  Forall2 grows (chats st) (chats (fst (dispatch r a data st))).
Proof.
  destruct data; cbn [dispatch fst].
  - rewrite handleThinking_chats. apply grows_replace.
  - rewrite handleConversationChunk_chats. apply grows_replace.
  - rewrite handleToolStart_chats. apply grows_replace.
  - apply handleResponse_grows.
  - rewrite handleRawProducts_chats. apply grows_update. intros ms.
    destruct products as [[|p ps]|]; eexists;
      first [apply durable_filter_app; apply keepForProducts_unowned
            |apply durable_filter; apply keepForSweep_unowned].
  - rewrite handleRawCart_chats. apply grows_update. intros ms.
    destruct (cartOutcome cart_items cart_summary (clock st)); eexists;
      first [apply durable_filter_app; apply keepForCart_unowned
            |apply durable_filter; apply keepForSweep_unowned
            |symmetry; apply app_nil_r].
  - apply grows_refl.
Qed.

Lemma process_line_grows (r : nat) (a line : JSString) (st : Model) :
  Forall2 grows (chats st) (chats (fst (fst (process_line r a line st)))).
Proof.
  unfold process_line.
  destruct (negb (truthy (trim line)) || startsWith (trim line) (js ":"));
    [apply grows_refl|].
  destruct (isDoneMarker (trim line)).
  { cbn [fst]. apply handleStreamComplete_grows. }
  destruct (startsWith (trim line) (js "data:")); [|apply grows_refl].
  destruct (JSON_parse (trim (substring 5 (trim line)))) as [data|];
    [|apply grows_refl].
  pose proof (dispatch_grows r a data st) as H.
  destruct (dispatch r a data st). exact H.
Qed.

Lemma process_lines_grows (r : nat) (a : JSString) (lines : list JSString)
  (st : Model) :
  Forall2 grows (chats st) (chats (fst (fst (process_lines r a lines st)))).
Proof.
  revert st; induction lines as [|line rest IH]; intros st; simpl;
    [apply grows_refl|].
  pose proof (process_line_grows r a line st) as H1.
  destruct (process_line r a line st) as [[st1 acts1] [|]]; simpl in *;
    [exact H1|].
  specialize (IH st1).
  destruct (process_lines r a rest st1) as [[st2 acts2] ret]; simpl in *.
  eapply grows_trans; eassumption.
Qed.

Lemma process_chunk_grows (r : nat) (a : JSString) (lines : list JSString)
  (st : Model) :
  Forall2 grows (chats st) (chats (fst (fst (process_chunk r a lines st)))).
Proof.
  rewrite process_chunk_eq. cbv zeta. cbn [fst snd].
  apply (process_lines_grows r a lines
           (setRenderClock (clock (fst (fst (process_lines r a lines st))))
              st)).
Qed.

Lemma settle_grows (r : nat) (s : Settlement) (w : World) :
  Forall2 grows (chats (ui w)) (chats (ui (settle r s w))).
Proof.
  unfold settle.
  destruct (nth_error (requests w) r) as [q|]; [|apply grows_refl].
  assert (Hcatch : forall e n,
             Forall2 grows (chats (ui w)) (chats (ui (catch r q e n w)))).
  { intros e n. unfold catch.
    destruct e; [|apply grows_refl].
    destruct (JS.eqb n (js "AbortError")); [apply grows_refl|].
    unfold finish; cbn [ui]. rewrite handleStreamError_chats.
    apply sweep_grows. }
  assert (Hloop : forall b st acts,
             Forall2 grows (chats (ui w)) (chats st) ->
             Forall2 grows (chats (ui w))
               (chats (ui (loop r b st acts w)))).
  { intros b st acts H. unfold loop. destruct (isStreamingRef w); exact H. }
  destruct (phase q) as [|buffer|] eqn:Hp; [| |apply grows_refl];
    destruct (aborted q); try apply Hcatch;
    destruct s as [ok hasReader|text| |e n];
    try apply Hcatch; try apply grows_refl.
  - destruct ok; cbn [negb]; [|apply Hcatch].
    destruct hasReader; cbn [negb]; [|apply Hcatch].
    apply Hloop, grows_refl.
  - pose proof (process_chunk_grows r (rq_activeChatId q)
                  (removelast (split (buffer ++ text))) (ui w)) as H.
    destruct (process_chunk r (rq_activeChatId q)
                (removelast (split (buffer ++ text))) (ui w))
      as [[st acts] [|]]; simpl in H.
    + exact H.
    + apply Hloop. exact H.
  - unfold finish; cbn [ui]. apply handleStreamComplete_grows.
Qed.

Lemma sendMessage_grows (msg : JSString) (appendMessage : bool)
  (rnd : JSString) (w : World) :
  Forall2 grows (chats (ui w))
    (chats (ui (sendMessage msg appendMessage rnd w))).
Proof.
  unfold sendMessage, sendStreamMessage, now.
  destruct appendMessage; destruct (abortControllerRef w); simpl;
    try apply grows_refl;
    apply grows_update; intros ms; eexists; unfold durable;
    apply filter_app.
Qed.

Lemma step_grows (e : Event) (w : World) :
  Forall2 grows (chats (ui w)) (chats (ui (step e w))).
Proof.
  destruct e as [msg ap rnd|r s|id]; cbn [step].
  - apply sendMessage_grows.
  - apply settle_grows.
  - apply grows_refl.
Qed.

(** X6.  The history is append-only.  Whatever is sent, however the streams
    settle and whichever chat is selected meanwhile, the chats stay the
    same in number, order, identifier and title, and in each chat the
    entries that no stream owns (the user's messages, the entries of final
    responses, payment and error entries) are never removed, changed or
    reordered: the durable part of the old transcript is a prefix of the
    durable part of the new one. *)
Theorem history_is_append_only (es : list Event) (w : World) :
  Forall2 grows (chats (ui w)) (chats (ui (run es w))).
Proof.
  revert w. induction es as [|e es IH]; intros w; simpl.
  - apply grows_refl.
  - eapply grows_trans; [apply step_grows|apply IH].
Qed.

End History.

(** ** Final responses *)

Section FinalResponse.

Context {P : Payloads} {R : Runtime}.

Ltac split_matches :=
  repeat match goal with
         | |- context [match ?x with _ => _ end] => destruct x
         end.

Lemma createMessagesFromResponse_facts (rd : ChatApiResponse) (t : N) :
  Forall (fun m => unowned m = true /\ isFinalKind (msg_type m) = true)
    (createMessagesFromResponse rd t) /\
  List.length (createMessagesFromResponse rd t) <= 3 /\
  NoDup (map (fun m => hd 0%N (msg_id m)) (createMessagesFromResponse rd t)).
Proof.
  unfold createMessagesFromResponse.
  destruct (truthy (response rd)); (destruct (data rd) as [d|];
    [destruct (context_type rd) as [[]|]; cbn; split_matches; cbn|cbn]);
    (split;
     [repeat (apply Forall_cons; [split; reflexivity|]); apply Forall_nil|]);
    (split; [lia|]);
    repeat (constructor; [cbn; intuition discriminate|]); constructor.
Qed.

Lemma NoDup_map_hd {A B C : Type} (g : A -> B) (h : B -> C) (l : list A) :
  NoDup (map (fun x => h (g x)) l) -> NoDup (map g l).
Proof.
  induction l as [|x l IH]; simpl; intros H; [constructor|].
  inversion H as [|y l' Hn Hd]; subst. constructor; [|apply IH; exact Hd].
  intros Hin. apply Hn. apply in_map_iff in Hin as [z [Hz Hin]].
  apply in_map_iff. exists z. split; [congruence|exact Hin].
Qed.

(** X7.  What a final response is shown as.  [createMessagesFromResponse]
    returns at most three entries (the text, the entry of the context
    kind, an error entry), with pairwise distinct identifiers; none is
    owned by a stream, and none is a status line, a user entry or a
    payment entry. *)
Theorem final_response_entries (rd : ChatApiResponse) (t : N) :
  let new := createMessagesFromResponse rd t in
  List.length new <= 3 /\
  NoDup (map msg_id new) /\
  Forall (fun m => streamId m = None /\ isFinalKind (msg_type m) = true)
    new.
Proof.
  cbv zeta.
  destruct (createMessagesFromResponse_facts rd t) as [Hf [Hl Hn]].
  split; [exact Hl|]. split.
  - apply (NoDup_map_hd msg_id (hd 0%N)). exact Hn.
  - eapply Forall_impl; [|exact Hf]. intros m [Hu Hk].
    split; [|exact Hk]. unfold unowned in Hu.
    destruct (streamId m); [discriminate|reflexivity].
Qed.

Lemma ofKind_unowned (k : MessageType) (sid : JSString)
  (new : list ChatMessage) :
  Forall (fun m => unowned m = true) new -> ofKind k sid new = [].
Proof.
  intros H. induction H as [|m l Hm _ IH]; [reflexivity|].
  unfold ofKind in *. simpl.
  rewrite (unowned_not_current (Some sid) m Hm), andb_false_r. exact IH.
Qed.

Lemma ofKind_swept (k : MessageType) (sid : JSString)
  (q : ChatMessage -> bool) (ms new : list ChatMessage) :
  (forall m, q m = true ->
             hasType k m && sameStream (streamId m) (Some sid) = false) ->
  Forall (fun m => unowned m = true) new ->
  ofKind k sid (filter q ms ++ new) = [].
Proof.
  intros Hq Hn. unfold ofKind. rewrite filter_app.
  rewrite filter_filter_none by exact Hq.
  apply (ofKind_unowned k sid Hn).
Qed.

Lemma handleResponse_shape (a : JSString) (response : ResponseEvent)
  (st : Model) :
  Forall2 (fun c c' =>
             if JS.eqb (cs_id c) a
             then cs_id c' = cs_id c /\
                  if sessionPhrase (re_content response) ||
                     paymentPhrase (re_content response)
                  then exists new,
                         Forall (fun m => unowned m = true) new /\
                         messages c' =
                         filter (keepForSweep (currentStreamIdRef st))
                           (messages c) ++ new
                  else exists t,
                         messages c' =
                         filter (fun m =>
                                   negb (ownedTransient
                                           (currentStreamIdRef st) m))
                           (messages c) ++
                         createMessagesFromResponse (responseData response) t
             else c' = c)
    (chats st) (chats (handleResponse a response st)).
Proof.
  unfold handleResponse, sessionPhrase, paymentPhrase.
  destruct (includes (re_content response)
              (js "initialized a new shopping session") ||
            includes (re_content response) (js "Session Ready")).
  - rewrite removeThinkingMessages_chats, updateSessionId_chats,
      updateSessionId_stream.
    eapply Forall2_impl; [|apply updateActive_Forall2].
    intros c c'. cbv beta. destruct (JS.eqb (cs_id c) a); [|auto].
    intros [Hi [_ Hm]]. split; [exact Hi|]. cbn [orb].
    exists []. split; [constructor|]. rewrite app_nil_r. exact Hm.
  - cbn [orb].
    destruct (includes (re_content response)
                (js "Your order has been initialized")).
    + unfold now; simpl.
      match goal with
      | |- context [paymentUpdate ?x ?c ?t ?m ?cs ?k] =>
          pose proof (paymentUpdate_Forall2 x c t m cs k) as H;
          destruct (paymentUpdate x c t m cs k)
      end.
      simpl in *.
      rewrite updateSessionId_chats, updateSessionId_stream in H.
      eapply Forall2_impl; [|exact H].
      intros c c'. cbv beta. destruct (JS.eqb (cs_id c) a); [|auto].
      intros [Hi [t Hm]]. split; [exact Hi|].
      eexists. split; [|exact Hm].
      repeat constructor.
    + match goal with
      | |- context [now ?s] =>
          assert (Hc : chats s = chats st /\
                       currentStreamIdRef s = currentStreamIdRef st)
      end.
      { destruct (re_data response) as [[? ? [?|] ? ? ?]|]; simpl;
          split; first [apply updateSessionId_chats
                       |apply updateSessionId_stream]. }
      destruct Hc as [Hc Hs].
      unfold now; simpl. rewrite Hc, Hs.
      eapply Forall2_impl; [|apply updateActive_Forall2].
      intros c c'. cbv beta. destruct (JS.eqb (cs_id c) a); [|auto].
      intros [Hi [_ Hm]]. split; [exact Hi|].
      eexists. exact Hm.
Qed.

Lemma keepForSweep_no_status (k : MessageType) (cur : option JSString)
  (m : ChatMessage) :
  k = bot_thinking \/ k = bot_tool_executing ->
  keepForSweep cur m = true ->
  hasType k m && sameStream (streamId m) cur = false.
Proof.
  intros Hk Hm. unfold keepForSweep, isThinkingOrTool in Hm.
  destruct (sameStream (streamId m) cur); [|apply andb_false_r].
  rewrite andb_true_r in *. apply negb_true_iff, orb_false_iff in Hm.
  destruct Hm as [H1 H2]. destruct Hk; subst k; assumption.
Qed.

Lemma notTransient_no_status (k : MessageType) (cur : option JSString)
  (m : ChatMessage) :
  k = bot_thinking \/ k = bot_tool_executing \/
  k = bot_conversation_chunk ->
  negb (ownedTransient cur m) = true ->
  hasType k m && sameStream (streamId m) cur = false.
Proof.
  intros Hk Hm. unfold ownedTransient, isTemporary in Hm.
  destruct (sameStream (streamId m) cur); [|apply andb_false_r].
  rewrite andb_true_r in *. apply negb_true_iff in Hm.
  apply orb_false_iff in Hm as [Hm H3].
  apply orb_false_iff in Hm as [H1 H2].
  destruct Hk as [-> | [-> | ->]]; assumption.
Qed.

(** X8.  A final response clears the status lines.  Whatever the response is,
    afterwards the active chat holds no [thinking] and no [tool executing]
    entry of the current stream; when the text has none of the session and
    payment phrases, no [conversation chunk] entry of the stream is left
    either, and the chat is the old one without the stream's status lines,
    followed by the entries of [createMessagesFromResponse].  The other
    chats are unchanged. *)
Theorem final_response_clears_status_lines (a sid : JSString)
  (response : ResponseEvent) (st : Model) :
  currentStreamIdRef st = Some sid ->
  Forall2 (fun c c' =>
             if JS.eqb (cs_id c) a
             then ofKind bot_thinking sid (messages c') = [] /\
                  ofKind bot_tool_executing sid (messages c') = [] /\
                  (sessionPhrase (re_content response) = false ->
                   paymentPhrase (re_content response) = false ->
                   ofKind bot_conversation_chunk sid (messages c') = [] /\
                   exists t,
                     messages c' =
                     filter (fun m => negb (ownedTransient (Some sid) m))
                       (messages c) ++
                     createMessagesFromResponse (responseData response) t)
             else c' = c)
    (chats st) (chats (handleResponse a response st)).
Proof.
  intros Hcur.
  eapply Forall2_impl; [|apply handleResponse_shape].
  intros c c'. cbv beta. rewrite Hcur.
  destruct (JS.eqb (cs_id c) a); [|auto].
  intros [_ H].
  assert (Hnew : forall t,
             Forall (fun m => unowned m = true)
               (createMessagesFromResponse (responseData response) t)).
  { intros t.
    destruct (createMessagesFromResponse_facts (responseData response) t)
      as [Hf _].
    eapply Forall_impl; [|exact Hf]. intros m [Hu _]. exact Hu. }
  destruct (sessionPhrase (re_content response) ||
            paymentPhrase (re_content response)) eqn:Eph.
  - destruct H as [new [Hn ->]].
    split; [|split].
    + apply ofKind_swept; [|exact Hn].
      intros m. apply keepForSweep_no_status. auto.
    + apply ofKind_swept; [|exact Hn].
      intros m. apply keepForSweep_no_status. auto.
    + intros H1 H2. rewrite H1, H2 in Eph. discriminate.
  - destruct H as [t ->].
    split; [|split].
    + apply ofKind_swept; [|apply Hnew].
      intros m. apply notTransient_no_status. auto.
    + apply ofKind_swept; [|apply Hnew].
      intros m. apply notTransient_no_status. auto.
    + intros _ _. split; [|exists t; reflexivity].
      apply ofKind_swept; [|apply Hnew].
      intros m. apply notTransient_no_status. auto.
Qed.

End FinalResponse.

(** ** Product lists and cart views of a request *)

Section Results.

Context {P : Payloads} {R : Runtime}.

Ltac by_kind :=
  intros ?m;
  unfold keepForProducts, keepForCart, keepForSweep, isTemporary,
    isThinkingOrTool, hasType;
  destruct (msg_type m);
  destruct (sameStream (streamId m) _); simpl; congruence.

Lemma ofKind_result (k kn : MessageType) (sid : JSString)
  (q : ChatMessage -> bool) (ms : list ChatMessage) (new : ChatMessage) :
  msg_type new = kn ->
  streamId new = Some sid ->
  ofKind k sid (filter q ms ++ [new]) =
  ofKind k sid (filter q ms) ++ if MessageType_eqb kn k then [new] else [].
Proof.
  intros Ht Hs. unfold ofKind. rewrite filter_app. f_equal.
  cbn [filter]. unfold hasType. rewrite Ht, Hs. cbn [sameStream].
  rewrite eqb_refl, andb_true_r. reflexivity.
Qed.

(** X9.  The latest product list of a request wins.  While [currentStreamIdRef]
    holds the identifier of the open request, a [raw_products] event with
    products leaves in the active chat exactly one product list of the
    stream, the transformed products of this event, and none of the
    stream's status lines; the stream's cart views are kept.  An event
    without products only removes the [thinking] and [tool executing]
    entries of the stream.  The other chats are unchanged. *)
Theorem product_list_replaced_within_request (a sid : JSString)
  (session_id : option JSString) (products : option (list RawProduct))
  (st : Model) :
  currentStreamIdRef st = Some sid ->
  truthy sid = true ->
  Forall2 (fun c c' =>
             if JS.eqb (cs_id c) a
             then match products with
                  | Some (p :: ps) =>
                      ofKind bot_product_list sid (messages c') =
                      [ {| msg_id :=
                             js "raw_products" ++
                             decimal (Date_now (clock st));
                           body :=
                             MProductList
                               (map transformRawProduct (p :: ps));
                           streamId := Some sid |} ] /\
                      Forall (fun k => ofKind k sid (messages c') = [])
                        statusKinds /\
                      ofKind bot_cart_view sid (messages c') =
                      ofKind bot_cart_view sid (messages c)
                  | _ =>
                      messages c' =
                      filter (keepForSweep (Some sid)) (messages c)
                  end
             else c' = c)
    (chats st) (chats (handleRawProducts a session_id products st)).
Proof.
  intros Hcur Hsid. rewrite handleRawProducts_chats, Hcur.
  cbn [or_undefined]. rewrite Hsid.
  eapply Forall2_impl; [|apply updateActive_Forall2].
  intros c c'. cbv beta. destruct (JS.eqb (cs_id c) a); [|auto].
  intros [_ [_ ->]].
  destruct products as [[|p ps]|]; try reflexivity.
  split; [|split].
  - rewrite ofKind_result with (kn := bot_product_list) by reflexivity.
    unfold ofKind. rewrite filter_filter_none by by_kind. reflexivity.
  - unfold statusKinds.
    repeat (apply Forall_cons;
            [erewrite ofKind_result by reflexivity;
             unfold ofKind; rewrite filter_filter_none by by_kind;
             reflexivity|]).
    apply Forall_nil.
  - rewrite ofKind_result with (kn := bot_product_list) by reflexivity.
    unfold ofKind. rewrite filter_filter_keep by by_kind.
    apply app_nil_r.
Qed.

Lemma updateSessionId_cartState (s : option JSString) (st : Model) :
  cartState (updateSessionId s st) = cartState st.
Proof. destruct s as [s|]; simpl; [destruct (truthy s)|]; reflexivity. Qed.

Lemma handleRawCart_cartState (a : JSString) (session_id : option JSString)
  (cart_items : list RawCartItem) (cart_summary : option RawCartSummary)
  (st : Model) :
  cartState (handleRawCart a session_id cart_items cart_summary st) =
  match cartOutcome cart_items cart_summary (clock st) with
  | CartShown cartContext _ =>
      {| itemCount := or_zero (total_items cartContext);
         total := or_zero (total_value cartContext) |}
  | _ => cartState st
  end.
Proof.
  unfold handleRawCart, cartOutcome, now.
  rewrite updateSessionId_clock.
  destruct (normalizeCartSummary cart_items cart_summary (clock st))
    as [[[[[|i its]|] ti tv ie]|] clk];
    try (simpl; rewrite ?updateSessionId_cartState; reflexivity).
  destruct (transformRawCartSummary
              {| rcs_items := Some (i :: its); rcs_total_items := ti;
                 rcs_total_value := tv; rcs_is_empty := ie |}); simpl;
    rewrite ?updateSessionId_cartState; reflexivity.
Qed.

Lemma handleRawCartThrows_outcome (cart_items : list RawCartItem)
  (cart_summary : option RawCartSummary) (st : Model) :
  handleRawCartThrows cart_items cart_summary st =
  match cartOutcome cart_items cart_summary (clock st) with
  | CartThrown _ => true
  | _ => false
  end.
Proof.
  unfold handleRawCartThrows, cartOutcome.
  destruct (normalizeCartSummary cart_items cart_summary (clock st))
    as [[[[[|i its]|] ti tv ie]|] clk]; cbn [fst]; try reflexivity.
  destruct (transformRawCartSummary
              {| rcs_items := Some (i :: its); rcs_total_items := ti;
                 rcs_total_value := tv; rcs_is_empty := ie |});
    reflexivity.
Qed.

Lemma synthesizeItems_ok (cart_items : list RawCartItem) (clk : nat) :
  existsb synthesisThrows cart_items = false ->
  exists its,
    synthesizeItems cart_items clk =
    (Some its, clk + List.length (filter lacksId cart_items)) /\
    Forall2 (fun ci it => exists k, it = synthesizeItem ci (Date_now k))
      cart_items its.
Proof.
  revert clk; induction cart_items as [|ci l IH]; intros clk H.
  - exists []. cbn. rewrite Nat.add_0_r. split; constructor.
  - cbn [existsb] in H. apply orb_false_iff in H as [Hci Hl].
    cbn [synthesizeItems filter]. rewrite Hci.
    destruct (IH (if lacksId ci then S clk else clk) Hl) as [its [E F]].
    rewrite E. exists (synthesizeItem ci (Date_now clk) :: its).
    split.
    + cbn [option_map]. f_equal.
      destruct (lacksId ci); cbn [List.length]; lia.
    + constructor; [eexists; reflexivity|exact F].
Qed.

Lemma synthesizeItems_throws (cart_items : list RawCartItem) (clk : nat) :
  existsb synthesisThrows cart_items = true ->
  fst (synthesizeItems cart_items clk) = None.
Proof.
  revert clk; induction cart_items as [|ci l IH]; intros clk H;
    [discriminate|].
  cbn [existsb] in H. cbn [synthesizeItems].
  destruct (synthesisThrows ci); [reflexivity|].
  cbn [orb] in H. specialize (IH (if lacksId ci then S clk else clk) H).
  destruct (synthesizeItems l (if lacksId ci then S clk else clk))
    as [[its|] clk']; [discriminate|reflexivity].
Qed.

(** The summary [handleRawCart] goes on with. *)
Lemma normalizeCartSummary_cases (cart_items : list RawCartItem)
  (cart_summary : option RawCartSummary) (clk0 : nat) :
  (exists rawItems ti tv ie clk,
     normalizeCartSummary cart_items cart_summary clk0 =
     (Some {| rcs_items := Some rawItems; rcs_total_items := ti;
              rcs_total_value := tv; rcs_is_empty := ie |}, clk) /\
     rawItems <> [] /\
     cartItemsFrom cart_items cart_summary clk0 rawItems clk /\
     or_zero ti = cartTotal rcs_total_items sumQuantity cart_summary rawItems /\
     or_zero tv = cartTotal rcs_total_value sumSubtotal cart_summary rawItems /\
     match ie with
     | Some b => b
     | None => false
     end = flaggedEmpty cart_summary) \/
  (nothingToShow cart_items cart_summary /\
   hasItems (summaryItems (fst (normalizeCartSummary cart_items cart_summary
                                  clk0))) = false).
Proof.
  unfold normalizeCartSummary, cartItemsFrom, nothingToShow, cartTotal,
    flaggedEmpty.
  destruct (hasItems (summaryItems cart_summary)) eqn:Hs; cbn [negb andb].
  - left. destruct cart_summary as [[[[|i its]|] ti tv ie]|];
      try discriminate Hs.
    exists (i :: its), ti, tv, ie, clk0.
    cbn [summaryItems rcs_items rcs_total_items rcs_total_value rcs_is_empty
         hasItems andb].
    split; [reflexivity|]. split; [discriminate|]. split; [auto|].
    split; [destruct ti; reflexivity|].
    split; [destruct tv; reflexivity|reflexivity].
  - destruct cart_items as [|ci l]; cbn [hasItems].
    { right. cbn [fst]. auto. }
    destruct (existsb synthesisThrows (ci :: l)) eqn:Ht.
    + right. pose proof (synthesizeItems_throws (ci :: l) clk0 Ht) as E.
      destruct (synthesizeItems (ci :: l) clk0) as [[its|] clk];
        [discriminate E|].
      cbn [fst]. auto.
    + left. destruct (synthesizeItems_ok (ci :: l) clk0 Ht) as [its [E F]].
      rewrite E. do 5 eexists. split; [reflexivity|].
      split; [inversion F; discriminate|].
      split; [repeat split; [discriminate|exact F]|].
      destruct cart_summary as [[its' ti tv ie]|];
        [|repeat split].
      cbn [summaryItems rcs_items] in Hs.
      cbn [rcs_items rcs_total_items rcs_total_value rcs_is_empty].
      rewrite Hs. cbn [andb].
      split; [destruct ti; reflexivity|].
      split; [destruct tv; reflexivity|reflexivity].
Qed.

Lemma cartOutcome_cases (cart_items : list RawCartItem)
  (cart_summary : option RawCartSummary) (clk0 : nat) :
  match cartOutcome cart_items cart_summary clk0 with
  | CartShown ctx clk =>
      exists rawItems,
        cartItemsFrom cart_items cart_summary clk0 rawItems clk /\
        rawItems <> [] /\
        existsb toCartItemThrows rawItems = false /\
        ctx =
        {| items := Some (map toCartItem rawItems);
           total_items :=
             Some (cartTotal rcs_total_items sumQuantity cart_summary
                     rawItems);
           total_value :=
             Some (cartTotal rcs_total_value sumSubtotal cart_summary
                     rawItems);
           is_empty := Some (flaggedEmpty cart_summary);
           ready_for_checkout := Some (negb (flaggedEmpty cart_summary)) |}
  | CartSwept _ => nothingToShow cart_items cart_summary
  | CartThrown clk =>
      exists rawItems,
        cartItemsFrom cart_items cart_summary clk0 rawItems clk /\
        existsb toCartItemThrows rawItems = true
  end.
Proof.
  unfold cartOutcome.
  destruct (normalizeCartSummary_cases cart_items cart_summary clk0)
    as [[rawItems [ti [tv [ie [clk [E [Hne [Hfrom [Hti [Htv Hie]]]]]]]]]]
       |[Hn He]].
  - rewrite E. destruct rawItems as [|i its]; [contradiction|].
    unfold transformRawCartSummary.
    cbn [rcs_items rcs_total_items rcs_total_value rcs_is_empty].
    destruct (existsb toCartItemThrows (i :: its)) eqn:Ht.
    + exists (i :: its). auto.
    + exists (i :: its).
      split; [exact Hfrom|]. split; [exact Hne|]. split; [exact Ht|].
      rewrite Hti, Htv, <- Hie.
      cbn [map List.length Nat.eqb Nat.ltb Nat.leb].
      destruct ie as [[|]|]; reflexivity.
  - destruct (normalizeCartSummary cart_items cart_summary clk0)
      as [[[[[|i its]|] ti tv ie]|] clk]; cbn in He;
      try discriminate He; exact Hn.
Qed.

(** X10.  A [raw_cart] event, with [currentStreamIdRef] holding the open
    request.  The cart is made from the items of the summary when it lists
    any, and otherwise from [cart_items], an entry without an id taking
    the time for one.  When there are items and each can be shown, the
    active chat gets exactly one cart view of the stream, with one item
    for each of them, none of the stream's status lines is left and its
    product lists are kept; the totals of the cart are those of the
    summary, or the sums over the items where the summary has none and the
    items were made from [cart_items]; the cart is ready for checkout
    exactly when it is not flagged empty, and the counter of the header
    shows its totals.
    When there is nothing to show (no item in the summary, and
    [cart_items] empty or with an entry no item can be made from), the
    header is left as it is and only the [thinking] and [tool executing]
    entries of the stream are removed.  When an item cannot be shown, the
    callback throws: the transcript and the header are left as they are.
    The other chats are unchanged. *)
Theorem cart_event_shows_one_cart (a sid : JSString)
  (session_id : option JSString) (cart_items : list RawCartItem)
  (cart_summary : option RawCartSummary) (st : Model) :
  currentStreamIdRef st = Some sid ->
  truthy sid = true ->
  let st' := handleRawCart a session_id cart_items cart_summary st in
  let throws := handleRawCartThrows cart_items cart_summary st in
  match cartOutcome cart_items cart_summary (clock st) with
  | CartShown ctx clk =>
      (exists rawItems,
         cartItemsFrom cart_items cart_summary (clock st) rawItems clk /\
         rawItems <> [] /\
         existsb toCartItemThrows rawItems = false /\
         ctx =
         {| items := Some (map toCartItem rawItems);
            total_items :=
              Some (cartTotal rcs_total_items sumQuantity cart_summary
                      rawItems);
            total_value :=
              Some (cartTotal rcs_total_value sumSubtotal cart_summary
                      rawItems);
            is_empty := Some (flaggedEmpty cart_summary);
            ready_for_checkout :=
              Some (negb (flaggedEmpty cart_summary)) |}) /\
      throws = false /\
      cartState st' =
      {| itemCount := or_zero (total_items ctx);
         total := or_zero (total_value ctx) |} /\
      Forall2 (fun c c' =>
                 if JS.eqb (cs_id c) a
                 then ofKind bot_cart_view sid (messages c') =
                      [ {| msg_id := js "raw_cart" ++ decimal (Date_now clk);
                           body := MCartView ctx;
                           streamId := Some sid |} ] /\
                      Forall (fun k => ofKind k sid (messages c') = [])
                        statusKinds /\
                      ofKind bot_product_list sid (messages c') =
                      ofKind bot_product_list sid (messages c)
                 else c' = c)
        (chats st) (chats st')
  | CartSwept _ =>
      nothingToShow cart_items cart_summary /\
      throws = false /\
      cartState st' = cartState st /\
      Forall2 (fun c c' =>
                 if JS.eqb (cs_id c) a
                 then messages c' =
                      filter (keepForSweep (Some sid)) (messages c)
                 else c' = c)
        (chats st) (chats st')
  | CartThrown clk =>
      (exists rawItems,
         cartItemsFrom cart_items cart_summary (clock st) rawItems clk /\
         existsb toCartItemThrows rawItems = true) /\
      throws = true /\
      cartState st' = cartState st /\
      chats st' = chats st
  end.
Proof.
  intros Hcur Hsid. cbv zeta.
  rewrite handleRawCart_cartState, handleRawCart_chats,
    handleRawCartThrows_outcome, Hcur.
  cbn [or_undefined]. rewrite Hsid.
  pose proof (cartOutcome_cases cart_items cart_summary (clock st)) as Hc.
  destruct (cartOutcome cart_items cart_summary (clock st)) as [ctx clk|clk|clk].
  - split; [exact Hc|]. split; [reflexivity|]. split; [reflexivity|].
    eapply Forall2_impl; [|apply updateActive_Forall2].
    intros c c'. cbv beta. destruct (JS.eqb (cs_id c) a); [|auto].
    intros [_ [_ ->]].
    split; [|split].
    + rewrite ofKind_result with (kn := bot_cart_view) by reflexivity.
      unfold ofKind. rewrite filter_filter_none by by_kind. reflexivity.
    + unfold statusKinds.
      repeat (apply Forall_cons;
              [erewrite ofKind_result by reflexivity;
               unfold ofKind; rewrite filter_filter_none by by_kind;
               reflexivity|]).
      apply Forall_nil.
    + rewrite ofKind_result with (kn := bot_cart_view) by reflexivity.
      unfold ofKind. rewrite filter_filter_keep by by_kind.
      apply app_nil_r.
  - split; [exact Hc|]. split; [reflexivity|]. split; [reflexivity|].
    eapply Forall2_impl; [|apply updateActive_Forall2].
    intros c c'. cbv beta. destruct (JS.eqb (cs_id c) a); [|auto].
    intros [_ [_ ->]]. reflexivity.
  - split; [exact Hc|]. split; [reflexivity|]. split; [reflexivity|].
    apply updateActive_same.
Qed.

End Results.

(** ** The loading flag *)

Ltac cart_cases :=
  unfold handleRawCart, now;
  match goal with
  | |- context [normalizeCartSummary ?ci ?cs ?k] =>
      destruct (normalizeCartSummary ci cs k)
        as [[[[[|?i ?its]|] ?ti ?tv ?ie]|] ?clk]
  end;
  try match goal with
      | |- context [transformRawCartSummary ?x] =>
          destruct (transformRawCartSummary x)
      end.

Section Loading.

Context {P : Payloads} {R : Runtime}.

Lemma updateSessionId_isLoading (s : option JSString) (st : Model) :
  isLoading (updateSessionId s st) = isLoading st.
Proof. destruct s as [s|]; simpl; [destruct (truthy s)|]; reflexivity. Qed.

Lemma handleResponse_isLoading (a : JSString) (response : ResponseEvent)
  (st : Model) :
  isLoading (handleResponse a response st) = isLoading st.
Proof.
  unfold handleResponse.
  destruct (includes (re_content response)
              (js "initialized a new shopping session") ||
            includes (re_content response) (js "Session Ready")).
  - simpl. apply updateSessionId_isLoading.
  - destruct (includes (re_content response)
                (js "Your order has been initialized")).
    + unfold now; simpl.
      match goal with
      | |- context [paymentUpdate ?x ?c ?t ?m ?cs ?k] =>
          destruct (paymentUpdate x c t m cs k)
      end.
      simpl. apply updateSessionId_isLoading.
    + destruct (re_data response) as [[? ? [?|] ? ? ?]|]; simpl;
        apply updateSessionId_isLoading.
Qed.

Lemma dispatch_isLoading (r : nat) (a : JSString) (data : StreamingResponse)
  (st : Model) :
  isLoading (fst (dispatch r a data st)) = isLoading st /\
  loadingAfter (isLoading st) (snd (dispatch r a data st)) = isLoading st.
Proof.
  destruct data; cbn [dispatch fst snd]; (split; [|reflexivity]).
  - unfold handleThinking, now; simpl. apply updateSessionId_isLoading.
  - unfold handleConversationChunk, now; simpl.
    apply updateSessionId_isLoading.
  - unfold handleToolStart, now; simpl. apply updateSessionId_isLoading.
  - apply handleResponse_isLoading.
  - unfold handleRawProducts, now.
    destruct products as [[|p ps]|]; simpl; apply updateSessionId_isLoading.
  - cart_cases; simpl; apply updateSessionId_isLoading.
  - reflexivity.
Qed.

Lemma loadingAfter_app (b : bool) (l l' : list Action) :
  loadingAfter b (l ++ l') = loadingAfter (loadingAfter b l) l'.
Proof. apply fold_left_app. Qed.

Lemma process_line_isLoading (r : nat) (a line : JSString) (st : Model) :
  isLoading (fst (fst (process_line r a line st))) =
  loadingAfter (isLoading st) (snd (fst (process_line r a line st))).
Proof.
  unfold process_line.
  destruct (negb (truthy (trim line)) || startsWith (trim line) (js ":"));
    [reflexivity|].
  destruct (isDoneMarker (trim line)); [reflexivity|].
  destruct (startsWith (trim line) (js "data:")); [|reflexivity].
  destruct (JSON_parse (trim (substring 5 (trim line)))) as [data|];
    [|reflexivity].
  destruct (dispatch_isLoading r a data st) as [H1 H2].
  destruct (dispatch r a data st) as [st' acts]. cbn [fst snd] in *.
  rewrite H1.
  change (Parse r (trim (substring 5 (trim line))) :: acts ++ ?l)
    with ([Parse r (trim (substring 5 (trim line)))] ++ acts ++ l).
  rewrite !loadingAfter_app. cbn [loadingAfter fold_left] in *.
  rewrite H2. destruct (callbackThrows data st); reflexivity.
Qed.

Lemma process_lines_isLoading (r : nat) (a : JSString)
  (lines : list JSString) (st : Model) :
  isLoading (fst (fst (process_lines r a lines st))) =
  loadingAfter (isLoading st) (snd (fst (process_lines r a lines st))).
Proof.
  revert st; induction lines as [|line rest IH]; intros st; simpl;
    [reflexivity|].
  pose proof (process_line_isLoading r a line st) as H1.
  destruct (process_line r a line st) as [[st1 acts1] [|]]; simpl in *;
    [exact H1|].
  specialize (IH st1).
  destruct (process_lines r a rest st1) as [[st2 acts2] ret]; simpl in *.
  rewrite loadingAfter_app, <- H1. exact IH.
Qed.

Lemma process_chunk_isLoading (r : nat) (a : JSString)
  (lines : list JSString) (st : Model) :
  isLoading (fst (fst (process_chunk r a lines st))) =
  loadingAfter (isLoading st) (snd (fst (process_chunk r a lines st))).
Proof.
  rewrite process_chunk_eq. cbv zeta. cbn [fst snd].
  apply (process_lines_isLoading r a lines
           (setRenderClock (clock (fst (fst (process_lines r a lines st))))
              st)).
Qed.

Lemma handleStreamError_isLoading (a : JSString) (chats0 : list ChatSession)
  (st : Model) :
  isLoading (handleStreamError a chats0 st) = false.
Proof.
  unfold handleStreamError.
  destruct (find (fun c => JS.eqb (cs_id c) a) chats0) as [c|];
    [destruct (Nat.ltb 0 (List.length (messages c)))|]; reflexivity.
Qed.

Lemma settle_loading (r : nat) (s : Settlement) (w : World) :
  exists acts,
    log (settle r s w) = log w ++ acts /\
    isLoading (ui (settle r s w)) = loadingAfter (isLoading (ui w)) acts.
Proof.
  assert (Hnone : exists acts,
             log w = log w ++ acts /\
             isLoading (ui w) = loadingAfter (isLoading (ui w)) acts)
    by (exists []; rewrite app_nil_r; auto).
  unfold settle. destruct (nth_error (requests w) r) as [q|]; [|exact Hnone].
  assert (Hcatch : forall e n,
             exists acts,
               log (catch r q e n w) = log w ++ acts /\
               isLoading (ui (catch r q e n w)) =
               loadingAfter (isLoading (ui w)) acts).
  { intros e n. unfold catch.
    destruct e; [destruct (JS.eqb n (js "AbortError"))|];
      eexists; (split; [reflexivity|]); cbn [finish ui];
      rewrite ?handleStreamError_isLoading; reflexivity. }
  assert (Hloop : forall b st acts,
             isLoading st = loadingAfter (isLoading (ui w)) acts ->
             exists acts',
               log (loop r b st acts w) = log w ++ acts' /\
               isLoading (ui (loop r b st acts w)) =
               loadingAfter (isLoading (ui w)) acts').
  { intros b st acts H. unfold loop.
    destruct (isStreamingRef w); exists acts; auto. }
  destruct (phase q); [| |exact Hnone];
    destruct (if aborted q then Rejected true (js "AbortError") else s)
      as [ok hasReader|text| |e n]; auto.
  - destruct ok; cbn [negb]; [|auto]. destruct hasReader; cbn [negb]; auto.
  - pose proof (process_chunk_isLoading r (rq_activeChatId q)
                  (removelast (split (buffer ++ text))) (ui w)) as H.
    destruct (process_chunk r (rq_activeChatId q)
                (removelast (split (buffer ++ text))) (ui w))
      as [[st acts] [|]]; cbn [fst snd] in H; [|auto].
    exists acts. auto.
  - eexists. split; [reflexivity|]. reflexivity.
Qed.

Lemma step_loading (e : Event) (w : World) :
  exists acts,
    log (step e w) = log w ++ acts /\
    isLoading (ui (step e w)) = loadingAfter (isLoading (ui w)) acts.
Proof.
  destruct e as [msg ap rnd|r s|id]; cbn [step].
  - destruct (sendMessage_facts msg ap rnd w) as [_ [_ [_ [_ [Hl _]]]]].
    eexists. split; [exact Hl|].
    rewrite loadingAfter_app.
    unfold sendMessage, sendStreamMessage, now.
    destruct ap; destruct (abortControllerRef w); reflexivity.
  - apply settle_loading.
  - exists []. rewrite app_nil_r. auto.
Qed.

Lemma run_loading (es : list Event) (w : World) :
  exists acts,
    log (run es w) = log w ++ acts /\
    isLoading (ui (run es w)) = loadingAfter (isLoading (ui w)) acts.
Proof.
  revert w; induction es as [|e es IH]; intros w.
  - exists []. rewrite app_nil_r. auto.
  - unfold run in *. cbn [fold_left].
    destruct (step_loading e w) as [acts1 [Hl1 Hi1]].
    destruct (IH (step e w)) as [acts2 [Hl2 Hi2]].
    exists (acts1 ++ acts2). split.
    + rewrite Hl2, Hl1. symmetry. apply app_assoc.
    + rewrite Hi2, Hi1. symmetry. apply loadingAfter_app.
Qed.

(** X11.  The loading flag follows the log.  Over any run, the flag is raised by
    each request sent and lowered by each call of [onComplete] or
    [onError], and by nothing else: no event of a stream, no abort and no
    call that returns without a callback (a cancelled call, or one whose
    loop is not entered) changes it. *)
Theorem loading_flag_follows_log (es : list Event) (w : World) :
  isLoading (ui (run es w)) =
  loadingAfter (isLoading (ui w)) (emitted w (run es w)).
Proof.
  destruct (run_loading es w) as [acts [Hl Hi]].
  unfold emitted. rewrite Hl, Hi. f_equal.
  rewrite skipn_app, skipn_all, Nat.sub_diag. reflexivity.
Qed.

End Loading.

(** ** The session identifier *)

Section Session.

Context {P : Payloads} {R : Runtime}.

Lemma updateSessionId_sessionId (s : option JSString) (st : Model) :
  sessionId (updateSessionId s st) =
  match s with
  | Some x => if truthy x then Some x else sessionId st
  | None => sessionId st
  end.
Proof. destruct s as [s|]; simpl; [destruct (truthy s)|]; reflexivity. Qed.

Lemma handleResponse_sessionId (a : JSString) (response : ResponseEvent)
  (st : Model) :
  sessionId (handleResponse a response st) =
  sessionId (updateSessionId (re_session_id response) st).
Proof.
  unfold handleResponse.
  destruct (includes (re_content response)
              (js "initialized a new shopping session") ||
            includes (re_content response) (js "Session Ready")).
  - reflexivity.
  - destruct (includes (re_content response)
                (js "Your order has been initialized")).
    + unfold now; simpl.
      match goal with
      | |- context [paymentUpdate ?x ?c ?t ?m ?cs ?k] =>
          destruct (paymentUpdate x c t m cs k)
      end.
      reflexivity.
    + destruct (re_data response) as [[? ? [?|] ? ? ?]|]; reflexivity.
Qed.

Lemma dispatch_sessionId (r : nat) (a : JSString) (data : StreamingResponse)
  (st : Model) :
  sessionId (fst (dispatch r a data st)) =
  match announced data with
  | Some s' => Some s'
  | None => sessionId st
  end.
Proof.
  assert (H : forall s,
             sessionId (updateSessionId s st) =
             match match s with
                   | Some x => if truthy x then Some x else None
                   | None => None
                   end with
             | Some s' => Some s'
             | None => sessionId st
             end).
  { intros s. rewrite updateSessionId_sessionId.
    destruct s as [x|]; [destruct (truthy x)|]; reflexivity. }
  destruct data; unfold announced; cbv zeta; cbn [dispatch fst];
    try rewrite <- H.
  - reflexivity.
  - reflexivity.
  - reflexivity.
  - apply handleResponse_sessionId.
  - unfold handleRawProducts, now.
    destruct products as [[|p ps]|]; reflexivity.
  - cart_cases; reflexivity.
  - reflexivity.
Qed.

Lemma sessionsFollow_app (s s1 s2 : option JSString) (l l' : list Action) :
  sessionsFollow s l s1 -> sessionsFollow s1 l' s2 ->
  sessionsFollow s (l ++ l') s2.
Proof.
  revert s; induction l as [|act l IH]; intros s H1 H2; simpl in *.
  - subst s1. exact H2.
  - destruct act; try (apply IH; assumption).
    destruct H1 as [E H1]. split; [exact E|]. apply IH; assumption.
Qed.

Lemma sessionsFollow_callbacks (r : nat) (a : JSString)
  (data : StreamingResponse) (st : Model) (s : option JSString) :
  sessionsFollow s (snd (dispatch r a data st)) s.
Proof. destruct data; reflexivity. Qed.

Lemma process_line_session (r : nat) (a line : JSString) (st : Model) :
  sessionsFollow (sessionId st) (snd (fst (process_line r a line st)))
    (sessionId (fst (fst (process_line r a line st)))).
Proof.
  unfold process_line.
  destruct (negb (truthy (trim line)) || startsWith (trim line) (js ":"));
    [reflexivity|].
  destruct (isDoneMarker (trim line)); [reflexivity|].
  destruct (startsWith (trim line) (js "data:")); [|reflexivity].
  destruct (JSON_parse (trim (substring 5 (trim line)))) as [data|] eqn:E.
  - pose proof (dispatch_sessionId r a data st) as H1.
    pose proof (sessionsFollow_callbacks r a data st) as H2.
    destruct (dispatch r a data st) as [st' acts]. cbn [fst snd] in *.
    cbn [sessionsFollow]. unfold announce. rewrite E, H1.
    eapply sessionsFollow_app; [apply H2|].
    destruct (callbackThrows data st); reflexivity.
  - cbn [fst snd sessionsFollow]. unfold announce. rewrite E. reflexivity.
Qed.

Lemma process_lines_session (r : nat) (a : JSString)
  (lines : list JSString) (st : Model) :
  sessionsFollow (sessionId st) (snd (fst (process_lines r a lines st)))
    (sessionId (fst (fst (process_lines r a lines st)))).
Proof.
  revert st; induction lines as [|line rest IH]; intros st; simpl;
    [reflexivity|].
  pose proof (process_line_session r a line st) as H1.
  destruct (process_line r a line st) as [[st1 acts1] [|]]; simpl in *;
    [exact H1|].
  specialize (IH st1).
  destruct (process_lines r a rest st1) as [[st2 acts2] ret]; simpl in *.
  eapply sessionsFollow_app; eassumption.
Qed.

Lemma process_chunk_session (r : nat) (a : JSString)
  (lines : list JSString) (st : Model) :
  sessionsFollow (sessionId st) (snd (fst (process_chunk r a lines st)))
    (sessionId (fst (fst (process_chunk r a lines st)))).
Proof.
  rewrite process_chunk_eq. cbv zeta. cbn [fst snd].
  apply (process_lines_session r a lines
           (setRenderClock (clock (fst (fst (process_lines r a lines st))))
              st)).
Qed.

Lemma handleStreamError_sessionId (a : JSString)
  (chats0 : list ChatSession) (st : Model) :
  sessionId (handleStreamError a chats0 st) = sessionId st.
Proof.
  unfold handleStreamError.
  destruct (find (fun c => JS.eqb (cs_id c) a) chats0) as [c|];
    [destruct (Nat.ltb 0 (List.length (messages c)))|]; reflexivity.
Qed.

Lemma settle_session (r : nat) (s : Settlement) (w : World) :
  exists acts,
    log (settle r s w) = log w ++ acts /\
    sessionsFollow (sessionId (ui w)) acts (sessionId (ui (settle r s w))).
Proof.
  assert (Hnone : exists acts,
             log w = log w ++ acts /\
             sessionsFollow (sessionId (ui w)) acts (sessionId (ui w)))
    by (exists []; rewrite app_nil_r; split; reflexivity).
  unfold settle. destruct (nth_error (requests w) r) as [q|]; [|exact Hnone].
  assert (Hcatch : forall e n,
             exists acts,
               log (catch r q e n w) = log w ++ acts /\
               sessionsFollow (sessionId (ui w)) acts
                 (sessionId (ui (catch r q e n w)))).
  { intros e n. unfold catch.
    destruct e; [destruct (JS.eqb n (js "AbortError"))|];
      eexists; (split; [reflexivity|]); cbn [finish ui sessionsFollow];
      rewrite ?handleStreamError_sessionId; reflexivity. }
  assert (Hloop : forall b st acts,
             sessionsFollow (sessionId (ui w)) acts (sessionId st) ->
             exists acts',
               log (loop r b st acts w) = log w ++ acts' /\
               sessionsFollow (sessionId (ui w)) acts'
                 (sessionId (ui (loop r b st acts w)))).
  { intros b st acts H. unfold loop.
    destruct (isStreamingRef w); exists acts; auto. }
  destruct (phase q); [| |exact Hnone];
    destruct (if aborted q then Rejected true (js "AbortError") else s)
      as [ok hasReader|text| |e n]; auto.
  - destruct ok; cbn [negb]; [|auto]. destruct hasReader; cbn [negb]; auto.
    apply Hloop. reflexivity.
  - pose proof (process_chunk_session r (rq_activeChatId q)
                  (removelast (split (buffer ++ text))) (ui w)) as H.
    destruct (process_chunk r (rq_activeChatId q)
                (removelast (split (buffer ++ text))) (ui w))
      as [[st acts] [|]]; cbn [fst snd] in H; [|auto].
    exists acts. auto.
  - eexists. split; reflexivity.
Qed.

Lemma step_session (e : Event) (w : World) :
  exists acts,
    log (step e w) = log w ++ acts /\
    sessionsFollow (sessionId (ui w)) acts (sessionId (ui (step e w))).
Proof.
  destruct e as [msg ap rnd|r s|id]; cbn [step].
  - destruct (sendMessage_facts msg ap rnd w) as [_ [_ [_ [_ [Hl _]]]]].
    eexists. split; [exact Hl|].
    unfold sendMessage, sendStreamMessage, now.
    destruct ap; destruct (abortControllerRef w); simpl; auto.
  - apply settle_session.
  - exists []. rewrite app_nil_r. split; reflexivity.
Qed.

Lemma run_session (es : list Event) (w : World) :
  exists acts,
    log (run es w) = log w ++ acts /\
    sessionsFollow (sessionId (ui w)) acts (sessionId (ui (run es w))).
Proof.
  revert w; induction es as [|e es IH]; intros w.
  - exists []. rewrite app_nil_r. split; reflexivity.
  - unfold run in *. cbn [fold_left].
    destruct (step_session e w) as [acts1 [Hl1 Hi1]].
    destruct (IH (step e w)) as [acts2 [Hl2 Hi2]].
    exists (acts1 ++ acts2). split.
    + rewrite Hl2, Hl1. symmetry. apply app_assoc.
    + eapply sessionsFollow_app; eassumption.
Qed.

(** X12.  The session identifier is carried on.  Over any run, every request is
    sent with the session identifier held when it is sent: the one of the
    start, replaced by each non-empty [session_id] of a record that
    parsed, of whatever kind and whichever request or chat it belongs to.
    Nothing else changes the identifier: no marker, no error, no
    cancellation. *)
Theorem session_id_is_carried_on (es : list Event) (w : World) :
  sessionsFollow (sessionId (ui w)) (emitted w (run es w))
    (sessionId (ui (run es w))).
Proof.
  destruct (run_session es w) as [acts [Hl Hi]].
  unfold emitted. rewrite Hl.
  rewrite skipn_app, skipn_all, Nat.sub_diag. exact Hi.
Qed.

End Session.

(** ** Cancelling, switching and sending again *)

Section Calls.

Context {P : Payloads} {R : Runtime}.

(** X14.  [abort] of the hook silences the call in the ref.  The controller of
    that call is aborted, and nothing else happens: the state of the chat
    is as it was, and whatever comes afterwards the call calls no callback
    again and its settlements leave the state alone.  In particular
    neither [onComplete] nor [onError] runs for it. *)
Theorem abort_silences_current_call (w : World) (r0 : nat) (q0 : Request)
  (es : list Event) :
  abortControllerRef w = Some r0 ->
  nth_error (requests w) r0 = Some q0 ->
  emitted w (abort w) = [Abort r0] /\
  ui (abort w) = ui w /\
  filter (callbackOf r0) (log (run es (abort w))) =
  filter (callbackOf r0) (log w) /\
  forall s, ui (settle r0 s (abort w)) = ui w.
Proof.
  intros Href Hq.
  assert (Hq' : nth_error (requests (abort w)) r0 = Some (setAborted q0)).
  { unfold abort. rewrite Href. cbn [requests].
    rewrite nth_error_update, Nat.eqb_refl, Hq. reflexivity. }
  assert (Hui : ui (abort w) = ui w)
    by (unfold abort; rewrite Href; reflexivity).
  assert (Hlog : log (abort w) = log w ++ [Abort r0])
    by (unfold abort; rewrite Href; reflexivity).
  split; [|split; [|split]].
  - unfold emitted. rewrite Hlog, skipn_app, skipn_all, Nat.sub_diag.
    reflexivity.
  - exact Hui.
  - rewrite run_cancelled_silent
      by (exists (setAborted q0); split; [exact Hq'|reflexivity]).
    rewrite Hlog, filter_app. cbn. apply app_nil_r.
  - intros s.
    destruct (@settle_aborted_ui P R r0 s (abort w) (setAborted q0) Hq'
                eq_refl) as [H _].
    rewrite H. exact Hui.
Qed.

Lemma Forall_update {A : Type} (Q : A -> Prop) (f : A -> A) (l : list A)
  (i : nat) :
  (forall x, Q x -> Q (f x)) -> Forall Q l -> Forall Q (update i f l).
Proof.
  intros Hf H. revert i. induction H as [|x l Hx H IH]; intros [|i]; simpl;
    constructor; auto.
Qed.

Lemma step_keeps_closure (r : nat) (e : Event) (w : World) (q : Request) :
  nth_error (requests w) r = Some q ->
  exists q', nth_error (requests (step e w)) r = Some q' /\
             rq_activeChatId q' = rq_activeChatId q /\
             rq_chats q' = rq_chats q.
Proof.
  intros Hq. destruct e as [msg ap rnd|r' s|id]; cbn [step].
  - destruct (sendMessage_facts msg ap rnd w) as [_ [_ [_ [Hr _]]]].
    rewrite Hr.
    assert (Hlt : r < List.length (requests w))
      by (apply nth_error_Some; congruence).
    destruct (abortControllerRef w) as [r0|].
    + rewrite nth_error_app1 by (rewrite update_length; exact Hlt).
      rewrite nth_error_update, Hq.
      destruct (Nat.eqb r0 r); eexists; (split; [reflexivity|]); auto.
    + rewrite nth_error_app1 by exact Hlt. eauto.
  - destruct (settle_requests r' s w) as [->|[p ->]]; [eauto|].
    rewrite nth_error_update, Hq.
    destruct (Nat.eqb r' r); eexists; (split; [reflexivity|]); auto.
  - eauto.
Qed.

Lemma run_keeps_closure (r : nat) (es : list Event) (w : World)
  (q : Request) :
  nth_error (requests w) r = Some q ->
  exists q', nth_error (requests (run es w)) r = Some q' /\
             rq_activeChatId q' = rq_activeChatId q /\
             rq_chats q' = rq_chats q.
Proof.
  revert w q; induction es as [|e es IH]; intros w q Hq; [eauto|].
  unfold run in *. cbn [fold_left].
  destruct (step_keeps_closure r e w Hq) as [q1 [Hq1 [Ha1 Hc1]]].
  destruct (IH _ _ Hq1) as [q2 [Hq2 [Ha2 Hc2]]].
  exists q2. split; [exact Hq2|]. split; congruence.
Qed.

(** C10, as the code has it.  The callbacks of a call rewrite only the
    chat whose identifier they close over, which is the chat that was
    active when the message was sent, whichever chat is active when they
    run: after any dispatched event, after the sweep, after [onComplete]
    and after [onError], the chats are the same in number and order, and
    each chat with another identifier is unchanged, its message list
    included.  So it is with every resumption of the call, now and after
    any further events. *)
Theorem handlers_touch_only_chat_of_request (r : nat) (q : Request)
  (w : World) :
  nth_error (requests w) r = Some q ->
  let a := rq_activeChatId q in
  (forall (data : StreamingResponse) (st : Model),
      sameExcept a (chats st) (chats (fst (dispatch r a data st)))) /\
  (forall st : Model,
      sameExcept a (chats st) (chats (removeThinkingMessages a st)) /\
      sameExcept a (chats st) (chats (handleStreamComplete a st)) /\
      sameExcept a (chats st)
        (chats (handleStreamError a (rq_chats q) st))) /\
  (forall (es : list Event) (s : Settlement),
      sameExcept a (chats (ui (run es w)))
        (chats (ui (settle r s (run es w))))) /\
  (forall (msg : JSString) (appendMessage : bool) (rnd : JSString),
      option_map rq_activeChatId
        (nth_error (requests (sendMessage msg appendMessage rnd w))
           (List.length (requests w))) =
      Some (activeChatId (ui w))).
Proof.
  intros Hq a.
  split; [intros data st; apply dispatch_sameExcept|].
  split.
  { intros st. split; [|split].
    - rewrite removeThinkingMessages_chats. apply updateActive_sameExcept.
    - rewrite handleStreamComplete_chats. apply updateActive_sameExcept.
    - rewrite handleStreamError_chats. apply updateActive_sameExcept. }
  split.
  { intros es s.
    destruct (run_keeps_closure r es w Hq) as [q' [Hq' [Ha _]]].
    unfold a. rewrite <- Ha. apply settle_sameExcept. exact Hq'. }
  intros msg ap rnd.
  destruct (sendMessage_facts msg ap rnd w) as [_ [_ [_ [Hr _]]]].
  rewrite Hr.
  destruct (abortControllerRef w) as [r0|].
  - rewrite nth_error_app2 by (rewrite update_length; apply Nat.le_refl).
    rewrite update_length, Nat.sub_diag. reflexivity.
  - rewrite nth_error_app2 by apply Nat.le_refl.
    rewrite Nat.sub_diag. reflexivity.
Qed.

Lemma forallb_update {A : Type} (f : A -> bool) (g : A -> A) (l : list A)
  (i : nat) (x : A) :
  nth_error l i = Some x ->
  (f x = true -> f (g x) = true) ->
  forallb f l = true -> forallb f (update i g l) = true.
Proof.
  revert i; induction l as [|y l IH]; intros [|i] Hx Hg H;
    try discriminate Hx; cbn [update forallb] in *;
    apply andb_true_iff in H as [Hy Hl]; apply andb_true_iff.
  - injection Hx as ->. auto.
  - split; [exact Hy|]. apply IH; assumption.
Qed.

Lemma settle_streamsFrom (a : JSString) (r : nat) (s : Settlement)
  (w : World) :
  streamsFrom a w = true ->
  sameExcept a (chats (ui w)) (chats (ui (settle r s w))) /\
  streamsFrom a (settle r s w) = true.
Proof.
  unfold streamsFrom. intros Hall.
  destruct (nth_error (requests w) r) as [q|] eqn:Hq;
    [|unfold settle; rewrite Hq; split; [apply sameExcept_refl|exact Hall]].
  destruct (phase q) eqn:Hp.
  3:{ rewrite settle_returned
        by (unfold phaseOf; rewrite Hq; cbn; rewrite Hp; reflexivity).
      split; [apply sameExcept_refl|exact Hall]. }
  all: assert (Hkeep : forallb
                (fun q => negb (mayRewrite q) || JS.eqb (rq_activeChatId q) a)
                (requests (settle r s w)) = true)
    by (destruct (settle_requests r s w) as [->|[p ->]]; [exact Hall|];
        apply (forallb_update _ _ _ _ Hq); [|exact Hall];
        unfold mayRewrite; cbn [setPhase phase aborted rq_activeChatId];
        rewrite Hp; destruct p; destruct (aborted q); cbn; auto).
  all: split; [|exact Hkeep].
  all: destruct (aborted q) eqn:Hab;
    [destruct (settle_aborted_ui r s w Hq Hab) as [-> _];
     apply sameExcept_refl|].
  all: assert (Ha : rq_activeChatId q = a)
    by (apply nth_error_In in Hq;
        rewrite forallb_forall in Hall; specialize (Hall q Hq);
        unfold mayRewrite in Hall; rewrite Hp, Hab in Hall; cbn in Hall;
        apply eqb_eq; exact Hall).
  all: rewrite <- Ha; apply settle_sameExcept; exact Hq.
Qed.

(** X15.  A stream stays in the chat it was sent from.  While every call
    that can still run a callback (it has not returned and was not
    cancelled) was sent from chat [a], whatever the calls deliver and
    whichever chat is selected meanwhile, only chat [a] is rewritten:
    every other chat, the one on screen included, stays as it is.  Calls
    that have returned or were cancelled may have been sent from any
    chat. *)
Theorem stream_stays_in_its_chat (a : JSString) (es : list Event)
  (w : World) :
  streamsFrom a w = true ->
  forallb notSend es = true ->
  sameExcept a (chats (ui w)) (chats (ui (run es w))) /\
  streamsFrom a (run es w) = true.
Proof.
  revert w. induction es as [|e es IH]; intros w Hall Hes.
  - split; [apply sameExcept_refl|exact Hall].
  - cbn [forallb] in Hes. apply andb_true_iff in Hes as [He Hes].
    unfold run in *. cbn [fold_left].
    assert (Hstep : sameExcept a (chats (ui w)) (chats (ui (step e w))) /\
                    streamsFrom a (step e w) = true).
    { destruct e as [msg ap rnd|r s|id]; [discriminate| |]; cbn [step].
      - apply settle_streamsFrom. exact Hall.
      - split; [apply sameExcept_refl|exact Hall]. }
    destruct Hstep as [H1 H2].
    destruct (IH _ H2 Hes) as [H3 H4].
    split; [|exact H4].
    eapply sameExcept_trans; [exact H1|exact H3].
Qed.

(** X13.  Sending again while a call is open loses the answer.  Call [r1] holds
    the controller in the ref and has not returned when the next message
    is sent.  When [r1] resumes before the new request is answered, its
    [finally] block lowers [isStreamingRef]; the new call then finds the
    flag down when its response arrives, does not enter its read loop and
    returns: the response is never read, no callback runs for the new
    call, no later settlement of it has any effect, and the loading flag
    stays raised. *)
Theorem resend_mid_stream_is_never_read (w : World) (r1 : nat)
  (q1 : Request) (msg : JSString) (appendMessage : bool) (rnd : JSString)
  (s1 : Settlement) :
  abortControllerRef w = Some r1 ->
  nth_error (requests w) r1 = Some q1 ->
  phase q1 <> Returned ->
  let r2 := List.length (requests w) in
  let w' :=
    run [ SendMessage msg appendMessage rnd; Settle r1 s1;
          Settle r2 (FetchResolved true true) ] w in
  emitted w w' = [Abort r1; Fetch r2 msg (sessionId (ui w))] /\
  phaseOf r1 w' = Some Returned /\
  phaseOf r2 w' = Some Returned /\
  ui w' = ui (sendMessage msg appendMessage rnd w) /\
  isLoading (ui w') = true /\
  forall s, settle r2 s w' = w'.
Proof.
  intros Href Hq1 Hp1. cbv zeta. unfold run. cbn [fold_left step].
  set (w1 := sendMessage msg appendMessage rnd w).
  destruct (sendMessage_facts msg appendMessage rnd w)
    as [_ [_ [_ [Hreq [Hlog [_ Hstr]]]]]].
  fold w1 in Hreq, Hlog, Hstr. rewrite Href in Hreq, Hlog.
  assert (Hlt : r1 < List.length (requests w))
    by (apply nth_error_Some; congruence).
  assert (Hn1 : nth_error (requests w1) r1 = Some (setAborted q1)).
  { rewrite Hreq, nth_error_app1 by (rewrite update_length; exact Hlt).
    rewrite nth_error_update, Nat.eqb_refl, Hq1. reflexivity. }
  assert (Hn2 : nth_error (requests w1) (List.length (requests w)) =
                Some {| phase := AwaitFetch; aborted := false;
                        rq_activeChatId := activeChatId (ui w);
                        rq_chats := chats (ui w) |}).
  { rewrite Hreq, nth_error_app2 by (rewrite update_length; lia).
    rewrite update_length, Nat.sub_diag. reflexivity. }
  assert (Hw2 : settle r1 s1 w1 = finish r1 (ui w1) [] w1).
  { rewrite (settle_aborted r1 s1 w1 Hn1 eq_refl).
    cbn [setAborted phase]. destruct (phase q1); congruence. }
  rewrite Hw2.
  set (w2 := finish r1 (ui w1) [] w1).
  assert (Hne : Nat.eqb r1 (List.length (requests w)) = false)
    by (apply Nat.eqb_neq; lia).
  assert (Hn2' : nth_error (requests w2) (List.length (requests w)) =
                 Some {| phase := AwaitFetch; aborted := false;
                         rq_activeChatId := activeChatId (ui w);
                         rq_chats := chats (ui w) |}).
  { unfold w2, finish. cbn [requests].
    rewrite nth_error_update, Hne. exact Hn2. }
  assert (Hw3 : settle (List.length (requests w)) (FetchResolved true true)
                  w2 =
                finish (List.length (requests w)) (ui w1) [] w2).
  { unfold settle. rewrite Hn2'. cbn. reflexivity. }
  rewrite Hw3.
  set (w3 := finish (List.length (requests w)) (ui w1) [] w2).
  assert (Hlen2 : List.length (requests w2) = S (List.length (requests w))).
  { unfold w2, finish. cbn [requests].
    rewrite update_length, Hreq, length_app, update_length. cbn. lia. }
  assert (Hp2 : phaseOf (List.length (requests w)) w3 = Some Returned).
  { unfold phaseOf, w3, finish. cbn [requests].
    rewrite nth_error_update, Nat.eqb_refl, Hn2'. reflexivity. }
  split; [|split; [|split; [|split; [|split]]]].
  - unfold emitted, w3, w2, finish. cbn [log].
    rewrite !app_nil_r, Hlog, skipn_app, skipn_all, Nat.sub_diag.
    reflexivity.
  - unfold phaseOf, w3, finish. cbn [requests].
    rewrite nth_error_update.
    rewrite (proj2 (Nat.eqb_neq (List.length (requests w)) r1))
      by lia.
    unfold w2, finish. cbn [requests].
    rewrite nth_error_update, Nat.eqb_refl, Hn1. reflexivity.
  - exact Hp2.
  - reflexivity.
  - unfold w3, finish. cbn [ui]. unfold w1, sendMessage, sendStreamMessage,
      now.
    destruct appendMessage; destruct (abortControllerRef w); reflexivity.
  - intros s. apply settle_returned. exact Hp2.
Qed.

End Calls.

(** ** The sidebar *)

Section Sidebar.

Context {P : Payloads} {R : Runtime}.

Lemma NoDup_map_filter {A B : Type} (f : A -> B) (q : A -> bool)
  (l : list A) :
  NoDup (map f l) -> NoDup (map f (filter q l)).
Proof.
  induction l as [|x l IH]; simpl; intros H; [constructor|].
  inversion H as [|y l' Hn Hd]; subst.
  destruct (q x); simpl; [|apply IH; exact Hd].
  constructor; [|apply IH; exact Hd].
  intros Hin. apply Hn. apply in_map_iff in Hin as [z [Hz Hin]].
  apply filter_In in Hin as [Hin _].
  apply in_map_iff. exists z. auto.
Qed.

Lemma filter_other_nonempty (id : JSString) (cs : list ChatSession) :
  NoDup (map cs_id cs) ->
  2 <= List.length cs ->
  filter (fun c => negb (JS.eqb (cs_id c) id)) cs <> [].
Proof.
  destruct cs as [|c1 [|c2 cs]]; simpl; try lia. intros H _.
  destruct (JS.eqb (cs_id c1) id) eqn:E1; simpl; [|discriminate].
  destruct (JS.eqb (cs_id c2) id) eqn:E2; simpl; [|discriminate].
  apply eqb_eq in E1, E2. inversion H as [|x l Hn _]; subst.
  exfalso. apply Hn. left. congruence.
Qed.

Lemma find_filter {A : Type} (p q : A -> bool) (l : list A) (x : A) :
  find p l = Some x -> q x = true -> find p (filter q l) <> None.
Proof.
  induction l as [|y l IH]; simpl; [discriminate|].
  destruct (p y) eqn:Ep.
  - intros H Hq. injection H as ->. rewrite Hq. simpl. rewrite Ep.
    discriminate.
  - intros H Hq. destruct (q y); simpl; [rewrite Ep|]; apply IH; assumption.
Qed.

(** X18.  Deleting a chat keeps the sidebar in order.  On a sidebar whose chats
    have distinct identifiers and whose active chat exists, [deleteChat]
    does not throw; the only chat is never deleted; otherwise exactly the
    chats with the identifier are removed, the others keep their order,
    and there is still an active chat: the same one, or the first of the
    remaining chats when the active one was deleted. *)
Theorem deleteChat_keeps_sidebar (id : JSString) (st : Model) :
  sidebarOK st ->
  exists st',
    deleteChat (activeChatId st) id st = Some st' /\
    sidebarOK st' /\
    chats st' =
    (if Nat.eqb (List.length (chats st)) 1 then chats st
     else filter (fun c => negb (JS.eqb (cs_id c) id)) (chats st)) /\
    (activeChatId st <> id -> activeChatId st' = activeChatId st) /\
    (activeChatId st = id -> List.length (chats st) <> 1 ->
     Some (activeChatId st') = option_map cs_id (hd_error (chats st'))).
Proof.
  intros [Hnd Hact]. unfold deleteChat.
  destruct (Nat.eqb (List.length (chats st)) 1) eqn:E1.
  - exists st. repeat split; auto.
    intros _ H. apply Nat.eqb_eq in E1. contradiction.
  - apply Nat.eqb_neq in E1.
    destruct (activeChat st) as [c|] eqn:Hc; [|contradiction].
    unfold activeChat in Hc.
    assert (Hlen : 2 <= List.length (chats st)).
    { destruct (chats st) as [|c1 [|c2 cs]]; simpl in *;
        [discriminate|congruence|lia]. }
    pose proof (@filter_other_nonempty id (chats st) Hnd Hlen) as Hne.
    destruct (JS.eqb (activeChatId st) id) eqn:Ea.
    + apply eqb_eq in Ea.
      destruct (filter (fun c0 => negb (JS.eqb (cs_id c0) id)) (chats st))
        as [|c0 rest] eqn:Ef; [contradiction|].
      eexists. split; [reflexivity|].
      split; [|split; [reflexivity|split]].
      * split; cbn [chats setChats setActiveChatId].
        -- rewrite <- Ef. apply NoDup_map_filter. exact Hnd.
        -- unfold activeChat. cbn. rewrite eqb_refl. discriminate.
      * intros H. contradiction.
      * intros _ _. reflexivity.
    + apply eqb_neq in Ea.
      eexists. split; [reflexivity|].
      split; [|split; [reflexivity|split]].
      * split; cbn [chats setChats].
        -- apply NoDup_map_filter. exact Hnd.
        -- unfold activeChat. cbn [chats activeChatId setChats].
           eapply find_filter; [exact Hc|].
           apply find_some in Hc as [_ Hc]. apply eqb_eq in Hc.
           rewrite Hc. apply negb_true_iff, eqb_neq. exact Ea.
      * intros _. reflexivity.
      * intros H. contradiction.
Qed.

Lemma find_app_fresh {A : Type} (p : A -> bool) (l : list A) (x : A) :
  (forall y, In y l -> p y = false) -> p x = true ->
  find p (l ++ [x]) = Some x.
Proof.
  intros H Hx. induction l as [|y l IH]; simpl; [rewrite Hx; reflexivity|].
  rewrite (H y) by (left; reflexivity).
  apply IH. intros z Hz. apply H. right. exact Hz.
Qed.

(** X19.  Creating a chat.  When the identifier made from the clock is not
    taken, [createChat] keeps the sidebar in order: the new, empty chat
    is added after the others, which are unchanged, and it is the active
    chat. *)
Theorem createChat_adds_active_chat (st : Model) :
  NoDup (map cs_id (chats st)) ->
  ~ In (cs_id (newChat st)) (map cs_id (chats st)) ->
  chats (createChat st) = chats st ++ [newChat st] /\
  activeChat (createChat st) = Some (newChat st) /\
  sidebarOK (createChat st).
Proof.
  intros Hnd Hfresh.
  assert (Hfind : activeChat (createChat st) = Some (newChat st)).
  { unfold activeChat, createChat, newChat, now. cbn.
    apply find_app_fresh.
    - intros y Hy. apply eqb_neq. intros E. apply Hfresh.
      apply in_map_iff. exists y. split; [exact E|exact Hy].
    - apply eqb_refl. }
  split; [reflexivity|]. split; [exact Hfind|].
  split.
  - unfold createChat, now. cbn. rewrite map_app. cbn.
    apply NoDup_app; [exact Hnd|repeat constructor; auto|].
    intros x Hx [<-|[]]. exact (Hfresh Hx).
  - rewrite Hfind. discriminate.
Qed.

End Sidebar.

(** ** The message input and the first message *)

Section Input.

Context {P : Payloads} {R : Runtime}.

Lemma loadingAfter_raised (acts : list Action) :
  existsb endsLoading acts = false -> loadingAfter true acts = true.
Proof.
  unfold loadingAfter.
  induction acts as [|act acts IH]; simpl; [reflexivity|].
  intros H. apply orb_false_iff in H as [H1 H2].
  destruct act; simpl in *; try discriminate; apply IH; exact H2.
Qed.

Lemma sendMessage_isLoading (msg : JSString) (appendMessage : bool)
  (rnd : JSString) (w : World) :
  isLoading (ui (sendMessage msg appendMessage rnd w)) = true.
Proof.
  unfold sendMessage, sendStreamMessage, now.
  destruct appendMessage; destruct (abortControllerRef w); reflexivity.
Qed.

(** X16.  The input waits for the answer.  From the moment a message is sent,
    by whatever path, until [onComplete] or [onError] is called, the send
    button of the input does nothing: no request is issued, no call is
    cancelled and the text typed stays in the field. *)
Theorem input_waits_for_completion (msg : JSString) (appendMessage : bool)
  (rnd : JSString) (es : list Event) (value rnd' : JSString) (w : World) :
  existsb endsLoading
    (emitted (sendMessage msg appendMessage rnd w)
       (run es (sendMessage msg appendMessage rnd w))) = false ->
  pressSend value rnd' (run es (sendMessage msg appendMessage rnd w)) =
  (value, run es (sendMessage msg appendMessage rnd w)).
Proof.
  intros H.
  destruct (run_loading es (sendMessage msg appendMessage rnd w))
    as [acts [Hl Hi]].
  unfold emitted in H.
  rewrite Hl, skipn_app, skipn_all, Nat.sub_diag in H. cbn [skipn app] in H.
  rewrite sendMessage_isLoading, (loadingAfter_raised acts H) in Hi.
  unfold pressSend, handleSend. rewrite Hi, orb_true_r. reflexivity.
Qed.

(** X17.  What the input sends.  When nothing is loading, pressing send on a
    text that is not blank sends the text without the white space around
    it, shows it as the user's entry and empties the field; on a blank
    text nothing is sent and the field is left as it is.  White space
    typed around a text makes no difference to what happens. *)
Theorem input_sends_trimmed_text (value rnd : JSString) (w : World) :
  isLoading (ui w) = false ->
  pressSend value rnd w =
  match trim value with
  | [] => (value, w)
  | c :: m => ([], sendMessage (c :: m) true rnd w)
  end /\
  trim (trim value) = trim value /\
  forall ws1 ws2,
    forallb isWhiteSpace ws1 = true ->
    forallb isWhiteSpace ws2 = true ->
    snd (pressSend (ws1 ++ value ++ ws2) rnd w) = snd (pressSend value rnd w).
Proof.
  intros Hl.
  assert (H : forall v,
             pressSend v rnd w =
             match trim v with
             | [] => (v, w)
             | c :: m => ([], sendMessage (c :: m) true rnd w)
             end).
  { intros v. unfold pressSend, handleSend. rewrite Hl.
    destruct (trim v); reflexivity. }
  split; [apply H|]. split; [apply trim_idem|].
  intros ws1 ws2 H1 H2. rewrite !H, (@trim_ws_around ws1 value ws2 H1 H2).
  destruct (trim value); reflexivity.
Qed.


End Input.

(** ** The name of a tool *)

Lemma toUpperCase_idem (c : N) : toUpperCase (toUpperCase c) = toUpperCase c.
Proof.
  unfold toUpperCase.
  destruct (N.leb 97 c && N.leb c 122) eqn:E; [|rewrite E; reflexivity].
  apply andb_true_iff in E as [E1 E2].
  apply N.leb_le in E1, E2.
  replace (N.leb 97 (c - 32)) with false; [reflexivity|].
  symmetry. apply N.leb_gt. lia.
Qed.

Lemma isWordChar_toUpperCase (c : N) :
  isWordChar (toUpperCase c) = isWordChar c.
Proof.
  unfold toUpperCase.
  destruct (N.leb 97 c && N.leb c 122) eqn:E; [|reflexivity].
  unfold isWordChar. rewrite E, orb_true_r.
  apply andb_true_iff in E as [E1 E2].
  apply N.leb_le in E1, E2.
  replace (N.leb 65 (c - 32) && N.leb (c - 32) 90) with true.
  - rewrite orb_true_r. reflexivity.
  - symmetry. apply andb_true_iff. split; apply N.leb_le; lia.
Qed.

Lemma capitalize_idem (b : bool) (s : JSString) :
  capitalize b (capitalize b s) = capitalize b s.
Proof.
  revert b; induction s as [|c s IH]; intros b; simpl; [reflexivity|].
  destruct (isWordChar c && negb b) eqn:E.
  - rewrite isWordChar_toUpperCase, E, toUpperCase_idem, IH. reflexivity.
  - rewrite E, IH. reflexivity.
Qed.

Lemma capitalize_length (b : bool) (s : JSString) :
  List.length (capitalize b s) = List.length s.
Proof.
  revert b; induction s as [|c s IH]; intros b; simpl; [reflexivity|].
  rewrite IH. reflexivity.
Qed.

Lemma capitalize_no_underscore (b : bool) (s : JSString) :
  ~ In 95%N s -> ~ In 95%N (capitalize b s).
Proof.
  revert b; induction s as [|c s IH]; intros b H; simpl; [auto|].
  intros [E|E].
  - apply H. left.
    destruct (isWordChar c && negb b); [|exact E].
    unfold toUpperCase in E.
    destruct (N.leb 97 c && N.leb c 122) eqn:E'; [|exact E].
    apply andb_true_iff in E' as [E1 E2]. apply N.leb_le in E1, E2. lia.
  - apply (IH (isWordChar c)); [|exact E].
    intros Hin. apply H. right. exact Hin.
Qed.

Lemma replaceUnderscores_none (s : JSString) :
  ~ In 95%N (replaceUnderscores s).
Proof.
  unfold replaceUnderscores. intros H. apply in_map_iff in H as [c [E _]].
  destruct (N.eqb c 95) eqn:E'; [discriminate|].
  apply N.eqb_neq in E'. congruence.
Qed.

Lemma replaceUnderscores_fixed (s : JSString) :
  ~ In 95%N s -> replaceUnderscores s = s.
Proof.
  unfold replaceUnderscores. induction s as [|c s IH]; simpl; [reflexivity|].
  intros H. rewrite IH by (intros Hin; apply H; right; exact Hin).
  destruct (N.eqb c 95) eqn:E; [|reflexivity].
  apply N.eqb_eq in E. exfalso. apply H. left. exact E.
Qed.

Lemma toUpperCase_not_small (c : N) : isSmallLetter (toUpperCase c) = false.
Proof.
  unfold toUpperCase, isSmallLetter.
  destruct (N.leb 97 c && N.leb c 122) eqn:E; [|exact E].
  apply andb_true_iff in E as [E1 E2]. apply N.leb_le in E1, E2.
  apply andb_false_iff. left. apply N.leb_gt. lia.
Qed.

Lemma isSmallLetter_isWordChar (c : N) :
  isSmallLetter c = true -> isWordChar c = true.
Proof.
  unfold isSmallLetter, isWordChar. intros ->. apply orb_true_r.
Qed.

(** A small letter of a capitalized text follows a word character. *)
Lemma capitalize_small (s : JSString) :
  forall (b : bool) (pre post : JSString) (c : N),
    capitalize b s = pre ++ c :: post ->
    isSmallLetter c = true ->
    match rev pre with
    | [] => b = true
    | p :: _ => isWordChar p = true
    end.
Proof.
  induction s as [|c0 s IH]; intros b pre post c E Hc.
  - destruct pre; discriminate E.
  - cbn [capitalize] in E. destruct pre as [|p0 pre].
    + cbn [app] in E. injection E as E0 _. cbn [rev].
      destruct (isWordChar c0 && negb b) eqn:Ew.
      * rewrite <- E0, toUpperCase_not_small in Hc. discriminate.
      * subst c0. rewrite (isSmallLetter_isWordChar _ Hc) in Ew.
        destruct b; [reflexivity|discriminate].
    + cbn [app] in E. injection E as E0 E1.
      specialize (IH _ _ _ _ E1 Hc).
      cbn [rev]. destruct (rev pre) as [|p l]; cbn [app]; [|exact IH].
      rewrite <- E0.
      destruct (isWordChar c0 && negb b);
        [rewrite isWordChar_toUpperCase|]; exact IH.
Qed.

(** X21.  The name of a tool as it is shown.  The name displayed has the
    length of the raw name and no underscore; it does not start with one
    of the letters [a] to [z], and wherever one of these letters stands in
    it, a letter [a] to [z] or [A] to [Z], a digit or an underscore stands
    before it (letters outside these ranges are not word characters and
    are left as they are); and formatting a displayed name again changes
    nothing. *)
Theorem toolName_shape (rawToolName : JSString) :
  List.length (toolName rawToolName) = List.length rawToolName /\
  ~ In 95%N (toolName rawToolName) /\
  match toolName rawToolName with
  | c :: _ => isSmallLetter c = false
  | [] => rawToolName = []
  end /\
  (forall (pre post : JSString) (c : N),
      toolName rawToolName = pre ++ c :: post ->
      isSmallLetter c = true ->
      exists pre' p, pre = pre' ++ [p] /\ isWordChar p = true) /\
  toolName (toolName rawToolName) = toolName rawToolName.
Proof.
  unfold toolName.
  split; [|split; [|split; [|split]]].
  - rewrite capitalize_length. unfold replaceUnderscores. apply length_map.
  - apply capitalize_no_underscore, replaceUnderscores_none.
  - destruct rawToolName as [|c s]; [reflexivity|].
    destruct (isSmallLetter
                (hd 0%N (capitalize false (replaceUnderscores (c :: s)))))
      eqn:E.
    + pose proof (@capitalize_small (replaceUnderscores (c :: s)) false []
                    (tl (capitalize false (replaceUnderscores (c :: s))))
                    (hd 0%N (capitalize false (replaceUnderscores (c :: s))))
                    eq_refl E) as H.
      discriminate H.
    + exact E.
  - intros pre post c E Hc.
    pose proof (@capitalize_small _ _ _ _ _ E Hc) as H.
    destruct (rev pre) as [|p l] eqn:Er; [discriminate H|].
    exists (rev l), p. split; [|exact H].
    rewrite <- (rev_involutive pre), Er. reflexivity.
  - rewrite replaceUnderscores_fixed
      by apply capitalize_no_underscore, replaceUnderscores_none.
    apply capitalize_idem.
Qed.

(** ** Products as they are shown *)

Section ProductCards.

Context {P : Payloads}.

Lemma or_else_nonempty (x : option JSString) (y : JSString) :
  y <> [] -> Products.or_else x y <> [].
Proof.
  intros H. unfold Products.or_else.
  destruct x as [[|c s]|]; simpl; auto. discriminate.
Qed.

Lemma images_pipeline (imgs : list Products.RawImage) :
  Products.opt (Products.mapImages imgs) Products.filterImages =
  if existsb poisoned imgs then None
  else Some (filter notBlank (flat_map imageUrl imgs)).
Proof.
  induction imgs as [|img imgs IH]; [reflexivity|].
  cbn [Products.mapImages existsb flat_map].
  destruct (Products.mapImages imgs) as [ms|];
    cbn [Products.opt] in IH.
  - destruct img as [s|[s|[|]]| |];
      cbn [Products.mapImage Products.opt Products.filterImages poisoned
             orb imageUrl app];
      rewrite ?IH; try reflexivity;
      destruct (existsb poisoned imgs); try reflexivity.
    + cbn [filter]. destruct s as [|c s]; [reflexivity|].
      cbn [truthy andb]. fold (notBlank (c :: s)).
      destruct (notBlank (c :: s)); reflexivity.
    + cbn [filter]. destruct s as [|c s]; [reflexivity|].
      cbn [truthy andb]. fold (notBlank (c :: s)).
      destruct (notBlank (c :: s)); reflexivity.
  - destruct (existsb poisoned imgs); [|discriminate].
    destruct img as [s|[s|[|]]| |];
      cbn [Products.mapImage Products.opt poisoned orb]; reflexivity.
Qed.

(** X22.  Every product can be shown.  Whatever the raw product is, the
    product made from it has a name, a category, a provider identifier
    and a provider name that are not empty, and no image address that is
    blank.  When an image is [null] or an object whose [url] is truthy
    and not a string, the transformation throws and the product is the
    one that reports the failure, without images and not deliverable;
    otherwise the product keeps the raw identifier, is deliverable, and
    its images are the addresses of the raw images, in order, without
    the blank ones. *)
Theorem product_can_be_shown (rawProduct : Products.RawProduct) :
  let product := Products.transformRawProduct rawProduct in
  Products.name product <> [] /\
  Products.category product <> [] /\
  Products.provider_id product <> [] /\
  Products.provider_name product <> [] /\
  Forall (fun url => trim url <> []) (Products.images product) /\
  if existsb poisoned (rawImages rawProduct)
  then Products.name product = js "Error loading product" /\
       Products.images product = [] /\
       Products.delivery_available product = false /\
       Products.price product = zero
  else Products.id product = Products.rp_id rawProduct /\
       Products.delivery_available product = true /\
       Products.images product =
       filter notBlank (flat_map imageUrl (rawImages rawProduct)).
Proof.
  cbv zeta. unfold Products.transformRawProduct, Products.transformed.
  fold (rawImages rawProduct). rewrite images_pipeline.
  destruct (existsb poisoned (rawImages rawProduct)).
  - cbn. repeat split; try discriminate. constructor.
  - cbn [Products.name Products.category Products.provider_id
           Products.provider_name Products.images Products.id
           Products.delivery_available].
    split; [apply or_else_nonempty, or_else_nonempty; discriminate|].
    split.
    { destruct (Products.rp_category rawProduct) as [[[|c s]|[[|c s]|] i]|];
        try discriminate;
        try (destruct (Products.opt (Products.rp_item_details rawProduct)
                         Products.it_category_id) as [[|c' s']|];
             discriminate). }
    split; [repeat apply or_else_nonempty; discriminate|].
    split; [repeat apply or_else_nonempty; discriminate|].
    split; [|repeat split].
    apply Forall_forall. intros url Hin.
    apply filter_In in Hin as [_ Hn]. unfold notBlank in Hn.
    apply negb_true_iff, eqb_neq in Hn. exact Hn.
Qed.

End ProductCards.

(** * The properties at concrete inputs *)

Example worldThinking_transcript :
  transcript worldThinking = [(user, None); (bot_thinking, Some stream0)] /\
  nth_error (requests worldThinking) 0 = Some call0 /\
  abortControllerRef worldThinking = Some 0 /\
  isStreamingRef worldThinking = true.
Proof. vm_compute. repeat split. Qed.

(** The clean round trip: a [thinking] record, a product list cut in two
    chunks, the marker.  The transcript ends with the user's entry and the
    product list, and [onComplete] was called once. *)
Example clean_round_trip :
  let w :=
    readChunks 0
      [ line thinkingSearching ++
        jsq "data: {'type':'raw_products','prod";
        line (jsq "ucts':[{'id':'p1','name':'Rice'}]}") ++
        line (js "data: [DONE]") ]
      worldStreaming in
  transcript w = [(user, None); (bot_product_list, Some stream0)] /\
  filter isCallback (log w) = [OnThinking 0; OnRawProducts 0; OnComplete 0] /\
  phaseOf 0 w = Some Returned.
Proof. vm_compute. repeat split. Qed.

(** ** The marker and the [done] event *)

Lemma sentinel_completes_once_witness :
  nth_error (requests worldThinking) 0 = Some call0 /\
  phase call0 = AwaitRead [] /\
  aborted call0 = false /\
  isStreamingRef worldThinking = true /\
  completeLines [] = [] /\
  hasDoneMarker (completeLines ([] ++ List.concat chunksWithMarker)) = true /\
  let w' := readChunks 0 chunksWithMarker worldThinking in
  countComplete 0 (log w') = S (countComplete 0 (log worldThinking)) /\
  phaseOf 0 w' = Some Returned /\
  (forall s, settle 0 s w' = w') /\
  (forall more, readChunks 0 more w' = w').
Proof.
  assert (H1 : nth_error (requests worldThinking) 0 = Some call0)
    by (vm_compute; reflexivity).
  assert (H2 : phase call0 = AwaitRead []) by reflexivity.
  assert (H3 : aborted call0 = false) by reflexivity.
  assert (H4 : isStreamingRef worldThinking = true)
    by (vm_compute; reflexivity).
  assert (H5 : completeLines [] = []) by reflexivity.
  assert (H6 : hasDoneMarker
                 (completeLines ([] ++ List.concat chunksWithMarker)) = true)
    by (vm_compute; reflexivity).
  exact (conj H1 (conj H2 (conj H3 (conj H4 (conj H5 (conj H6
           (@sentinel_completes_once samplePayloads sampleRuntime 0
              chunksWithMarker worldThinking call0 [] H1 H2 H3 H4 H5 H6))))))).
Defined.

(** A [done] event is not a terminator.  After a [thinking] record and a
    record of type [done], [onComplete] has not been called and the call
    still reads; a [thinking] record that follows is applied to the
    transcript. *)
Lemma done_event_does_not_complete :
  countComplete 0
    (log (readChunks 0 [line (jsq "data: {'type':'done'}")] worldThinking))
  = 0 /\
  phaseOf 0
    (readChunks 0 [line (jsq "data: {'type':'done'}")] worldThinking)
  = Some (AwaitRead []) /\
  bodies (readChunks 0 [line (jsq "data: {'type':'done'}")] worldThinking)
  = [MUser (js "rice"); MThinking (js "Searching")] /\
  bodies
    (readChunks 0
       [line (jsq "data: {'type':'done'}"); line thinkingRanking]
       worldThinking)
  = [MUser (js "rice"); MThinking (js "Ranking")].
Proof. vm_compute. repeat split. Qed.

(** A marker line after a record and before another. *)
Lemma done_marker_ends_stream_witness :
  let r := 0 in
  let a := js "c1" in
  let marker := js "  data: [DONE] " in
  let pre := [thinkingRanking] in
  let rest := [toolStart] in
  let st := ui worldThinking in
  let w := worldThinking in
  let q := call0 in
  let buffer := @nil N in
  let text := line thinkingRanking ++ line (js "  data: [DONE] ") ++ line toolStart in
  (isDoneMarker (trim marker) = true) /\
  (hasDoneMarker pre = false) /\
  (nth_error (requests w) r = Some q) /\
  (phase q = AwaitRead buffer) /\
  (aborted q = false) /\
  (completeLines (buffer ++ text) = pre ++ marker :: rest) /\
  (process_line r a marker st =
  (handleStreamComplete a st, [OnComplete r], true) /\
  process_lines r a (pre ++ marker :: rest) st =
  (handleStreamComplete a (fst (fst (process_lines r a pre st))),
   snd (fst (process_lines r a pre st)) ++ [OnComplete r],
   true) /\
  settle r (ReadChunk text) w =
  finish r
    (handleStreamComplete (rq_activeChatId q)
       (fst (fst (process_chunk r (rq_activeChatId q) pre (ui w)))))
    (snd (fst (process_chunk r (rq_activeChatId q) pre (ui w))) ++
     [OnComplete r])
    w /\
  phaseOf r (settle r (ReadChunk text) w) = Some Returned /\
  countComplete r (log (settle r (ReadChunk text) w)) =
  S (countComplete r (log w))).
Proof.
  intros r a marker pre rest st w q buffer text.
  assert (H1 : isDoneMarker (trim marker) = true)
    by (vm_compute; reflexivity).
  assert (H2 : hasDoneMarker pre = false)
    by (vm_compute; reflexivity).
  assert (H3 : nth_error (requests w) r = Some q)
    by (vm_compute; reflexivity).
  assert (H4 : phase q = AwaitRead buffer)
    by (reflexivity).
  assert (H5 : aborted q = false)
    by (reflexivity).
  assert (H6 : completeLines (buffer ++ text) = pre ++ marker :: rest)
    by (vm_compute; reflexivity).
  refine (conj H1 (conj H2 (conj H3 (conj H4 (conj H5 (conj H6 _)))))).
  eapply done_marker_ends_stream; eassumption.
Defined.

(** The marker without the space after [data:] is not recognised: the
    payload [[DONE]] is handed to the parser, which rejects it, the line is
    skipped, [onComplete] is not called and the call goes on reading. *)
Lemma done_without_space_is_parsed :
  process_line 0 (js "c1") (js "data:[DONE]") (ui worldThinking) =
  (ui worldThinking, [Parse 0 (js "[DONE]"); Warn 0 (js "[DONE]")], false) /\
  countComplete 0
    (log (readChunks 0 [line (js "data:[DONE]")] worldThinking)) = 0 /\
  phaseOf 0 (readChunks 0 [line (js "data:[DONE]")] worldThinking) =
  Some (AwaitRead []).
Proof. vm_compute. repeat split. Qed.

(** ** A malformed record between two [thinking] records *)

Lemma malformed_frame_is_skipped_witness :
  let r := 0 in
  let a := js "c1" in
  let bad := js "data: not-json" in
  let st := ui worldStreaming in
  startsWith (trim bad) (js "data:") = true /\
  isDoneMarker (trim bad) = false /\
  JSON_parse (trim (substring 5 (trim bad))) = None /\
  thinkingFrame thinkingSearching (js "Searching") None /\
  thinkingFrame thinkingRanking (js "Ranking") None /\
  currentStreamIdRef st = Some stream0 /\
  truthy stream0 = true /\
  process_line r a bad st =
  (st,
   [Parse r (trim (substring 5 (trim bad)));
    Warn r (trim (substring 5 (trim bad)))],
   false) /\
  process_lines r a [bad; thinkingRanking] st =
  (fst (fst (process_lines r a [thinkingRanking] st)),
   [Parse r (trim (substring 5 (trim bad)));
    Warn r (trim (substring 5 (trim bad)))] ++
   snd (fst (process_lines r a [thinkingRanking] st)),
   snd (process_lines r a [thinkingRanking] st)) /\
  (let result :=
     process_lines r a [thinkingSearching; bad; thinkingRanking] st in
   snd result = false /\
   snd (fst result) =
   [Parse r (payloadOf thinkingSearching); OnThinking r;
    Parse r (payloadOf bad); Warn r (payloadOf bad);
    Parse r (payloadOf thinkingRanking); OnThinking r] /\
   map cs_id (chats (fst (fst result))) = map cs_id (chats st) /\
   (forall c', In c' (chats (fst (fst result))) -> cs_id c' = a ->
      thinkingOf stream0 (messages c') =
      [ {| msg_id := js "thinking" ++ decimal (Date_now (S (clock st)));
           body := MThinking (js "Ranking");
           streamId := Some stream0 |} ]) /\
   sameExcept a (chats st) (chats (fst (fst result)))).
Proof.
  intros r a bad st.
  assert (H1 : startsWith (trim bad) (js "data:") = true)
    by (vm_compute; reflexivity).
  assert (H2 : isDoneMarker (trim bad) = false)
    by (vm_compute; reflexivity).
  assert (H3 : JSON_parse (trim (substring 5 (trim bad))) = None)
    by (vm_compute; reflexivity).
  assert (F1 : thinkingFrame thinkingSearching (js "Searching") None)
    by (repeat split; vm_compute; reflexivity).
  assert (F2 : thinkingFrame thinkingRanking (js "Ranking") None)
    by (repeat split; vm_compute; reflexivity).
  assert (H4 : currentStreamIdRef st = Some stream0)
    by (vm_compute; reflexivity).
  assert (H5 : truthy stream0 = true) by reflexivity.
  destruct (@malformed_frame_is_skipped samplePayloads sampleRuntime r a bad
              [thinkingSearching] [thinkingRanking] st H1 H2 H3)
    as [T1 [T2 [_ T4]]].
  exact (conj H1 (conj H2 (conj H3 (conj F1 (conj F2 (conj H4 (conj H5
           (conj T1 (conj T2
              (T4 thinkingSearching thinkingRanking (js "Searching")
                 (js "Ranking") stream0 None None F1 F2 H4 H5)))))))))).
Defined.

(** The scenario, run: the second [thinking] record replaces the first,
    and no callback but [onThinking] is called. *)
Example malformed_between_thinking :
  bodies
    (readChunks 0
       [ line thinkingSearching ++ line (js "data: not-json") ++
         line thinkingRanking ]
       worldStreaming)
  = [MUser (js "rice"); MThinking (js "Ranking")] /\
  filter isCallback
    (log (readChunks 0
            [ line thinkingSearching ++ line (js "data: not-json") ++
              line thinkingRanking ]
            worldStreaming))
  = [OnThinking 0; OnThinking 0].
Proof. vm_compute. repeat split. Qed.

(** ** A second message while the first streams *)

Lemma resend_cancels_previous_witness :
  abortControllerRef worldThinking = Some 0 /\
  nth_error (requests worldThinking) 0 = Some call0 /\
  let w1 := sendMessage (js "dal") true (js "p7q2") worldThinking in
  log w1 =
  log worldThinking ++
  [Abort 0;
   Fetch (List.length (requests worldThinking)) (js "dal")
     (sessionId (ui worldThinking))] /\
  (forall es : list Event,
      filter (callbackOf 0) (log (run es w1)) =
      filter (callbackOf 0) (log worldThinking)) /\
  chats (ui w1) =
  (if true
   then updateActive (activeChatId (ui worldThinking))
          (fun ms =>
             ms ++
             [userMessage (Date_now (S (clock (ui worldThinking))))
                (js "dal")])
          (chats (ui worldThinking))
   else chats (ui worldThinking)) /\
  (forall s : Settlement, ui (settle 0 s w1) = ui w1).
Proof.
  assert (H1 : abortControllerRef worldThinking = Some 0)
    by (vm_compute; reflexivity).
  assert (H2 : nth_error (requests worldThinking) 0 = Some call0)
    by (vm_compute; reflexivity).
  exact (conj H1 (conj H2
           (@resend_cancels_previous samplePayloads sampleRuntime
              worldThinking 0 call0 (js "dal") true (js "p7q2") H1 H2))).
Defined.

(** Mid-stream cancel.  After one [thinking] record of the first request a
    second message is sent, and the first call resumes into its abort.  No
    [onComplete] and no [onError] was called, the call has returned, and
    the [thinking] entry of the first request is still in the transcript,
    now followed by the user's second entry. *)
Lemma cancelled_thinking_entry_stays :
  transcript (step (Settle 0 (Rejected true (js "AbortError"))) worldResent)
  = [(user, None); (bot_thinking, Some stream0); (user, None)] /\
  filter isCallback
    (log (step (Settle 0 (Rejected true (js "AbortError"))) worldResent))
  = [OnThinking 0] /\
  phaseOf 0 (step (Settle 0 (Rejected true (js "AbortError"))) worldResent)
  = Some Returned.
Proof. vm_compute. repeat split. Qed.

(** What the [finally] block of a cancelled call does to the calls after
    it.  It lowers [isStreamingRef] and clears [abortControllerRef] though
    both belong to the next call by then.  First run: the first call
    resumes into its abort while the second request is in flight; when the
    second response arrives its read loop is not entered, and the call
    returns without a callback.  Second run: a third message is sent
    before the second response arrives; the ref is empty, so the second
    call is not aborted, the third message raises the flag again, and the
    second call streams and completes next to the third. *)
Example finally_of_cancelled_call :
  filter isCallback
    (log (run [ Settle 0 (Rejected true (js "AbortError"));
                Settle 1 (FetchResolved true true);
                Settle 1 (ReadChunk (line (js "data: [DONE]"))) ]
            worldResent))
  = [OnThinking 0] /\
  phaseOf 1
    (run [ Settle 0 (Rejected true (js "AbortError"));
           Settle 1 (FetchResolved true true) ]
       worldResent)
  = Some Returned /\
  filter isCallback
    (log (run [ Settle 0 (Rejected true (js "AbortError"));
                SendMessage (js "atta") true (js "m4n8");
                Settle 1 (FetchResolved true true);
                Settle 1 (ReadChunk (line thinkingRanking ++
                                     line (js "data: [DONE]"))) ]
            worldResent))
  = [OnThinking 0; OnThinking 1; OnComplete 1] /\
  filter (fun act => match act with Abort _ => true | _ => false end)
    (log (run [ Settle 0 (Rejected true (js "AbortError"));
                SendMessage (js "atta") true (js "m4n8") ]
            worldResent))
  = [Abort 0].
Proof. vm_compute. repeat split. Qed.

(** ** The sweep at the end of a request *)

Lemma sweep_on_completion_witness :
  nth_error (requests worldResent) 0 = Some call0Aborted /\
  aborted call0Aborted = true /\
  (forall a st,
      Forall2 (fun c c' =>
                 if JS.eqb (cs_id c) a
                 then cs_id c' = cs_id c /\
                      sweptOf (currentStreamIdRef st)
                        (messages c) (messages c')
                 else c' = c)
        (chats st) (chats (handleStreamComplete a st))) /\
  (forall a chats0 st,
      Forall2 (fun c c' =>
                 if JS.eqb (cs_id c) a
                 then cs_id c' = cs_id c /\
                      exists kept,
                        messages c' =
                        kept ++
                        (if hadEntries a chats0
                         then [networkErrorMessage (Date_now (clock st))]
                         else []) /\
                        sweptOf (currentStreamIdRef st) (messages c) kept
                 else c' = c)
        (chats st) (chats (handleStreamError a chats0 st))) /\
  ui (settle 0 (ReadChunk (line thinkingRanking)) worldResent) =
  ui worldResent /\
  log (settle 0 (ReadChunk (line thinkingRanking)) worldResent) =
  log worldResent.
Proof.
  assert (H1 : nth_error (requests worldResent) 0 = Some call0Aborted)
    by (vm_compute; reflexivity).
  assert (H2 : aborted call0Aborted = true) by reflexivity.
  exact (conj H1 (conj H2
           (@sweep_on_completion samplePayloads sampleRuntime worldResent 0
              call0Aborted (ReadChunk (line thinkingRanking)) H1 H2))).
Defined.

(** What the sweep leaves behind.  A stream that ends with the marker right
    after a conversation chunk: [onComplete] is called and the chunk entry
    of that request is still in the transcript.  A request that is
    cancelled after a [tool_start] record: its [tool executing] entry is
    still in the transcript once the call has returned. *)
Lemma sweep_leaves_entries :
  transcript
    (readChunks 0 [line conversationChunk; line (js "data: [DONE]")]
       worldStreaming)
  = [(user, None); (bot_conversation_chunk, Some stream0)] /\
  countComplete 0
    (log (readChunks 0 [line conversationChunk; line (js "data: [DONE]")]
            worldStreaming))
  = 1 /\
  transcript
    (run [ Settle 0 (ReadChunk (line toolStart));
           SendMessage (js "dal") true (js "p7q2");
           Settle 0 (Rejected true (js "AbortError")) ]
       worldStreaming)
  = [(user, None); (bot_tool_executing, Some stream0); (user, None)] /\
  phaseOf 0
    (run [ Settle 0 (ReadChunk (line toolStart));
           SendMessage (js "dal") true (js "p7q2");
           Settle 0 (Rejected true (js "AbortError")) ]
       worldStreaming)
  = Some Returned.
Proof. vm_compute. repeat split. Qed.

(** ** Consecutive [thinking] events *)

Lemma thinking_replaced_within_request_witness :
  currentStreamIdRef (ui worldStreaming) = Some stream0 /\
  truthy stream0 = true /\
  let st' :=
    thinkingEvents (js "c1")
      ([(js "Searching", None); (js "Comparing", Some (js "s-42"))] ++
       [(js "Ranking", None)])
      (ui worldStreaming) in
  map cs_id (chats st') = map cs_id (chats (ui worldStreaming)) /\
  (forall c', In c' (chats st') -> cs_id c' = js "c1" ->
     thinkingOf stream0 (messages c') =
     [ {| msg_id :=
            js "thinking" ++
            decimal
              (Date_now
                 (clock (ui worldStreaming) +
                  List.length
                    [(js "Searching", @None JSString);
                     (js "Comparing", Some (js "s-42"))]));
          body := MThinking (js "Ranking");
          streamId := Some stream0 |} ]) /\
  (forall st0 m s,
     chats (handleThinking (js "c1") m s st0) =
     updateActive (js "c1")
       (fun ms =>
          filter (fun x =>
            negb (hasType bot_thinking x &&
                  sameStream (streamId x) (currentStreamIdRef st0))) ms ++
          [ {| msg_id := js "thinking" ++ decimal (Date_now (clock st0));
               body := MThinking m;
               streamId := or_undefined (currentStreamIdRef st0) |} ])
       (chats st0)).
Proof.
  assert (H1 : currentStreamIdRef (ui worldStreaming) = Some stream0)
    by (vm_compute; reflexivity).
  assert (H2 : truthy stream0 = true) by reflexivity.
  exact (conj H1 (conj H2
           (@thinking_replaced_within_request samplePayloads sampleRuntime
              (js "c1") stream0
              [(js "Searching", None); (js "Comparing", Some (js "s-42"))]
              (js "Ranking") None (ui worldStreaming) H1 H2))).
Defined.

(** Three [thinking] events in a row leave the last one only. *)
Example three_thinking_events :
  map (fun c => map body (messages c))
    (chats
       (thinkingEvents (js "c1")
          [ (js "Searching", None); (js "Comparing", Some (js "s-42"));
            (js "Ranking", None) ]
          (ui worldStreaming)))
  = [[MUser (js "rice"); MThinking (js "Ranking")]].
Proof. vm_compute. reflexivity. Qed.

(** ** A transport failure on a transcript with history *)


(** The two scenarios, run.  On a transcript with history the failure
    appends the error entry after the user's entry; on the empty transcript
    of a new chat it appends nothing.  [onError] is called once in both. *)
Example transport_failure_scenarios :
  transcript
    (run [ Settle 0 (ReadChunk (line (js "data: [DONE]")));
           SendMessage (js "dal") true (js "p7q2");
           Settle 1 (Rejected true (js "TypeError")) ]
       worldThinking)
  = [(user, None); (user, None); (bot_error, None)] /\
  filter (callbackOf 1)
    (log (run [ Settle 0 (ReadChunk (line (js "data: [DONE]")));
                SendMessage (js "dal") true (js "p7q2");
                Settle 1 (Rejected true (js "TypeError")) ]
            worldThinking))
  = [OnError 1] /\
  transcript
    (run [ SendMessage (js "rice") true (js "k3x9");
           Settle 0 (FetchResolved false true) ]
       initialWorld)
  = [(user, None)] /\
  filter isCallback
    (log (run [ SendMessage (js "rice") true (js "k3x9");
                Settle 0 (FetchResolved false true) ]
            initialWorld))
  = [OnError 0].
Proof. vm_compute. repeat split. Qed.

(** ** The payment entry *)

(** A final response that starts a payment. *)
Lemma payment_entry_from_response_witness :
  let a := js "c1" in
  let response := paymentResponse paymentText in
  let st := ui worldThinking in
  (includes (re_content response) (js "Your order has been initialized") =
  true) /\
  (includes (re_content response) (js "initialized a new shopping session") =
  false) /\
  (includes (re_content response) (js "Session Ready") = false) /\
  (let content := re_content response in
  exists amount,
    (forall g, amountCapture content g -> amount = parseFloat g) /\
    (noAmount content -> amount = zero) /\
    ((exists g, amountCapture content g) \/ noAmount content) /\
    let paymentMessage :=
      {| msg_id := js "payment_" ++ decimal (Date_now (S (clock st)));
         body :=
           MPaymentInitiated (js "order_" ++ decimal (Date_now (clock st)))
             amount (js "INR");
         streamId := None |} in
    Forall2 (fun c c' =>
               if JS.eqb (cs_id c) a
               then cs_id c' = cs_id c /\
                    exists kept t,
                      messages c' =
                      kept ++
                      [ {| msg_id := js "response_" ++ decimal t;
                           body := MBot content; streamId := None |};
                        paymentMessage ] /\
                      sweptOf (currentStreamIdRef st) (messages c) kept
               else c' = c)
      (chats st) (chats (handleResponse a response st))).
Proof.
  intros a response st.
  assert (H1 : includes (re_content response) (js "Your order has been initialized") =
  true)
    by (vm_compute; reflexivity).
  assert (H2 : includes (re_content response) (js "initialized a new shopping session") =
  false)
    by (vm_compute; reflexivity).
  assert (H3 : includes (re_content response) (js "Session Ready") = false)
    by (vm_compute; reflexivity).
  refine (conj H1 (conj H2 (conj H3 _))).
  eapply payment_entry_from_response; eassumption.
Defined.

(** The payment branch, run: the [thinking] entry is gone, the text and the
    payment entry of 499.5 rupees are appended. *)
Example payment_entry_scenario :
  bodies
    {| ui := handleResponse (js "c1") (paymentResponse paymentText)
               (ui worldThinking);
       abortControllerRef := None; isStreamingRef := false;
       requests := []; log := [] |}
  = [ MUser (js "rice");
      MBot paymentText;
      MPaymentInitiated (js "order_1700000000003")
        (Some {| mantissa := 4995; scale := 1 |}) (js "INR") ].
Proof. vm_compute. reflexivity. Qed.

(** Two final responses with the payment phrase.  One also contains a
    session phrase: it is suppressed, the sweep runs and no entry is
    appended, neither the text nor a payment entry.  The other arrives
    after a conversation chunk of the same request: the text and the
    payment entry are appended and the chunk entry is still there. *)
Lemma session_phrase_suppresses_payment :
  includes (js "Session Ready. " ++ paymentText)
    (js "Your order has been initialized") = true /\
  map (fun c => map body (messages c))
    (chats
       (handleResponse (js "c1")
          (paymentResponse (js "Session Ready. " ++ paymentText))
          (ui worldThinking)))
  = [[MUser (js "rice")]] /\
  map (fun c => map (fun m => (msg_type m, streamId m)) (messages c))
    (chats
       (handleResponse (js "c1") (paymentResponse paymentText)
          (ui (readChunks 0 [line conversationChunk] worldStreaming))))
  = [[ (user, None); (bot_conversation_chunk, Some stream0);
       (bot, None); (bot_payment_initiated, None) ]].
Proof. vm_compute. repeat split. Qed.

(** ** History across requests *)

(** A product list of the first request survives the product list of the
    second, and each request keeps only its latest one. *)
Example product_lists_across_requests :
  transcript
    (run [ Settle 0
             (ReadChunk
                (line (jsq "data: {'type':'raw_products','products':[{'id':'p1','name':'Rice'}]}")));
           Settle 0 (ReadChunk (line (js "data: [DONE]")));
           SendMessage (js "more rice") true (js "p7q2");
           Settle 1 (FetchResolved true true);
           Settle 1
             (ReadChunk
                (line (jsq "data: {'type':'raw_products','products':[{'id':'p1','name':'Rice'}]}")));
           Settle 1
             (ReadChunk
                (line (jsq "data: {'type':'raw_products','products':[{'id':'p1','name':'Rice'}]}")));
           Settle 1 (ReadChunk (line (js "data: [DONE]"))) ]
       worldStreaming)
  = [ (user, None);
      (bot_product_list, Some stream0);
      (user, None);
      (bot_product_list, Some (js "stream_1700000000003_p7q2")) ].
Proof. vm_compute. reflexivity. Qed.

(** ** The further properties at concrete inputs *)

(** White space around a record. *)
Lemma line_whitespace_is_irrelevant_witness :
  let r := 0 in
  let a := js "c1" in
  let ws1 := js "  " in
  let l := thinkingRanking in
  let ws2 := [13%N] in
  let st := ui worldThinking in
  (forallb isWhiteSpace ws1 = true) /\
  (forallb isWhiteSpace ws2 = true) /\
  (process_line r a (ws1 ++ l ++ ws2) st = process_line r a l st).
Proof.
  intros r a ws1 l ws2 st.
  assert (H1 : forallb isWhiteSpace ws1 = true)
    by (vm_compute; reflexivity).
  assert (H2 : forallb isWhiteSpace ws2 = true)
    by (vm_compute; reflexivity).
  refine (conj H1 (conj H2 _)).
  eapply line_whitespace_is_irrelevant; eassumption.
Defined.

(** A record cut in two, followed by another line. *)
Lemma chunking_is_irrelevant_witness :
  let r := 0 in
  let w := worldThinking in
  let q := call0 in
  let buffer := @nil N in
  let text := rankingHead in
  let more := [rankingTail; line toolStart] in
  (nth_error (requests w) r = Some q) /\
  (phase q = AwaitRead buffer) /\
  (aborted q = false) /\
  (isStreamingRef w = true) /\
  (existsb paymentRecord (completeLines (buffer ++ text ++ List.concat more)) =
  false) /\
  (readChunks r (text :: more) w =
  readChunks r [text ++ List.concat more] w).
Proof.
  intros r w q buffer text more.
  assert (H1 : nth_error (requests w) r = Some q)
    by (vm_compute; reflexivity).
  assert (H2 : phase q = AwaitRead buffer)
    by (reflexivity).
  assert (H3 : aborted q = false)
    by (reflexivity).
  assert (H4 : isStreamingRef w = true)
    by (vm_compute; reflexivity).
  assert (H5 : existsb paymentRecord (completeLines (buffer ++ text ++ List.concat more)) =
  false)
    by (vm_compute; reflexivity).
  refine (conj H1 (conj H2 (conj H3 (conj H4 (conj H5 _))))).
  eapply chunking_is_irrelevant; eassumption.
Defined.

(** A stream that ends without a marker. *)
Lemma stream_end_completes_once_witness :
  let r := 0 in
  let w := worldThinking in
  let q := call0 in
  let buffer := @nil N in
  let text := rankingHead in
  let more := [rankingTail; toolStart] in
  (nth_error (requests w) r = Some q) /\
  (phase q = AwaitRead buffer) /\
  (aborted q = false) /\
  (isStreamingRef w = true) /\
  (hasDoneMarker (completeLines (buffer ++ text ++ List.concat more)) = false) /\
  (existsb paymentRecord (completeLines (buffer ++ text ++ List.concat more)) =
  false) /\
  (let a := rq_activeChatId q in
  let result :=
    process_lines r a (completeLines (buffer ++ text ++ List.concat more))
      (ui w) in
  settle r ReadDone (readChunks r (text :: more) w) =
  finish r (handleStreamComplete a (settled (fst (fst result))))
    (snd (fst result) ++ [OnComplete r]) w /\
  countComplete r (snd (fst result) ++ [OnComplete r]) = 1).
Proof.
  intros r w q buffer text more.
  assert (H1 : nth_error (requests w) r = Some q)
    by (vm_compute; reflexivity).
  assert (H2 : phase q = AwaitRead buffer)
    by (reflexivity).
  assert (H3 : aborted q = false)
    by (reflexivity).
  assert (H4 : isStreamingRef w = true)
    by (vm_compute; reflexivity).
  assert (H5 : hasDoneMarker (completeLines (buffer ++ text ++ List.concat more)) = false)
    by (vm_compute; reflexivity).
  assert (H6 : existsb paymentRecord (completeLines (buffer ++ text ++ List.concat more)) =
  false)
    by (vm_compute; reflexivity).
  refine (conj H1 (conj H2 (conj H3 (conj H4 (conj H5 (conj H6 _)))))).
  eapply stream_end_completes_once; eassumption.
Defined.

(** Status events of the three kinds. *)
Lemma one_status_line_per_kind_witness :
  let a := js "c1" in
  let sid := stream0 in
  let evs := statusRun in
  let st := ui worldStreaming in
  (currentStreamIdRef st = Some sid) /\
  (truthy sid = true) /\
  (Forall2 (fun c c' =>
             if JS.eqb (cs_id c) a
             then cs_id c' = cs_id c /\
                  forall k,
                    match lastOfKind k evs with
                    | Some e =>
                        exists t,
                          ofKind k sid (messages c') = [statusEntry e t sid]
                    | None =>
                        ofKind k sid (messages c') =
                        ofKind k sid (messages c)
                    end
             else c' = c)
    (chats st) (chats (statusEvents a evs st))).
Proof.
  intros a sid evs st.
  assert (H1 : currentStreamIdRef st = Some sid)
    by (vm_compute; reflexivity).
  assert (H2 : truthy sid = true)
    by (reflexivity).
  refine (conj H1 (conj H2 _)).
  eapply one_status_line_per_kind; eassumption.
Defined.

(** A final response after a [thinking] record. *)
Lemma final_response_clears_status_lines_witness :
  let a := js "c1" in
  let sid := stream0 in
  let response := plainResponse in
  let st := ui worldThinking in
  (currentStreamIdRef st = Some sid) /\
  (Forall2 (fun c c' =>
             if JS.eqb (cs_id c) a
             then ofKind bot_thinking sid (messages c') = [] /\
                  ofKind bot_tool_executing sid (messages c') = [] /\
                  (sessionPhrase (re_content response) = false ->
                   paymentPhrase (re_content response) = false ->
                   ofKind bot_conversation_chunk sid (messages c') = [] /\
                   exists t,
                     messages c' =
                     filter (fun m => negb (ownedTransient (Some sid) m))
                       (messages c) ++
                     createMessagesFromResponse (responseData response) t)
             else c' = c)
    (chats st) (chats (handleResponse a response st))).
Proof.
  intros a sid response st.
  assert (H1 : currentStreamIdRef st = Some sid)
    by (vm_compute; reflexivity).
  refine (conj H1 _).
  eapply final_response_clears_status_lines; eassumption.
Defined.

(** A product list after a [thinking] record. *)
Lemma product_list_replaced_within_request_witness :
  let a := js "c1" in
  let sid := stream0 in
  let session_id := @None JSString in
  let products := Some [(js "p1", js "Rice")] : option (list (@RawProduct samplePayloads)) in
  let st := ui worldThinking in
  (currentStreamIdRef st = Some sid) /\
  (truthy sid = true) /\
  (Forall2 (fun c c' =>
             if JS.eqb (cs_id c) a
             then match products with
                  | Some (p :: ps) =>
                      ofKind bot_product_list sid (messages c') =
                      [ {| msg_id :=
                             js "raw_products" ++
                             decimal (Date_now (clock st));
                           body :=
                             MProductList
                               (map transformRawProduct (p :: ps));
                           streamId := Some sid |} ] /\
                      Forall (fun k => ofKind k sid (messages c') = [])
                        statusKinds /\
                      ofKind bot_cart_view sid (messages c') =
                      ofKind bot_cart_view sid (messages c)
                  | _ =>
                      messages c' =
                      filter (keepForSweep (Some sid)) (messages c)
                  end
             else c' = c)
    (chats st) (chats (handleRawProducts a session_id products st))).
Proof.
  intros a sid session_id products st.
  assert (H1 : currentStreamIdRef st = Some sid)
    by (vm_compute; reflexivity).
  assert (H2 : truthy sid = true)
    by (reflexivity).
  refine (conj H1 (conj H2 _)).
  eapply product_list_replaced_within_request; eassumption.
Defined.

(** A cart given by [cart_items] only, one entry without an id. *)
Lemma cart_event_shows_one_cart_witness :
  let a := js "c1" in
  let sid := stream0 in
  let session_id := @None JSString in
  let cart_items := cartOfTwo in
  let cart_summary := @None (@RawCartSummary samplePayloads) in
  let st := ui worldThinking in
  (currentStreamIdRef st = Some sid) /\
  (truthy sid = true) /\
  (let st' := handleRawCart a session_id cart_items cart_summary st in
  let throws := handleRawCartThrows cart_items cart_summary st in
  match cartOutcome cart_items cart_summary (clock st) with
  | CartShown ctx clk =>
      (exists rawItems,
         cartItemsFrom cart_items cart_summary (clock st) rawItems clk /\
         rawItems <> [] /\
         existsb toCartItemThrows rawItems = false /\
         ctx =
         {| items := Some (map toCartItem rawItems);
            total_items :=
              Some (cartTotal rcs_total_items sumQuantity cart_summary
                      rawItems);
            total_value :=
              Some (cartTotal rcs_total_value sumSubtotal cart_summary
                      rawItems);
            is_empty := Some (flaggedEmpty cart_summary);
            ready_for_checkout :=
              Some (negb (flaggedEmpty cart_summary)) |}) /\
      throws = false /\
      cartState st' =
      {| itemCount := or_zero (total_items ctx);
         total := or_zero (total_value ctx) |} /\
      Forall2 (fun c c' =>
                 if JS.eqb (cs_id c) a
                 then ofKind bot_cart_view sid (messages c') =
                      [ {| msg_id := js "raw_cart" ++ decimal (Date_now clk);
                           body := MCartView ctx;
                           streamId := Some sid |} ] /\
                      Forall (fun k => ofKind k sid (messages c') = [])
                        statusKinds /\
                      ofKind bot_product_list sid (messages c') =
                      ofKind bot_product_list sid (messages c)
                 else c' = c)
        (chats st) (chats st')
  | CartSwept _ =>
      nothingToShow cart_items cart_summary /\
      throws = false /\
      cartState st' = cartState st /\
      Forall2 (fun c c' =>
                 if JS.eqb (cs_id c) a
                 then messages c' =
                      filter (keepForSweep (Some sid)) (messages c)
                 else c' = c)
        (chats st) (chats st')
  | CartThrown clk =>
      (exists rawItems,
         cartItemsFrom cart_items cart_summary (clock st) rawItems clk /\
         existsb toCartItemThrows rawItems = true) /\
      throws = true /\
      cartState st' = cartState st /\
      chats st' = chats st
  end).
Proof.
  intros a sid session_id cart_items cart_summary st.
  assert (H1 : currentStreamIdRef st = Some sid)
    by (vm_compute; reflexivity).
  assert (H2 : truthy sid = true)
    by (reflexivity).
  refine (conj H1 (conj H2 _)).
  eapply cart_event_shows_one_cart; eassumption.
Defined.

(** [abort] while the first request streams. *)
Lemma abort_silences_current_call_witness :
  let w := worldThinking in
  let r0 := 0 in
  let q0 := call0 in
  let es := [Settle 0 (ReadChunk (line thinkingRanking)); Settle 0 ReadDone] in
  (abortControllerRef w = Some r0) /\
  (nth_error (requests w) r0 = Some q0) /\
  (emitted w (abort w) = [Abort r0] /\
  ui (abort w) = ui w /\
  filter (callbackOf r0) (log (run es (abort w))) =
  filter (callbackOf r0) (log w) /\
  forall s, ui (settle r0 s (abort w)) = ui w).
Proof.
  intros w r0 q0 es.
  assert (H1 : abortControllerRef w = Some r0)
    by (vm_compute; reflexivity).
  assert (H2 : nth_error (requests w) r0 = Some q0)
    by (vm_compute; reflexivity).
  refine (conj H1 (conj H2 _)).
  eapply abort_silences_current_call; eassumption.
Defined.

(** The second chat streams after the first request has ended. *)
Lemma stream_stays_in_its_chat_witness :
  let a := js "c1700000000003" in
  let es := [Settle 1 (ReadChunk (line thinkingRanking)); SwitchChat (js "c1"); Settle 0 (ReadChunk (line thinkingSearching)); Settle 1 ReadDone] in
  let w := worldSecondChat in
  (streamsFrom a w = true) /\
  (forallb notSend es = true) /\
  (sameExcept a (chats (ui w)) (chats (ui (run es w))) /\
  streamsFrom a (run es w) = true).
Proof.
  intros a es w.
  assert (H1 : streamsFrom a w = true)
    by (vm_compute; reflexivity).
  assert (H2 : forallb notSend es = true)
    by (reflexivity).
  refine (conj H1 (conj H2 _)).
  eapply stream_stays_in_its_chat; eassumption.
Defined.

(** The cart is asked for while the first request streams. *)
Lemma resend_mid_stream_is_never_read_witness :
  let w := worldThinking in
  let r1 := 0 in
  let q1 := call0 in
  let msg := js "show me my cart" in
  let appendMessage := true in
  let rnd := js "p7q2" in
  let s1 := ReadChunk (line thinkingRanking) in
  (abortControllerRef w = Some r1) /\
  (nth_error (requests w) r1 = Some q1) /\
  (phase q1 <> Returned) /\
  (let r2 := List.length (requests w) in
  let w' :=
    run [ SendMessage msg appendMessage rnd; Settle r1 s1;
          Settle r2 (FetchResolved true true) ] w in
  emitted w w' = [Abort r1; Fetch r2 msg (sessionId (ui w))] /\
  phaseOf r1 w' = Some Returned /\
  phaseOf r2 w' = Some Returned /\
  ui w' = ui (sendMessage msg appendMessage rnd w) /\
  isLoading (ui w') = true /\
  forall s, settle r2 s w' = w').
Proof.
  intros w r1 q1 msg appendMessage rnd s1.
  assert (H1 : abortControllerRef w = Some r1)
    by (vm_compute; reflexivity).
  assert (H2 : nth_error (requests w) r1 = Some q1)
    by (vm_compute; reflexivity).
  assert (H3 : phase q1 <> Returned)
    by (vm_compute; discriminate).
  refine (conj H1 (conj H2 (conj H3 _))).
  eapply resend_mid_stream_is_never_read; eassumption.
Defined.

(** Deleting the active one of two chats. *)
Lemma deleteChat_keeps_sidebar_witness :
  let id := js "c1700000000000" in
  let st := twoChats in
  (sidebarOK st) /\
  (exists st',
    deleteChat (activeChatId st) id st = Some st' /\
    sidebarOK st' /\
    chats st' =
    (if Nat.eqb (List.length (chats st)) 1 then chats st
     else filter (fun c => negb (JS.eqb (cs_id c) id)) (chats st)) /\
    (activeChatId st <> id -> activeChatId st' = activeChatId st) /\
    (activeChatId st = id -> List.length (chats st) <> 1 ->
     Some (activeChatId st') = option_map cs_id (hd_error (chats st')))).
Proof.
  intros id st.
  assert (H1 : sidebarOK st)
    by (split; [vm_compute; repeat constructor; simpl; intuition discriminate|vm_compute; discriminate]).
  refine (conj H1 _).
  eapply deleteChat_keeps_sidebar; eassumption.
Defined.

(** The first chat created. *)
Lemma createChat_adds_active_chat_witness :
  let st := initialModel in
  (NoDup (map cs_id (chats st))) /\
  (~ In (cs_id (newChat st)) (map cs_id (chats st))) /\
  (chats (createChat st) = chats st ++ [newChat st] /\
  activeChat (createChat st) = Some (newChat st) /\
  sidebarOK (createChat st)).
Proof.
  intros st.
  assert (H1 : NoDup (map cs_id (chats st)))
    by (vm_compute; repeat constructor; simpl; intuition).
  assert (H2 : ~ In (cs_id (newChat st)) (map cs_id (chats st)))
    by (vm_compute; simpl; intuition discriminate).
  refine (conj H1 (conj H2 _)).
  eapply createChat_adds_active_chat; eassumption.
Defined.

(** The input while the first request streams. *)
Lemma input_waits_for_completion_witness :
  let msg := js "rice" in
  let appendMessage := true in
  let rnd := js "k3x9" in
  let es := [Settle 0 (FetchResolved true true); Settle 0 (ReadChunk (line thinkingSearching))] in
  let value := js "dal" in
  let rnd' := js "p7q2" in
  let w := initialWorld in
  (existsb endsLoading
    (emitted (sendMessage msg appendMessage rnd w)
       (run es (sendMessage msg appendMessage rnd w))) = false) /\
  (pressSend value rnd' (run es (sendMessage msg appendMessage rnd w)) =
  (value, run es (sendMessage msg appendMessage rnd w))).
Proof.
  intros msg appendMessage rnd es value rnd' w.
  assert (H1 : existsb endsLoading
    (emitted (sendMessage msg appendMessage rnd w)
       (run es (sendMessage msg appendMessage rnd w))) = false)
    by (vm_compute; reflexivity).
  refine (conj H1 _).
  eapply input_waits_for_completion; eassumption.
Defined.

(** A text typed with white space around it. *)
Lemma input_sends_trimmed_text_witness :
  let value := js "  rice " in
  let rnd := js "k3x9" in
  let w := initialWorld in
  (isLoading (ui w) = false) /\
  (pressSend value rnd w =
  match trim value with
  | [] => (value, w)
  | c :: m => ([], sendMessage (c :: m) true rnd w)
  end /\
  trim (trim value) = trim value /\
  forall ws1 ws2,
    forallb isWhiteSpace ws1 = true ->
    forallb isWhiteSpace ws2 = true ->
    snd (pressSend (ws1 ++ value ++ ws2) rnd w) = snd (pressSend value rnd w)).
Proof.
  intros value rnd w.
  assert (H1 : isLoading (ui w) = false)
    by (reflexivity).
  refine (conj H1 _).
  eapply input_sends_trimmed_text; eassumption.
Defined.

(** ** Further scenarios *)

(** The name of the search tool as it is shown. *)
Example toolName_search_products :
  toolName (js "search_products") = js "Search Products".
Proof. reflexivity. Qed.

(** A letter outside [a] to [z] and [A] to [Z] is not a word character:
    it is left as it is, and the letter after it starts a word. *)
Example toolName_after_accent :
  toolName [233%N; 97%N; 95%N; 122%N] = [233%N; 65%N; 32%N; 90%N].
Proof. reflexivity. Qed.

(** A final response that starts a payment, between two [thinking]
    records.  Read in one chunk, the text entry takes its identifier at
    the render that follows the read, after the second [thinking] entry
    took its own; read in three chunks, it takes it before. *)
Example payment_text_id_is_taken_at_render :
  entryIds
    (readChunks 0
       [ line thinkingSearching ++ line paymentRecordLine ++
         line thinkingRanking ]
       worldStreaming)
  = [ js "m1700000000001"; js "response_1700000000006";
      js "payment_1700000000004"; js "thinking1700000000005" ] /\
  entryIds
    (readChunks 0
       [ line thinkingSearching; line paymentRecordLine;
         line thinkingRanking ]
       worldStreaming)
  = [ js "m1700000000001"; js "response_1700000000005";
      js "payment_1700000000004"; js "thinking1700000000006" ] /\
  paymentRecord paymentRecordLine = true.
Proof. vm_compute. repeat split. Qed.

(** A cart made from [cart_items]: the entry without an id takes the time
    for one, and the cart view takes the time after it. *)
Example cart_of_two_is_shown :
  let w' := readChunks 0 [line cartOfTwoLine] worldThinking in
  bodies w' =
  [ MUser (js "rice");
    MCartView
      {| items := Some [7%N; 1700000000003%N];
         total_items := Some (Some {| mantissa := 2; scale := 0 |});
         total_value := Some (Some {| mantissa := 200; scale := 0 |});
         is_empty := Some false;
         ready_for_checkout := Some true |} ] /\
  entryIds w' = [js "m1700000000001"; js "raw_cart1700000000004"] /\
  cartState (ui w') =
  {| itemCount := Some {| mantissa := 2; scale := 0 |};
     total := Some {| mantissa := 200; scale := 0 |} |} /\
  emitted worldThinking w' = [Parse 0 (payloadOf cartOfTwoLine); OnRawCart 0].
Proof. vm_compute. repeat split. Qed.

(** A cart with an item that cannot be shown: the callback throws before
    it touches the transcript or the header, the exception is logged like
    a record that does not parse, and the call goes on reading. *)
Example cart_item_that_cannot_be_shown :
  let w' := readChunks 0 [line cartUnshowableLine] worldThinking in
  emitted worldThinking w' =
  [ Parse 0 (payloadOf cartUnshowableLine); OnRawCart 0;
    Warn 0 (payloadOf cartUnshowableLine) ] /\
  bodies w' = bodies worldThinking /\
  cartState (ui w') = cartState (ui worldThinking) /\
  phaseOf 0 w' = Some (AwaitRead []).
Proof. vm_compute. repeat split. Qed.

(** A cart with an entry from which no item can be made, and no summary:
    there is nothing to show, and only the sweep is done. *)
Example cart_entry_without_item :
  let st' :=
    handleRawCart (js "c1") None cartUnreadable None (ui worldThinking) in
  map (fun c => map body (messages c)) (chats st') = [[MUser (js "rice")]] /\
  cartState st' = cartState (ui worldThinking) /\
  handleRawCartThrows cartUnreadable None (ui worldThinking) = false.
Proof. vm_compute. repeat split. Qed.

(** A record that is not followed by a line feed when the stream ends is
    never handed to the parser: [onComplete] runs and the record is
    dropped with the buffer. *)
Example unterminated_record_is_dropped :
  let w' :=
    settle 0 ReadDone (readChunks 0 [thinkingRanking] worldThinking) in
  emitted worldThinking w' = [OnComplete 0] /\
  transcript w' = [(user, None)].
Proof. vm_compute. split; reflexivity. Qed.

(** ** A stream behind a chat that is not on screen *)

(** A chat is created while the first request streams: the new chat is the
    active one.  The next [thinking] record of the first request rewrites
    the first chat, whose identifier is not the active one, and leaves the
    active chat alone. *)
Lemma handler_rewrites_chat_off_screen :
  let w := worldNewChat in
  let w' := settle 0 (ReadChunk (line thinkingRanking)) w in
  activeChatId (ui w) = js "c1700000000003" /\
  activeChatId (ui w') = js "c1700000000003" /\
  map cs_id (chats (ui w)) = [js "c1"; js "c1700000000003"] /\
  map (fun c => map body (messages c)) (chats (ui w)) =
  [[MUser (js "rice"); MThinking (js "Searching")]; []] /\
  map (fun c => map body (messages c)) (chats (ui w')) =
  [[MUser (js "rice"); MThinking (js "Ranking")]; []] /\
  map (fun c => map body (messages c))
    (chats (handleThinking (js "c1") (js "Ranking") None (ui w))) =
  [[MUser (js "rice"); MThinking (js "Ranking")]; []].
Proof. vm_compute. repeat split. Qed.

(** The first call, while the chat created meanwhile is on screen. *)
Lemma handlers_touch_only_chat_of_request_witness :
  let r := 0 in
  let q := call0 in
  let w := worldNewChat in
  (nth_error (requests w) r = Some q) /\
  (let a := rq_activeChatId q in
  (forall (data : StreamingResponse) (st : Model),
      sameExcept a (chats st) (chats (fst (dispatch r a data st)))) /\
  (forall st : Model,
      sameExcept a (chats st) (chats (removeThinkingMessages a st)) /\
      sameExcept a (chats st) (chats (handleStreamComplete a st)) /\
      sameExcept a (chats st)
        (chats (handleStreamError a (rq_chats q) st))) /\
  (forall (es : list Event) (s : Settlement),
      sameExcept a (chats (ui (run es w)))
        (chats (ui (settle r s (run es w))))) /\
  (forall (msg : JSString) (appendMessage : bool) (rnd : JSString),
      option_map rq_activeChatId
        (nth_error (requests (sendMessage msg appendMessage rnd w))
           (List.length (requests w))) =
      Some (activeChatId (ui w)))).
Proof.
  intros r q w.
  assert (H1 : nth_error (requests w) r = Some q)
    by (vm_compute; reflexivity).
  refine (conj H1 _).
  eapply handlers_touch_only_chat_of_request; eassumption.
Defined.

(** The stream of the first chat goes on in its chat while the chat
    created meanwhile is on screen. *)
Example stream_behind_a_new_chat :
  let w' := run [Settle 0 (ReadChunk (line thinkingRanking))] worldNewChat in
  map (fun c => List.length (messages c)) (chats (ui w')) = [2; 0] /\
  option_map cs_id (activeChat (ui w')) = Some (js "c1700000000003").
Proof. vm_compute. split; reflexivity. Qed.

(** The cart button is not held back by the loading flag.  Pressed while
    the first request streams, it cancels that request; once the first
    call has resumed, the answer to the cart request is not read. *)
Example cart_click_mid_stream :
  let w' :=
    run [ Settle 0 (ReadChunk (line thinkingRanking));
          Settle 1 (FetchResolved true true);
          Settle 1 (ReadChunk (line conversationChunk)) ]
      (handleCartClick (js "p7q2") worldThinking) in
  filter isCallback (emitted worldThinking w') = [] /\
  isLoading (ui w') = true /\
  switchChat (js "c1") (ui w') = ui w'.
Proof. vm_compute. repeat split; reflexivity. Qed.

(** A product as it is shown: the blank image and the number are left
    out, the category object without a name gives no category, the
    provider is named after [bpp_details]; one [null] among the images
    and the product is the one that reports the failure. *)
Example product_shown :
  let product := Products.transformRawProduct (riceRaw riceImages) in
  let failed :=
    Products.transformRawProduct
      (riceRaw (riceImages ++ [Products.ImageNull])) in
  Products.images product = [js "https://img/rice.png"] /\
  Products.category product = js "Uncategorized" /\
  Products.provider_id product = js "unknown" /\
  Products.provider_name product = js "Himira" /\
  Products.name failed = js "Error loading product" /\
  Products.images failed = [].
Proof. vm_compute. repeat split; reflexivity. Qed.
